(** * doccer: configuration discovery, scaffolding, build and deployment

    A shallow embedding of [doccer/__init__.py]: the functions
    [_load_config], [_load_configs], [_render_template],
    [_generate_sample_docs_source], [_build_with_sphinx], [_deploy_docs]
    and [precommit_hook], over a model of the Python values they handle,
    of [pathlib] paths and of a filesystem.

    Scope of the model.
    - Parsed TOML is a dictionary of [value]s; Python's [None] is
      [option]'s [None] (TOML itself has no null).
    - Exceptions are values of [exn]; a computation that may raise has a
      [result].
    - The filesystem maps absolute component lists to nodes.  There are no
      symbolic links and no permissions, and a [".."] component is an
      ordinary name: paths containing [".."] are outside the model.
    - The TOML parser, the template engine, the external builder and the
      choice of temporary directory names are parameters.
    - [_debug_out] only prints; its calls are left out, except for the one
      sub-expression of their arguments that can raise
      ([sphinx_proc.stdout.decode()]). *)

From Stdlib Require Import ZArith List String Ascii Bool Lia.
From stdpp Require Import base option list gmap strings fin_maps.

Set Warnings "-register-all".

(** ** Python values *)

(** What [tomli.load] can produce.  A float is kept by its truth value and
    a date or time by its text: the code never looks further into them. *)
Inductive value : Type :=
| VStr (s : string)
| VInt (n : Z)
| VBool (b : bool)
| VFloat (nonzero : bool)
| VDate (lit : string)
| VList (l : list value)
| VTable (m : gmap string value).

Inductive exn : Type :=
| KeyError (key : value)
| IndexError
| AttributeError (attr : string)
| TypeError
| ValueError
| FileNotFoundError
| FileExistsError
| IsADirectoryError
| NotADirectoryError
| SameFileError
| TOMLDecodeError
| TemplateNotFound (name : string)
| TemplateError
| UnicodeDecodeError
| CalledProcessError (returncode : Z).

Inductive result (A : Type) : Type :=
| Ok (a : A)
| Raise (e : exn).
Arguments Ok {A} a.
Arguments Raise {A} e.

Definition rbind {A B} (r : result A) (k : A → result B) : result B :=
  match r with
  | Ok a => k a
  | Raise e => Raise e
  end.

Declare Scope py_scope.
Delimit Scope py_scope with py.
Notation "'let?' x := r 'in' k" := (rbind r (λ x, k))
  (at level 10, x name, r at level 100, k at level 200) : py_scope.
Open Scope py_scope.

(** [bool(v)] *)
Definition truthy (v : value) : bool :=
  match v with
  | VStr s => negb (String.eqb s EmptyString)
  | VInt n => negb (Z.eqb n 0)
  | VBool b => b
  | VFloat nonzero => nonzero
  | VDate _ => true
  | VList l => match l with [] => false | _ => true end
  | VTable m => negb (Nat.eqb (size m) 0)
  end.

(** [d.get(k)]: [None] when the key is missing; only a dict has [get]. *)
Definition py_get (d : value) (k : string) : result (option value) :=
  match d with
  | VTable m => Ok (m !! k)
  | _ => Raise (AttributeError "get")
  end.

(** [d.get(k, dflt)]; the caller has already evaluated [dflt]. *)
Definition py_get_default (d : value) (k : string) (dflt : value) : result value :=
  let? o := py_get d k in Ok (default dflt o).

(** [d[k]] for a string key [k]. *)
Definition py_getitem (d : value) (k : string) : result value :=
  match d with
  | VTable m =>
      match m !! k with
      | Some v => Ok v
      | None => Raise (KeyError (VStr k))
      end
  | _ => Raise TypeError
  end.

(** [v[0]] *)
Definition py_getitem0 (v : value) : result value :=
  match v with
  | VList (x :: _) => Ok x
  | VList [] => Raise IndexError
  | VStr (String c _) => Ok (VStr (String c EmptyString))
  | VStr EmptyString => Raise IndexError
  | VTable _ => Raise (KeyError (VInt 0))
  | _ => Raise TypeError
  end.

(** [EmailContact(name=..., email=...)]: a TypedDict call builds a dict. *)
Definition EmailContact (name email : string) : value :=
  VTable (<["name" := VStr name]> (<["email" := VStr email]> ∅)).

(** ** Strings and bytes *)

(** [needle in hay] for [bytes] (and [str]). *)
Fixpoint contains (needle hay : string) : bool :=
  String.prefix needle hay ||
  match hay with
  | EmptyString => false
  | String _ hay' => contains needle hay'
  end.

(** [s.replace(old, EmptyString)] for a non-empty [old]: scanning from the left,
    each occurrence of [old] is dropped.  [skip] counts the characters of
    the occurrence being dropped. *)
Fixpoint remove_all_from (old : string) (skip : nat) (s : string) : string :=
  match s with
  | EmptyString => EmptyString
  | String c s' =>
      match skip with
      | S k => remove_all_from old k s'
      | O =>
          if String.prefix old s
          then remove_all_from old (String.length old - 1) s'
          else String c (remove_all_from old 0 s')
      end
  end.

Definition str_remove (old s : string) : string := remove_all_from old 0 s.

(** [fnmatch] for patterns made of literal characters and [*]. *)
Fixpoint fnmatch (pat name : string) : bool :=
  match pat with
  | EmptyString => match name with EmptyString => true | _ => false end
  | String c pat' =>
      if Ascii.eqb c "*"%char
      then (fix star (n : string) : bool :=
              fnmatch pat' n ||
              match n with
              | EmptyString => false
              | String _ n' => star n'
              end) name
      else match name with
           | String d name' => Ascii.eqb c d && fnmatch pat' name'
           | EmptyString => false
           end
  end.

(** [bytes.decode()] raises unless the bytes are well-formed UTF-8
    (Unicode, table 3-7).  [need] is the number of continuation bytes still
    expected, [lo] and [hi] bound the next one. *)
Fixpoint utf8_scan (need : nat) (lo hi : N) (bs : list N) : bool :=
  match bs with
  | [] => match need with O => true | _ => false end
  | b :: bs' =>
      match need with
      | S k => (lo <=? b)%N && (b <=? hi)%N && utf8_scan k 128 191 bs'
      | O =>
          if (b <=? 127)%N then utf8_scan 0 128 191 bs'
          else if (194 <=? b)%N && (b <=? 223)%N then utf8_scan 1 128 191 bs'
          else if (b =? 224)%N then utf8_scan 2 160 191 bs'
          else if (b =? 237)%N then utf8_scan 2 128 159 bs'
          else if (225 <=? b)%N && (b <=? 239)%N then utf8_scan 2 128 191 bs'
          else if (b =? 240)%N then utf8_scan 3 144 191 bs'
          else if (b =? 244)%N then utf8_scan 3 128 143 bs'
          else if (241 <=? b)%N && (b <=? 243)%N then utf8_scan 3 128 191 bs'
          else false
      end
  end.

Fixpoint bytes_of (s : string) : list N :=
  match s with
  | EmptyString => []
  | String c s' => N_of_ascii c :: bytes_of s'
  end.

Definition utf8_valid (s : string) : bool := utf8_scan 0 128 191 (bytes_of s).

Definition decode (stdout : string) : result string :=
  if utf8_valid stdout then Ok stdout else Raise UnicodeDecodeError.

(** ** pathlib *)

(** A [PurePosixPath]: whether it is anchored at the root, and its
    components.  [pathlib] keeps a root of exactly two slashes apart from
    the root of one slash; strings that start so are not covered (see
    [single_root]). *)
Record Path : Type := { absolute : bool; parts : list string }.

Fixpoint split_on (sep : ascii) (s : string) : list string :=
  match s with
  | EmptyString => [EmptyString]
  | String c s' =>
      if Ascii.eqb c sep then EmptyString :: split_on sep s'
      else match split_on sep s' with
           | [] => [String c EmptyString]
           | w :: ws => String c w :: ws
           end
  end.

Definition is_component (c : string) : bool :=
  negb (String.eqb c EmptyString) && negb (String.eqb c ".").

(** [Path(s)] for a string [s]: empty and ["."] components vanish. *)
Definition path_of (s : string) : Path :=
  {| absolute := String.prefix "/" s;
     parts := List.filter is_component (split_on "/" s) |}.

(** [Path(v)] for a Python value. *)
Definition py_Path (v : value) : result Path :=
  match v with
  | VStr s => Ok (path_of s)
  | _ => Raise TypeError
  end.

(** [str(p)] *)
Definition path_str (p : Path) : string :=
  if absolute p then "/" +:+ String.concat "/" (parts p)
  else match parts p with
       | [] => "."
       | _ => String.concat "/" (parts p)
       end.

(** [p.parent] *)
Definition path_parent (p : Path) : Path :=
  {| absolute := absolute p; parts := removelast (parts p) |}.

(** [p / q] *)
Definition path_div (p q : Path) : Path :=
  if absolute q then q
  else {| absolute := absolute p; parts := parts p ++ parts q |}.

(** [under root l]: what is left of [l] below [root], when [l] starts
    with [root]. *)
Definition under (root l : list string) : option (list string) :=
  if decide (take (length root) l = root)
  then Some (drop (length root) l)
  else None.

(** [p.relative_to(q)] *)
Definition relative_to (p q : Path) : result Path :=
  if Bool.eqb (absolute p) (absolute q) then
    match under (parts q) (parts p) with
    | Some rel => Ok {| absolute := false; parts := rel |}
    | None => Raise ValueError
    end
  else Raise ValueError.

(** ** The filesystem *)

Inductive node : Type :=
| File (content : string)
| Dir.

Abbreviation filesystem := (gmap (list string) node).

(** The key under which the operating system finds [p], for a process
    whose working directory is [cwd]. *)
Definition resolve (cwd : list string) (p : Path) : list string :=
  (if absolute p then [] else cwd) ++ parts p.

Definition fs_exists (k : list string) (fs : filesystem) : bool :=
  match fs !! k with
  | Some _ => true
  | None => false
  end.

(** The way down to [k] runs into a regular file: one of the proper
    prefixes of [k] is one. *)
Definition through_file (k : list string) (fs : filesystem) : bool :=
  existsb (λ i, match fs !! take i k with
                | Some (File _) => true
                | _ => false
                end)
          (seq 0 (length k)).

(** [open(k, "rb").read()]: a missing entry is [ENOTDIR] when the way to
    it runs into a regular file, [ENOENT] otherwise. *)
Definition fs_read (k : list string) (fs : filesystem) : result string :=
  match fs !! k with
  | Some (File c) => Ok c
  | Some Dir => Raise IsADirectoryError
  | None =>
      if through_file k fs then Raise NotADirectoryError
      else Raise FileNotFoundError
  end.

(** [open(k, "w")]: the file is created, or emptied, at once. *)
Definition fs_open_w (k : list string) (fs : filesystem) : result filesystem :=
  match fs !! k with
  | Some Dir => Raise IsADirectoryError
  | _ =>
      match fs !! removelast k with
      | Some Dir => Ok (<[k := File EmptyString]> fs)
      | Some (File _) => Raise NotADirectoryError
      | None =>
          if through_file k fs then Raise NotADirectoryError
          else Raise FileNotFoundError
      end
  end.

(** [os.mkdir(k)] inside [os.makedirs(..., exist_ok=True)]: an existing
    directory is accepted. *)
Definition fs_mkdir_exist_ok (k : list string) (fs : filesystem) : result filesystem :=
  match fs !! k with
  | Some Dir => Ok fs
  | Some (File _) => Raise FileExistsError
  | None =>
      match fs !! removelast k with
      | Some Dir => Ok (<[k := Dir]> fs)
      | Some (File _) => Raise NotADirectoryError
      | None =>
          if through_file k fs then Raise NotADirectoryError
          else Raise FileNotFoundError
      end
  end.

(** [os.makedirs(name, exist_ok=True)], by recursion on the reversed
    components of [name]: the head is made first when it is not there,
    then the directory itself.  [base] is the root or the working
    directory. *)
Fixpoint makedirs_rev (base : list string) (rparts : list string)
    (fs : filesystem) : result filesystem :=
  match rparts with
  | [] =>
      match fs !! base with
      | Some Dir => Ok fs
      | Some (File _) => Raise FileExistsError
      | None => Raise FileNotFoundError
      end
  | tail :: rhead =>
      let head := base ++ rev rhead in
      let? fs1 :=
        match rhead with
        | _ :: _ => if fs_exists head fs then Ok fs else makedirs_rev base rhead fs
        | [] => Ok fs
        end in
      fs_mkdir_exist_ok (head ++ [tail]) fs1
  end.

Definition makedirs (cwd : list string) (p : Path) (fs : filesystem) : result filesystem :=
  makedirs_rev (if absolute p then [] else cwd) (rev (parts p)) fs.

(** [shutil.copy(src, dst)]: into [dst] when [dst] is a directory; then
    [copyfile] refuses to copy a file onto itself, reads the source and
    writes the destination. *)
Definition shutil_copy (src dst : list string) (fs : filesystem) : result filesystem :=
  let dst := match fs !! dst with
             | Some Dir => dst ++ [List.last src EmptyString]
             | _ => dst
             end in
  if decide (src = dst) then Raise SameFileError
  else
    let? content := fs_read src fs in
    let? fs1 := fs_open_w dst fs in
    Ok (<[dst := File content]> fs1).

(** [Path(root).rglob(pattern)]: every entry below [root] whose name
    matches, as [root / relative].  The order is the enumeration order of
    the map; the list is taken when the traversal starts. *)
Definition rglob (cwd : list string) (root : Path) (pattern : string)
    (fs : filesystem) : list Path :=
  omap (λ k,
          match under (resolve cwd root) k with
          | Some (c :: rel) =>
              if fnmatch pattern (List.last (c :: rel) EmptyString)
              then Some {| absolute := absolute root; parts := parts root ++ c :: rel |}
              else None
          | _ => None
          end)
       (map_to_list fs).*1.

(** [shutil.rmtree(k)]: [k] and everything below it go. *)
Definition rmtree (k : list string) (fs : filesystem) : filesystem :=
  filter (λ kv, under k kv.1 = None) fs.

(** ** The world and its effects *)

(** A ghost record of the stages entered, in order: each names the
    manifest of the configuration it runs for, and the builder's entry
    keeps its command line and the filesystem the builder starts from. *)
Inductive event : Type :=
| EvScaffold (pyproject : string)
| EvBuild (pyproject : string) (cmd : list string) (seen : filesystem)
| EvDeploy (pyproject : string).

Record world : Type := World { fs : filesystem; trace : list event }.

(** A Python computation: it returns or raises, and the world moves on
    in both cases. *)
Definition M (A : Type) : Type := world → result A * world.

Definition ret {A} (a : A) : M A := λ w, (Ok a, w).

Definition raise {A} (e : exn) : M A := λ w, (Raise e, w).

Definition bind {A B} (m : M A) (k : A → M B) : M B :=
  λ w, match m w with
       | (Ok a, w') => k a w'
       | (Raise e, w') => (Raise e, w')
       end.

Notation "x <- m ;; k" := (bind m (λ x, k))
  (at level 100, m at next level, right associativity) : py_scope.
Notation "m ;; k" := (bind m (λ _, k))
  (at level 100, right associativity) : py_scope.

Definition lift {A} (r : result A) : M A := λ w, (r, w).

Definition get_fs : M filesystem := λ w, (Ok (fs w), w).

Definition put_fs (f : filesystem) : M unit :=
  λ w, (Ok tt, {| fs := f; trace := trace w |}).

(** A filesystem operation that may fail; a failed one changes nothing. *)
Definition update_fs (op : filesystem → result filesystem) : M unit :=
  λ w, match op (fs w) with
       | Ok f => (Ok tt, {| fs := f; trace := trace w |})
       | Raise e => (Raise e, w)
       end.

Definition mark (e : event) : M unit :=
  λ w, (Ok tt, {| fs := fs w; trace := trace w ++ [e] |}).

(** [for x in l: body(x)] *)
Fixpoint for_ {A} (l : list A) (body : A → M unit) : M unit :=
  match l with
  | [] => ret tt
  | x :: l' => body x ;; for_ l' body
  end.

(** ** Configuration records *)

(** [DocConfig]: a dict display with these six keys. *)
Record DocConfig : Type := {
  pyproject_path : string;
  doc_src : value;
  doc_dest : value;
  pyproject_data : gmap string value;
  py_modules : value;
  derived : gmap string value
}.

(** [config["derived"][k] = v] *)
Definition set_derived (k : string) (v : value) (config : DocConfig) : DocConfig :=
  {| pyproject_path := pyproject_path config;
     doc_src := doc_src config;
     doc_dest := doc_dest config;
     pyproject_data := pyproject_data config;
     py_modules := py_modules config;
     derived := <[k := v]> (derived config) |}.

(** What a finished child process leaves behind, or why it never ran. *)
Inductive proc_outcome : Type :=
| SpawnFailed (e : exn)
| Completed (returncode : Z) (stdout : string) (after : filesystem).

(** The arguments of a command line must be strings. *)
Fixpoint argv (cmd : list value) : result (list string) :=
  match cmd with
  | [] => Ok []
  | VStr s :: cmd' => let? rest := argv cmd' in Ok (s :: rest)
  | _ :: _ => Raise TypeError
  end.

(** Lines 150-171 of [_load_config]: from the parsed manifest to the
    configuration.  The default of [py_modules] is an argument of [get],
    so it is evaluated whether or not the key is there. *)
Definition _load_config_toml (pyproject : Path) (toml : gmap string value)
    : result (option DocConfig) :=
  let? magdocs := py_get (default (VTable ∅) (toml !! "tool")) "doccer" in
  match magdocs with
  | None => Ok None
  | Some magdocs_config =>
      let? src_dir := py_get_default magdocs_config "doc_src" (VStr "docs/src") in
      let? project := py_getitem (VTable toml) "project" in
      let? authors := py_get project "authors" in
      let? author :=
        if from_option truthy false authors
        then let? project := py_getitem (VTable toml) "project" in
             let? authors := py_getitem project "authors" in
             py_getitem0 authors
        else Ok (EmailContact "unknown" "unknown") in
      let derived_config := <["author" := author]> (∅ : gmap string value) in
      let? src_path := py_Path src_dir in
      let build := path_str (path_div (path_parent src_path) (path_of "build")) in
      let derived_config := <["build_dir" := VStr build]> derived_config in
      let derived_config := <["deploy_dir" := VStr "."]> derived_config in
      let? dest := py_get_default magdocs_config "doc_dest" (VStr ".") in
      let? project := py_getitem (VTable toml) "project" in
      let? name := py_getitem project "name" in
      let? modules := py_get_default magdocs_config "py_modules" (VList [name]) in
      Ok (Some {| pyproject_path := path_str pyproject;
                  pyproject_data := toml;
                  doc_src := src_dir;
                  doc_dest := dest;
                  derived := derived_config;
                  py_modules := modules |})
  end.

Section Doccer.

(** The process's working directory. *)
Variable cwd : list string.
(** [tomli.load], from the bytes of the file. *)
Variable tomli_load : string → result (gmap string value).
(** [_jinja_env().get_template]: the template, ready to be rendered
    against a configuration. *)
Variable get_template : string → result (DocConfig → result string).
(** What running a command line does, from a given filesystem. *)
Variable run_process : list string → filesystem → proc_outcome.
(** The name [tempfile] picks for a new directory. *)
Variable mkdtemp : filesystem → string.

(** [with tempfile.TemporaryDirectory() as tmpdir: body]: the directory
    is made; however [body] ends, the tree at its path is then removed.
    A path that is gone by then is accepted; a path where [body] left a
    regular file makes the cleanup raise [NotADirectoryError], in place
    of what [body] returned or raised, and the file stays. *)
Definition TemporaryDirectory {A} (body : string → M A) : M A :=
  λ w,
    let tmpdir := mkdtemp (fs w) in
    let k := resolve cwd (path_of tmpdir) in
    match fs w !! k, fs w !! removelast k with
    | Some _, _ => (Raise FileExistsError, w)
    | None, Some Dir =>
        let '(r, w') := body tmpdir {| fs := <[k := Dir]> (fs w); trace := trace w |} in
        match fs w' !! k with
        | Some (File _) => (Raise NotADirectoryError, w')
        | _ => (r, {| fs := rmtree k (fs w'); trace := trace w' |})
        end
    | None, Some (File _) => (Raise NotADirectoryError, w)
    | None, None => (Raise FileNotFoundError, w)
    end.

(** [subprocess.run(cmd, check=True, capture_output=True).stdout] *)
Definition subprocess_run_check (args : list string) : M string :=
  fs0 <- get_fs ;;
  match run_process args fs0 with
  | SpawnFailed e => raise e
  | Completed returncode stdout after =>
      put_fs after ;;
      if Z.eqb returncode 0 then ret stdout
      else raise (CalledProcessError returncode)
  end.

Definition _load_config (pyproject : Path) : M (option DocConfig) :=
  fs0 <- get_fs ;;
  data <- lift (fs_read (resolve cwd pyproject) fs0) ;;
  toml <- lift (tomli_load data) ;;
  lift (_load_config_toml pyproject toml).

(** The loop of [_load_configs]; [configs] is the list built so far. *)
Fixpoint load_each (pyprojects : list Path) (configs : list DocConfig)
    : M (list DocConfig) :=
  match pyprojects with
  | [] => ret configs
  | pyproject :: rest =>
      c <- _load_config pyproject ;;
      match c with
      | Some config => load_each rest (configs ++ [config])
      | None => load_each rest configs
      end
  end.

Definition _load_configs (repo_root : Path) : M (list DocConfig) :=
  fs0 <- get_fs ;;
  load_each (rglob cwd repo_root "pyproject.toml" fs0) [].

Definition _render_template (template_name : string) (dest_dir : Path)
    (config : DocConfig) : M unit :=
  template <- lift (get_template template_name) ;;
  update_fs (makedirs cwd dest_dir) ;;
  let target :=
    resolve cwd (path_div dest_dir (path_of (str_remove ".jinja2" template_name))) in
  update_fs (fs_open_w target) ;;
  text <- lift (template config) ;;
  update_fs (λ f, Ok (<[target := File text]> f)).

Definition _generate_sample_docs_source (config : DocConfig) : M unit :=
  mark (EvScaffold (pyproject_path config)) ;;
  source_path <- lift (py_Path (doc_src config)) ;;
  _render_template "README.rst.jinja2" source_path config ;;
  _render_template "subpage.rst.jinja2" (path_div source_path (path_of "docs")) config ;;
  _render_template "conf.py.jinja2" source_path config ;;
  _render_template "Makefile.jinja2" source_path config.

Definition _build_with_sphinx (config : DocConfig) : M bool :=
  build_dir <- lift (py_getitem (VTable (derived config)) "build_dir") ;;
  let cmd := [VStr "sphinx-build"; VStr "-b"; VStr "rst"; doc_src config; build_dir] in
  args <- lift (argv cmd) ;;
  fs0 <- get_fs ;;
  mark (EvBuild (pyproject_path config) args fs0) ;;
  stdout <- subprocess_run_check args ;;
  _ <- lift (decode stdout) ;;
  ret (contains "writing output" stdout).

Definition _deploy_docs (config : DocConfig) : M unit :=
  mark (EvDeploy (pyproject_path config)) ;;
  deploy_dir <- lift (py_getitem (VTable (derived config)) "deploy_dir") ;;
  deploy_to <- lift (py_Path deploy_dir) ;;
  build_dir <- lift (py_getitem (VTable (derived config)) "build_dir") ;;
  build_root <- lift (py_Path build_dir) ;;
  fs0 <- get_fs ;;
  for_ (rglob cwd build_root "*.rst" fs0) (λ docfile,
    rel <- lift (relative_to docfile build_root) ;;
    let dest := path_div deploy_to rel in
    update_fs (shutil_copy (resolve cwd docfile) (resolve cwd dest))).

(** The body of the loop of [precommit_hook], for one configuration. *)
Definition hook_body (config : DocConfig) : M unit :=
  TemporaryDirectory (λ tmpdir,
    let config := set_derived "build_dir" (VStr tmpdir) config in
    source_path <- lift (py_Path (doc_src config)) ;;
    fs0 <- get_fs ;;
    (if fs_exists (resolve cwd source_path) fs0 then ret tt
     else _generate_sample_docs_source config) ;;
    _ <- _build_with_sphinx config ;;
    _deploy_docs config).

Definition precommit_hook : M unit :=
  configs <- _load_configs (path_of ".") ;;
  for_ configs hook_body.

End Doccer.

(** ** Notions used in the statements *)

(** [DerivedConfigData]: the keys the TypedDict declares, all of which
    its docstring promises to exist. *)
Definition DerivedConfigData : gset string :=
  {["author"; "build_dir"; "deploy_dir"; "project_name"]}.

(** A path the model covers: none of its components is [".."]. *)
Definition in_model (p : Path) : Prop :=
  Forall (λ c, c ≠ "..") (parts p).

(** The manifest has no documentation-tool section: there is no [tool]
    table, or the [tool] table has no [doccer] entry. *)
Definition lacks_section (toml : gmap string value) : Prop :=
  toml !! "tool" = None ∨
  ∃ tool, toml !! "tool" = Some (VTable tool) ∧ tool !! "doccer" = None.

(** The manifest has the section [sec], and [tool] is the table around it. *)
Definition has_section (toml sec : gmap string value) : Prop :=
  ∃ tool, toml !! "tool" = Some (VTable tool) ∧ tool !! "doccer" = Some (VTable sec).

(** The author can be computed from the project table: there is no
    [authors] entry, or it is falsy, or its first element can be taken. *)
Definition authors_usable (proj : gmap string value) : Prop :=
  match proj !! "authors" with
  | Some v => truthy v = true → ∃ a, py_getitem0 v = Ok a
  | None => True
  end.

(** Following the spec's words: [rel] taken relative to the directory of
    the manifest. *)
Definition manifest_relative (pyproject : Path) (rel : string) : Path :=
  path_div (path_parent pyproject) (path_of rel).

(** The string does not start with exactly two slashes, so that
    [pathlib] gives it the root of one slash, or none. *)
Definition single_root (s : string) : Prop :=
  String.prefix "//" s = true → String.prefix "///" s = true.

(** The name holds no slash. *)
Fixpoint slash_free (s : string) : bool :=
  match s with
  | EmptyString => true
  | String c s' => negb (Ascii.eqb c "/") && slash_free s'
  end.

(** Every name on the way to every entry is free of slashes. *)
Definition valid_names (f : filesystem) : Prop :=
  ∀ k, is_Some (f !! k) → Forall (λ c, slash_free c = true) k.

(** The manifest a stage was entered for. *)
Definition ev_manifest (ev : event) : string :=
  match ev with
  | EvScaffold pyproject => pyproject
  | EvBuild pyproject _ _ => pyproject
  | EvDeploy pyproject => pyproject
  end.

(** Every entry but the root lies in a directory. *)
Definition fs_closed (f : filesystem) : Prop :=
  ∀ k x, is_Some (f !! (k ++ [x])) → f !! k = Some Dir.

(** The filesystem with a directory at every step from [base] down to
    [base ++ rev rparts], the deepest one put last. *)
Fixpoint dirs_made_rev (base rparts : list string) (f : filesystem) : filesystem :=
  match rparts with
  | [] => f
  | tail :: rhead => <[(base ++ rev rhead) ++ [tail] := Dir]> (dirs_made_rev base rhead f)
  end.

Definition dirs_made (base ps : list string) (f : filesystem) : filesystem :=
  dirs_made_rev base (rev ps) f.

(** The filesystem after scaffolding into [src]: the directories on the
    way to it, the root document, the [docs] subdirectory with the example
    subpage, the build configuration and the makefile. *)
Definition scaffolded (cwd : list string) (src : Path)
    (readme subpage conf makefile : string) (f : filesystem) : filesystem :=
  let K := resolve cwd src in
  <[K ++ ["Makefile"] := File makefile]>
    (<[K ++ ["conf.py"] := File conf]>
       (<[(K ++ ["docs"]) ++ ["subpage.rst"] := File subpage]>
          (<[K ++ ["docs"] := Dir]>
             (<[K ++ ["README.rst"] := File readme]>
                (dirs_made (if absolute src then [] else cwd) (parts src) f))))).

(** ** Manifests, tools and worlds of the examples *)

(** [[tool.doccer]] is there and empty; [project.name = "demo"]. *)
Definition demo_toml : gmap string value :=
  <["tool" := VTable (<["doccer" := VTable ∅]> ∅)]>
    (<["project" := VTable (<["name" := VStr "demo"]> ∅)]> ∅).

(** No [[tool.doccer]] section. *)
Definition plain_toml : gmap string value :=
  <["project" := VTable (<["name" := VStr "plain"]> ∅)]> ∅.

(** An explicit module list, and a project table without a name. *)
Definition nameless_toml : gmap string value :=
  <["tool" := VTable (<["doccer" := VTable (<["py_modules" := VList [VStr "m"]]> ∅)]> ∅)]>
    (<["project" := VTable ∅]> ∅).

(** The section, and no project table at all. *)
Definition projectless_toml : gmap string value :=
  <["tool" := VTable (<["doccer" := VTable (<["py_modules" := VList [VStr "m"]]> ∅)]> ∅)]> ∅.

(** A parser for files that hold the name of one of these manifests. *)
Definition demo_tomli (data : string) : result (gmap string value) :=
  if String.eqb data "demo" then Ok demo_toml
  else if String.eqb data "plain" then Ok plain_toml
  else Raise TOMLDecodeError.

Definition demo_templates (name : string) : result (DocConfig → result string) :=
  Ok (λ config, Ok ("rendered " +:+ name +:+ " for " +:+ pyproject_path config)).

(** A builder that writes [index.rst] into its output directory, prints
    [stdout] and exits with [returncode]. *)
Definition demo_sphinx (returncode : Z) (stdout : string)
    (args : list string) (f : filesystem) : proc_outcome :=
  match args with
  | [_; _; _; _; dest] =>
      Completed returncode stdout
        (<[resolve ["repo"] (path_of dest) ++ ["index.rst"] := File "built"]> f)
  | _ => SpawnFailed FileNotFoundError
  end.

Definition demo_mkdtemp (f : filesystem) : string := "/tmp/tmpdoccer".

(** A repository at [/repo] with one manifest and a [docs/src] directory. *)
Definition demo_fs : filesystem :=
  <[["repo"; "pyproject.toml"] := File "demo"]>
    (<[["repo"; "docs"; "src"] := Dir]>
       (<[["repo"; "docs"] := Dir]>
          (<[["repo"] := Dir]> (<[["tmp"] := Dir]> (<[[] := Dir]> ∅))))).

(** The same repository with two projects, [a] and [b]. *)
Definition two_projects_fs : filesystem :=
  <[["repo"; "a"; "pyproject.toml"] := File "demo"]>
    (<[["repo"; "a"] := Dir]>
       (<[["repo"; "b"; "pyproject.toml"] := File "demo"]>
          (<[["repo"; "b"] := Dir]> (delete ["repo"; "pyproject.toml"] demo_fs)))).

(** The repository without its [docs] directory. *)
Definition bare_fs : filesystem :=
  delete ["repo"; "docs"; "src"] (delete ["repo"; "docs"] demo_fs).

(** A finished build in [/tmp/tmpdoccer] with a page in a subdirectory
    that the repository does not have. *)
Definition nested_build_fs : filesystem :=
  <[["tmp"; "tmpdoccer"; "api"; "mod.rst"] := File "module"]>
    (<[["tmp"; "tmpdoccer"; "api"] := Dir]>
       (<[["tmp"; "tmpdoccer"] := Dir]> demo_fs)).

(** The configuration of the demo manifest, with the build directory the
    driver gives it. *)
Definition demo_config : DocConfig :=
  {| pyproject_path := "pyproject.toml";
     doc_src := VStr "docs/src";
     doc_dest := VStr ".";
     pyproject_data := demo_toml;
     py_modules := VList [VStr "demo"];
     derived :=
       <["build_dir" := VStr "/tmp/tmpdoccer"]>
         (<["deploy_dir" := VStr "."]>
            (<["author" := EmailContact "unknown" "unknown"]> ∅)) |}.

(** Builder output that is not UTF-8: the marker, then the byte [0xE9]. *)
Definition latin1_stdout : string :=
  "writing output... caf" +:+ String "233"%char EmptyString.

(** The demo repository with a second manifest, in [lib], that has no
    [[tool.doccer]] section. *)
Definition mixed_fs : filesystem :=
  <[["repo"; "lib"; "pyproject.toml"] := File "plain"]>
    (<[["repo"; "lib"] := Dir]> demo_fs).

(** A finished build in [/tmp/tmpdoccer]: a page at the top, a page in
    [docs], which the repository has, and a file that is not a page. *)
Definition flat_build_fs : filesystem :=
  <[["tmp"; "tmpdoccer"; "index.rst"] := File "index"]>
    (<[["tmp"; "tmpdoccer"; "docs"; "subpage.rst"] := File "subpage"]>
       (<[["tmp"; "tmpdoccer"; "docs"] := Dir]>
          (<[["tmp"; "tmpdoccer"; "objects.inv"] := File "inventory"]>
             (<[["tmp"; "tmpdoccer"] := Dir]> demo_fs)))).

(** Between [w] and [w'], stages were entered for manifests among [ps]
    only. *)
Definition entered_among (ps : list string) (w w' : world) : Prop :=
  ∃ evs, trace w' = trace w ++ evs ∧ Forall (λ ev, ev_manifest ev ∈ ps) evs.

(** A manifest whose [tool] entry is a number: valid TOML, without a
    documentation-tool section. *)
Definition scalar_tool_toml : gmap string value :=
  <["tool" := VInt 1]> (<["project" := VTable (<["name" := VStr "demo"]> ∅)]> ∅).

Definition scalar_tomli (data : string) : result (gmap string value) :=
  if String.eqb data "scalar" then Ok scalar_tool_toml
  else demo_tomli data.

(** The demo repository with such a manifest in [lib]. *)
Definition scalar_fs : filesystem :=
  <[["repo"; "lib"; "pyproject.toml"] := File "scalar"]>
    (<[["repo"; "lib"] := Dir]> demo_fs).

(** A builder that works until a page has been deployed to the
    repository, and exits with status 1 from then on. *)
Definition second_run_fails (args : list string) (f : filesystem) : proc_outcome :=
  demo_sphinx (if fs_exists ["repo"; "index.rst"] f then 1 else 0) "writing output" args f.

(** What the manifest of project [a] or [b] resolves to, and the world
    once the first of the two, [b], has been built and deployed. *)
Definition project_config (pyproject : string) : DocConfig :=
  {| pyproject_path := pyproject;
     doc_src := VStr "docs/src";
     doc_dest := VStr ".";
     pyproject_data := demo_toml;
     py_modules := VList [VStr "demo"];
     derived :=
       <["deploy_dir" := VStr "."]>
         (<["build_dir" := VStr "docs/build"]>
            (<["author" := EmailContact "unknown" "unknown"]> ∅)) |}.

Definition first_done : world :=
  {| fs := <[["repo"; "index.rst"] := File "built"]> two_projects_fs;
     trace := [EvBuild "b/pyproject.toml"
                 ["sphinx-build"; "-b"; "rst"; "docs/src"; "/tmp/tmpdoccer"]
                 (<[["tmp"; "tmpdoccer"] := Dir]> two_projects_fs);
               EvDeploy "b/pyproject.toml"] |}.

(** ** The rest of the package *)

(** [doccer.types.ProjectType], a string enumeration. *)
Inductive ProjectType : Type :=
| PDM
| POETRY
| SETUP_PY
| UNKNOWN.

(** [bool(p)] for a path: [pathlib] gives paths neither [__bool__] nor
    [__len__], so every path is truthy. *)
Definition path_truthy (p : Path) : bool := true.

Section Project.

Variable cwd : list string.
Variable tomli_load : string → result (gmap string value).

(** [_get_project_type]: the conditions test the paths themselves, not
  whether anything exists there.  A call that reaches the end of the
  first branch without returning gives Python's [None]. *)
Definition _get_project_type (project_root : Path) : M (option ProjectType) :=
if path_truthy (path_div project_root (path_of "pyproject.toml")) then
  fs0 <- get_fs ;;
  data <- lift (fs_read (resolve cwd (path_div project_root (path_of "pyproject.toml")))
                  fs0) ;;
  toml <- lift (tomli_load data) ;;
  poetry <- lift (py_get (default (VTable ∅) (toml !! "tool")) "poetry") ;;
  if from_option truthy false poetry then ret (Some POETRY)
  else
    pdm <- lift (py_get (default (VTable ∅) (toml !! "tool")) "pdm") ;;
    if from_option truthy false pdm then ret (Some PDM)
    else ret None
else if path_truthy (path_div project_root (path_of "setup.py")) then ret (Some SETUP_PY)
else ret (Some UNKNOWN).

(** [PyprojectReader(pyproject_path)]: the object keeps the parsed
  manifest in its [toml] attribute. *)
Definition PyprojectReader (pyproject_path : Path) : M (gmap string value) :=
fs0 <- get_fs ;;
data <- lift (fs_read (resolve cwd pyproject_path) fs0) ;;
lift (tomli_load data).

End Project.

(** What a manifest yields in a given world: its configuration, or
    nothing when it opts out or cannot be loaded. *)
Definition loaded (cwd : list string) (tomli_load : string → result (gmap string value))
    (w : world) (pyproject : Path) : option DocConfig :=
  match (_load_config cwd tomli_load pyproject w).1 with
  | Ok o => o
  | Raise _ => None
  end.

(** Lines 155-158 of [_load_config] on their own: the author, from the
    project table. *)
Definition author_of (proj : gmap string value) : result value :=
  if from_option truthy false (proj !! "authors")
  then let? authors := py_getitem (VTable proj) "authors" in py_getitem0 authors
  else Ok (EmailContact "unknown" "unknown").

(** The placeholder build directory of a source directory [s]. *)
Definition build_placeholder (s : string) : string :=
  path_str (path_div (path_parent (path_of s)) (path_of "build")).

(** The configuration with another destination, module list and raw
    manifest: the fields no stage after resolution reads itself. *)
Definition with_unread (dest modules : value) (data : gmap string value)
    (config : DocConfig) : DocConfig :=
  {| pyproject_path := pyproject_path config;
     doc_src := doc_src config;
     doc_dest := dest;
     pyproject_data := data;
     py_modules := modules;
     derived := derived config |}.

(** A manifest with two authors and every key of the section set. *)
Definition full_toml : gmap string value :=
  <["tool" :=
      VTable (<["doccer" :=
                  VTable (<["doc_src" := VStr "manual/source"]>
                            (<["doc_dest" := VStr "site"]>
                               (<["py_modules" := VList [VStr "pkg"; VStr "cli"]]> ∅)))]> ∅)]>
    (<["project" :=
         VTable (<["name" := VStr "demo"]>
                   (<["authors" :=
                        VList [EmailContact "Ada" "ada@example.org";
                               EmailContact "Bob" "bob@example.org"]]> ∅))]> ∅).

(** What that manifest resolves to, found at [lib/pyproject.toml]. *)
Definition full_config : DocConfig :=
  {| pyproject_path := "lib/pyproject.toml";
     doc_src := VStr "manual/source";
     doc_dest := VStr "site";
     pyproject_data := full_toml;
     py_modules := VList [VStr "pkg"; VStr "cli"];
     derived :=
       <["deploy_dir" := VStr "."]>
         (<["build_dir" := VStr "manual/build"]>
            (<["author" := EmailContact "Ada" "ada@example.org"]> ∅)) |}.

(** A poetry project that also has a [[tool.pdm]] table. *)
Definition poetry_toml : gmap string value :=
  <["tool" :=
      VTable (<["poetry" := VTable (<["name" := VStr "demo"]> ∅)]>
                (<["pdm" := VTable (<["version" := VStr "1"]> ∅)]> ∅))]> ∅.

Definition project_tomli (data : string) : result (gmap string value) :=
  if String.eqb data "poetry" then Ok poetry_toml
  else demo_tomli data.

(** A project directory with a [setup.py] and no [pyproject.toml]. *)
Definition setup_py_fs : filesystem :=
  <[["repo"; "setup.py"] := File "from setuptools import setup"]>
    (delete ["repo"; "pyproject.toml"] demo_fs).

(** The demo repository with a broken manifest in [lib]. *)
Definition broken_fs : filesystem :=
  <[["repo"; "lib"; "pyproject.toml"] := File "not toml"]>
    (<[["repo"; "lib"] := Dir]> demo_fs).


(** The demo repository with a [docs] subdirectory in its source
    directory and an old build configuration. *)
Definition src_tree_fs : filesystem :=
  <[["repo"; "docs"; "src"; "docs"] := Dir]>
    (<[["repo"; "docs"; "src"; "conf.py"] := File "project = 'old'"]> demo_fs).

(** A configuration that deploys the working directory onto itself, and
    a repository with a page in it. *)
Definition in_place_config : DocConfig :=
  set_derived "build_dir" (VStr ".") demo_config.

Definition page_fs : filesystem :=
  <[["repo"; "index.rst"] := File "index"]> demo_fs.

(** * Properties *)

Ltac py_simpl :=
  cbn [rbind py_get py_get_default py_getitem py_Path default from_option id].

(** ** Resolving a manifest *)

(** When the section, the project table and the name are there, and the
    source directory and the authors are usable, [_load_config_toml]
    returns this configuration. *)
Lemma load_config_toml_some pyproject toml sec proj name s :
  has_section toml sec →
  default (VStr "docs/src") (sec !! "doc_src") = VStr s →
  toml !! "project" = Some (VTable proj) →
  authors_usable proj →
  proj !! "name" = Some name →
  ∃ author,
    _load_config_toml pyproject toml =
      Ok (Some {| pyproject_path := path_str pyproject;
                  pyproject_data := toml;
                  doc_src := VStr s;
                  doc_dest := default (VStr ".") (sec !! "doc_dest");
                  derived :=
                    <["deploy_dir" := VStr "."]>
                      (<["build_dir" :=
                           VStr (path_str (path_div (path_parent (path_of s))
                                                    (path_of "build")))]>
                         (<["author" := author]> ∅));
                  py_modules := default (VList [name]) (sec !! "py_modules") |}).
Proof.
  intros (tool & Htool & Hsec) Hsrc Hproj Hauth Hname.
  unfold _load_config_toml. rewrite Htool. py_simpl. rewrite Hsec.
  py_simpl. rewrite Hsrc, Hproj. py_simpl.
  unfold authors_usable in Hauth.
  destruct (proj !! "authors") as [v|] eqn:Ha; py_simpl.
  - destruct (truthy v) eqn:Ht.
    + destruct (Hauth eq_refl) as [a Hv]. exists a.
      rewrite Hv. py_simpl. rewrite Hname. reflexivity.
    + eexists. py_simpl. rewrite Hname. reflexivity.
  - eexists. py_simpl. rewrite Hname. reflexivity.
Qed.

(** Without a name in the project table the last step raises, whatever
    the section holds. *)
Lemma load_config_toml_nameless pyproject toml sec proj s :
  has_section toml sec →
  default (VStr "docs/src") (sec !! "doc_src") = VStr s →
  toml !! "project" = Some (VTable proj) →
  authors_usable proj →
  proj !! "name" = None →
  _load_config_toml pyproject toml = Raise (KeyError (VStr "name")).
Proof.
  intros (tool & Htool & Hsec) Hsrc Hproj Hauth Hname.
  unfold _load_config_toml. rewrite Htool. py_simpl. rewrite Hsec.
  py_simpl. rewrite Hsrc, Hproj. py_simpl.
  unfold authors_usable in Hauth.
  destruct (proj !! "authors") as [v|] eqn:Ha; py_simpl.
  - destruct (truthy v) eqn:Ht.
    + destruct (Hauth eq_refl) as [a Hv].
      rewrite Hv. py_simpl. rewrite Hname. reflexivity.
    + py_simpl. rewrite Hname. reflexivity.
  - py_simpl. rewrite Hname. reflexivity.
Qed.

(** No configuration comes with a [project_name] in its derived part. *)
Lemma load_config_toml_derived pyproject toml config :
  _load_config_toml pyproject toml = Ok (Some config) →
  derived config !! "project_name" = None.
Proof.
  unfold _load_config_toml.
  destruct (py_get _ "doccer") as [[magdocs|]|]; cbn [rbind]; try (intros; discriminate).
  destruct (py_get_default magdocs _ _); cbn [rbind]; try (intros; discriminate).
  destruct (py_getitem (VTable toml) "project"); cbn [rbind]; try (intros; discriminate).
  destruct (py_get _ "authors"); cbn [rbind]; try (intros; discriminate).
  destruct (if from_option truthy false _ then _ else _); cbn [rbind]; try (intros; discriminate).
  destruct (py_Path _); cbn [rbind]; try (intros; discriminate).
  destruct (py_get_default magdocs _ _); cbn [rbind]; try (intros; discriminate).
  destruct (py_getitem _ "name"); cbn [rbind]; try (intros; discriminate).
  destruct (py_get_default magdocs _ _); cbn [rbind]; try (intros; discriminate).
  intros [= <-]. cbn [derived].
  rewrite !lookup_insert_ne by done. apply lookup_empty.
Qed.

(** C1 (the code leaves a declared field out). [DerivedConfigData]
    declares [author], [build_dir], [deploy_dir] and [project_name] and
    promises that all of them exist; for the manifest with
    [[tool.doccer]] and [project.name = "demo"], [_load_config] returns a
    configuration whose derived part has the first three keys and no
    [project_name]. *)
Theorem derived_has_no_project_name :
  ∃ config,
    _load_config_toml (path_of "pyproject.toml") demo_toml = Ok (Some config) ∧
    dom (derived config) = DerivedConfigData ∖ {["project_name"]} ∧
    "project_name" ∈ DerivedConfigData ∧
    derived config !! "project_name" = None.
Proof.
  eexists. split; [vm_compute; reflexivity|].
  split; [vm_compute; reflexivity|].
  split; [|vm_compute; reflexivity].
  unfold DerivedConfigData. set_solver.
Qed.

(** C2, as stated, fails: for the manifest [sub/pyproject.toml] with the
    section and no [doc_src] key, the resolved [doc_src] names
    [/repo/docs/src] in a process working in [/repo], not the
    [docs/src] of the manifest's directory, [/repo/sub/docs/src]. *)
Lemma doc_src_default_not_manifest_relative :
  let pyproject := path_of "sub/pyproject.toml" in
  ∃ config q,
    _load_config_toml pyproject demo_toml = Ok (Some config) ∧
    py_Path (doc_src config) = Ok q ∧
    resolve ["repo"] q = ["repo"; "docs"; "src"] ∧
    resolve ["repo"] (manifest_relative pyproject "docs/src")
      = ["repo"; "sub"; "docs"; "src"] ∧
    resolve ["repo"] q ≠ resolve ["repo"] (manifest_relative pyproject "docs/src").
Proof.
  eexists. eexists. split; [vm_compute; reflexivity|].
  split; [reflexivity|]. split; [reflexivity|]. split; [reflexivity|].
  discriminate.
Qed.

(** C2, amended. For every manifest with the section and no [doc_src]
    key (and with a project table that has a name and usable authors),
    the resolved [doc_src] is the fixed relative path [docs/src] itself,
    wherever the manifest lies; a process working in [cwd] finds it at
    [cwd/docs/src]. *)
Theorem doc_src_default_is_fixed (cwd : list string) pyproject toml sec proj name :
  has_section toml sec →
  sec !! "doc_src" = None →
  toml !! "project" = Some (VTable proj) →
  authors_usable proj →
  proj !! "name" = Some name →
  ∃ config,
    _load_config_toml pyproject toml = Ok (Some config) ∧
    doc_src config = VStr "docs/src" ∧
    py_Path (doc_src config) = Ok (path_of "docs/src") ∧
    resolve cwd (path_of "docs/src") = cwd ++ ["docs"; "src"].
Proof.
  intros Hsec Hsrc Hproj Hauth Hname.
  destruct (load_config_toml_some pyproject toml sec proj name "docs/src")
    as [author Hload]; auto.
  { rewrite Hsrc. reflexivity. }
  eexists. split; [exact Hload|]. repeat split.
Qed.

Lemma doc_src_default_is_fixed_witness :
  ∃ config,
    _load_config_toml (path_of "sub/pyproject.toml") demo_toml = Ok (Some config) ∧
    doc_src config = VStr "docs/src" ∧
    py_Path (doc_src config) = Ok (path_of "docs/src") ∧
    resolve ["repo"] (path_of "docs/src") = ["repo"] ++ ["docs"; "src"].
Proof.
  apply (doc_src_default_is_fixed ["repo"] (path_of "sub/pyproject.toml") demo_toml
           ∅ (<["name" := VStr "demo"]> ∅) (VStr "demo")).
  - exists (<["doccer" := VTable ∅]> ∅). split; reflexivity.
  - reflexivity.
  - reflexivity.
  - exact I.
  - reflexivity.
Defined.

(** C5, as stated, fails: with an explicit module list and a project
    table that has no name, resolution raises [KeyError('name')] instead
    of returning the explicit list. *)
Lemma explicit_modules_still_need_name :
  has_section nameless_toml (<["py_modules" := VList [VStr "m"]]> ∅) ∧
  nameless_toml !! "project" = Some (VTable ∅) ∧
  _load_config_toml (path_of "pyproject.toml") nameless_toml
    = Raise (KeyError (VStr "name")).
Proof.
  split; [|split; reflexivity].
  exists (<["doccer" := VTable (<["py_modules" := VList [VStr "m"]]> ∅)]> ∅).
  split; reflexivity.
Qed.

(** C5, amended. For every manifest with the section and a project table
    (usable authors, a source directory that is a string): if the project
    has a name, the resolved [py_modules] is the explicit entry when there
    is one and the one-element list with the name otherwise; if the
    project has no name, resolution raises [KeyError('name')], with or
    without an explicit module list. *)
Theorem py_modules_resolution pyproject toml sec proj s :
  has_section toml sec →
  default (VStr "docs/src") (sec !! "doc_src") = VStr s →
  toml !! "project" = Some (VTable proj) →
  authors_usable proj →
  match proj !! "name" with
  | Some name =>
      ∃ config,
        _load_config_toml pyproject toml = Ok (Some config) ∧
        py_modules config = default (VList [name]) (sec !! "py_modules")
  | None =>
      _load_config_toml pyproject toml = Raise (KeyError (VStr "name"))
  end.
Proof.
  intros Hsec Hsrc Hproj Hauth.
  destruct (proj !! "name") as [name|] eqn:Hname.
  - destruct (load_config_toml_some pyproject toml sec proj name s)
      as [author Hload]; auto.
    eexists. split; [exact Hload|]. reflexivity.
  - eapply load_config_toml_nameless; eauto.
Qed.

Lemma py_modules_resolution_witness :
  ∃ config,
    _load_config_toml (path_of "pyproject.toml") demo_toml = Ok (Some config) ∧
    py_modules config = VList [VStr "demo"].
Proof.
  refine (py_modules_resolution (path_of "pyproject.toml") demo_toml
            ∅ (<["name" := VStr "demo"]> ∅) "docs/src" _ _ _ _).
  - exists (<["doccer" := VTable ∅]> ∅). split; reflexivity.
  - reflexivity.
  - reflexivity.
  - exact I.
Defined.

(** C10. For every parsed manifest that has the section and no top-level
    [project] entry, resolution raises [KeyError('project')], whatever
    the section holds: neither an absent result nor a configuration. *)
Theorem missing_project_raises pyproject toml sec :
  has_section toml sec →
  toml !! "project" = None →
  _load_config_toml pyproject toml = Raise (KeyError (VStr "project")).
Proof.
  intros (tool & Htool & Hsec) Hproj.
  unfold _load_config_toml. rewrite Htool. py_simpl. rewrite Hsec.
  py_simpl. rewrite Hproj. reflexivity.
Qed.

Lemma missing_project_raises_witness :
  _load_config_toml (path_of "pyproject.toml") projectless_toml
    = Raise (KeyError (VStr "project")).
Proof.
  apply (missing_project_raises (path_of "pyproject.toml") projectless_toml
           (<["py_modules" := VList [VStr "m"]]> ∅)).
  - exists (<["doccer" := VTable (<["py_modules" := VList [VStr "m"]]> ∅)]> ∅).
    split; reflexivity.
  - reflexivity.
Defined.

(** ** Reading a manifest from disk *)

Lemma load_config_parsed cwd tomli pyproject w data toml :
  fs_read (resolve cwd pyproject) (fs w) = Ok data →
  tomli data = Ok toml →
  _load_config cwd tomli pyproject w = (_load_config_toml pyproject toml, w).
Proof.
  intros Hread Hparse. unfold _load_config, bind, get_fs, lift.
  rewrite Hread, Hparse. destruct (_load_config_toml pyproject toml); reflexivity.
Qed.

(** Loading a manifest leaves the world as it is. *)
Lemma load_config_world cwd tomli pyproject w :
  (_load_config cwd tomli pyproject w).2 = w.
Proof.
  unfold _load_config, bind, get_fs, lift.
  destruct (fs_read _ _) as [data|]; [|reflexivity].
  destruct (tomli data) as [toml|]; [|reflexivity].
  destruct (_load_config_toml pyproject toml); reflexivity.
Qed.

(** ** The build step *)

Lemma append_cons c s t : String c s +:+ t = String c (s +:+ t).
Proof. reflexivity. Qed.

Lemma prefix_spec s1 s2 :
  String.prefix s1 s2 = true ↔ ∃ rest, s2 = s1 +:+ rest.
Proof.
  revert s2. induction s1 as [|c s1 IH]; intros s2.
  - destruct s2; cbn [String.prefix];
      (split; [intros _; eexists; reflexivity | reflexivity]).
  - destruct s2 as [|d s2]; cbn [String.prefix].
    + split; [discriminate | intros [rest H]; rewrite append_cons in H; discriminate].
    + destruct (ascii_dec c d) as [->|Hne].
      * rewrite IH. split; intros [rest H]; exists rest;
          rewrite append_cons in *; congruence.
      * split; [discriminate |].
        intros [rest H]. rewrite append_cons in H. congruence.
Qed.

(** [contains] finds the needle exactly when it is a substring. *)
Lemma contains_spec needle hay :
  contains needle hay = true ↔ ∃ before after, hay = before +:+ needle +:+ after.
Proof.
  induction hay as [|c hay IH]; cbn [contains].
  - rewrite orb_false_r, prefix_spec. split.
    + intros [rest H]. exists EmptyString, rest. exact H.
    + intros (before & after & H). destruct before.
      * exists after. exact H.
      * rewrite append_cons in H. discriminate.
  - rewrite orb_true_iff, prefix_spec, IH. split.
    + intros [[rest H] | (before & after & H)].
      * exists EmptyString, rest. exact H.
      * exists (String c before), after. rewrite append_cons. congruence.
    + intros (before & after & H). destruct before as [|d before].
      * left. exists after. exact H.
      * right. exists before, after. rewrite append_cons in H. congruence.
Qed.

(** When the builder exits with status 0 and its output decodes, the
    build step returns whether the output contains the marker. *)
Lemma build_classifies run config w s b stdout after :
  let args := ["sphinx-build"; "-b"; "rst"; s; b] in
  doc_src config = VStr s →
  derived config !! "build_dir" = Some (VStr b) →
  run args (fs w) = Completed 0 stdout after →
  utf8_valid stdout = true →
  _build_with_sphinx run config w =
    (Ok (contains "writing output" stdout),
     {| fs := after;
        trace := trace w ++ [EvBuild (pyproject_path config) args (fs w)] |}).
Proof.
  intros args Hsrc Hb Hrun Hutf.
  unfold _build_with_sphinx, subprocess_run_check, bind, lift, get_fs, mark, put_fs, ret, decode.
  cbn [py_getitem]. rewrite Hb, Hsrc. cbn. fold args. rewrite Hrun. cbn.
  rewrite Hutf. reflexivity.
Qed.

(** A non-zero exit status makes the build step raise. *)
Lemma build_fails run config w s b returncode stdout after :
  let args := ["sphinx-build"; "-b"; "rst"; s; b] in
  doc_src config = VStr s →
  derived config !! "build_dir" = Some (VStr b) →
  run args (fs w) = Completed returncode stdout after →
  returncode ≠ 0%Z →
  _build_with_sphinx run config w =
    (Raise (CalledProcessError returncode),
     {| fs := after;
        trace := trace w ++ [EvBuild (pyproject_path config) args (fs w)] |}).
Proof.
  intros args Hsrc Hb Hrun Hrc.
  unfold _build_with_sphinx, subprocess_run_check, bind, lift, get_fs, mark, put_fs, ret, raise.
  cbn [py_getitem]. rewrite Hb, Hsrc. cbn. fold args. rewrite Hrun. cbn.
  destruct (Z.eqb_spec returncode 0); [contradiction | reflexivity].
Qed.

(** C7 (the code breaks on output it cannot decode). The builder exits
    with status 0 and prints the marker followed by the byte [0xE9]: the
    output contains ["writing output"], yet the build step raises
    [UnicodeDecodeError] on the way to its [return], in the debug line
    that decodes the output. *)
Theorem build_raises_on_undecodable_output :
  contains "writing output" latin1_stdout = true ∧
  (_build_with_sphinx (demo_sphinx 0 latin1_stdout) demo_config
     {| fs := demo_fs; trace := [] |}).1 = Raise UnicodeDecodeError.
Proof. split; vm_compute; reflexivity. Qed.

(** ** The driver *)

(** C3 (the driver drops the flag). On the same repository the build
    step returns [True] when the builder prints the marker and [False]
    when it does not, and [precommit_hook] ends in the same result and
    the same world in both runs: the flag is not kept anywhere. *)
Theorem hook_drops_build_flag :
  let w := {| fs := demo_fs; trace := [] |} in
  let hook stdout :=
    precommit_hook ["repo"] demo_tomli demo_templates (demo_sphinx 0 stdout)
      demo_mkdtemp w in
  (_build_with_sphinx (demo_sphinx 0 "writing output") demo_config w).1 = Ok true ∧
  (_build_with_sphinx (demo_sphinx 0 "no targets are out of date.") demo_config w).1
    = Ok false ∧
  (hook "writing output").1 = Ok tt ∧
  hook "writing output" = hook "no targets are out of date.".
Proof. repeat split; vm_compute; reflexivity. Qed.

(** C4, as stated, fails: with two projects whose manifests both resolve,
    the builder failing for the first one ([b]) ends the whole run with
    [CalledProcessError]; nothing is built or deployed for the other
    one ([a]). *)
Lemma build_failure_stops_other_projects :
  let w := {| fs := two_projects_fs; trace := [] |} in
  let run := demo_sphinx 1 EmptyString in
  ∃ config_b config_a w',
    (_load_configs ["repo"] demo_tomli (path_of ".") w).1 = Ok [config_b; config_a] ∧
    pyproject_path config_b = "b/pyproject.toml" ∧
    pyproject_path config_a = "a/pyproject.toml" ∧
    precommit_hook ["repo"] demo_tomli demo_templates run demo_mkdtemp w
      = (Raise (CalledProcessError 1), w') ∧
    trace w' =
      [EvBuild "b/pyproject.toml"
         ["sphinx-build"; "-b"; "rst"; "docs/src"; "/tmp/tmpdoccer"]
         (<[["tmp"; "tmpdoccer"] := Dir]> two_projects_fs)].
Proof.
  do 3 eexists. split; [vm_compute; reflexivity|].
  repeat split; vm_compute; reflexivity.
Qed.

(** An iteration that raises ends the loop: the exception and the world
    it left are the loop's, and the configurations after it are never
    looked at. *)
Lemma for_raises {A} (body : A → M unit) x rest w e w' :
  body x w = (Raise e, w') →
  for_ (x :: rest) body w = (Raise e, w').
Proof. intros H. cbn [for_]. unfold bind. rewrite H. reflexivity. Qed.


(** ** Projects that opt out *)

Lemma load_config_toml_opted_out pyproject toml :
  lacks_section toml → _load_config_toml pyproject toml = Ok None.
Proof.
  intros [Htool | (tool & Htool & Hsec)]; unfold _load_config_toml; rewrite Htool;
    py_simpl.
  - rewrite lookup_empty. reflexivity.
  - rewrite Hsec. reflexivity.
Qed.

(** A manifest that yields no configuration can be struck from the list
    that [_load_configs] walks through. *)
Lemma load_each_skip cwd tomli pyproject before after configs w :
  _load_config cwd tomli pyproject w = (Ok None, w) →
  load_each cwd tomli (before ++ pyproject :: after) configs w
    = load_each cwd tomli (before ++ after) configs w.
Proof.
  intros Hnone. revert configs.
  induction before as [|p before IH]; intros configs; cbn [app load_each]; unfold bind.
  - rewrite Hnone. reflexivity.
  - pose proof (load_config_world cwd tomli p w) as Hw.
    destruct (_load_config cwd tomli p w) as [[[c|]|e] w1]; cbn in Hw; subst w1;
      [apply IH | apply IH | reflexivity].
Qed.


(** ** Deployment *)

Lemma under_app (root rel : list string) : under root (root ++ rel) = Some rel.
Proof.
  unfold under. rewrite take_app_length, drop_app_length.
  destruct (decide (root = root)); [reflexivity | contradiction].
Qed.

Lemma under_Some (root l rel : list string) :
  under root l = Some rel → l = root ++ rel.
Proof.
  unfold under. destruct (decide _) as [Heq|]; [|discriminate].
  intros [= <-]. rewrite <- (take_drop (length root) l) at 1.
  rewrite Heq. reflexivity.
Qed.

(** What [rglob] finds: the entries below the root whose name matches. *)
Lemma elem_of_rglob (cwd : list string) (root : Path) (pattern : string)
    (f : filesystem) (p : Path) :
  p ∈ rglob cwd root pattern f ↔
  ∃ rel, rel ≠ [] ∧ fnmatch pattern (List.last rel EmptyString) = true ∧
         is_Some (f !! (resolve cwd root ++ rel)) ∧
         p = {| absolute := absolute root; parts := parts root ++ rel |}.
Proof.
  unfold rglob. rewrite list_elem_of_omap. split.
  - intros (k & Hk & Hf).
    apply list_elem_of_fmap in Hk as ([k' x] & -> & Hkx). cbn in Hf.
    apply elem_of_map_to_list in Hkx.
    destruct (under (resolve cwd root) k') as [[|c rel]|] eqn:Hu; try discriminate.
    destruct (fnmatch pattern _) eqn:Hm; [|discriminate].
    injection Hf as <-. apply under_Some in Hu. subst k'.
    exists (c :: rel). split; [discriminate|]. split; [exact Hm|].
    split; [eexists; exact Hkx | reflexivity].
  - intros (rel & Hne & Hm & [x Hx] & ->).
    exists (resolve cwd root ++ rel). split.
    + apply list_elem_of_fmap. exists (resolve cwd root ++ rel, x). split; [reflexivity|].
      apply elem_of_map_to_list. exact Hx.
    + rewrite under_app. destruct rel as [|c rel]; [contradiction|].
      rewrite Hm. reflexivity.
Qed.

Section Deploy.

Variable cwd : list string.
Variables root deploy_to : Path.
Variable fs0 : filesystem.

Let B := resolve cwd root.
Let D := resolve cwd deploy_to.

Let is_rst (rel : list string) : Prop :=
  rel ≠ [] ∧ fnmatch "*.rst" (List.last rel EmptyString) = true.

(** Every matching entry of the build directory is a regular file, its
    destination has a directory above it, is not a directory itself and
    does not lie in the build directory. *)
Hypothesis Hgood : ∀ rel x,
  is_rst rel → fs0 !! (B ++ rel) = Some x →
  (∃ c, x = File c) ∧
  fs0 !! removelast (D ++ rel) = Some Dir ∧
  fs0 !! (D ++ rel) ≠ Some Dir ∧
  under B (D ++ rel) = None.

(** While the loop runs, an entry is as it was, or it is a destination
    that holds its source's content. *)
Let inv (f : filesystem) : Prop :=
  ∀ k, f !! k = fs0 !! k ∨
       ∃ rel c, k = D ++ rel ∧ is_rst rel ∧
                fs0 !! (B ++ rel) = Some (File c) ∧ f !! k = Some (File c).

Let docfile (rel : list string) : Path :=
  {| absolute := absolute root; parts := parts root ++ rel |}.

Let body (p : Path) : M unit :=
  rel <- lift (relative_to p root) ;;
  update_fs (shutil_copy (resolve cwd p) (resolve cwd (path_div deploy_to rel))).

Lemma copy_step rel c fi tr :
  is_rst rel → fs0 !! (B ++ rel) = Some (File c) → inv fi →
  body (docfile rel) {| fs := fi; trace := tr |}
    = (Ok tt, {| fs := <[D ++ rel := File c]> fi; trace := tr |}) ∧
  inv (<[D ++ rel := File c]> fi).
Proof.
  intros Hrst Hsrc Hinv.
  destruct (Hgood rel _ Hrst Hsrc) as (_ & Hparent & Hnodir & Hout).
  assert (Hdst : fi !! (D ++ rel) ≠ Some Dir).
  { destruct (Hinv (D ++ rel)) as [-> | (? & ? & _ & _ & _ & ->)]; [exact Hnodir | discriminate]. }
  assert (Hread : fi !! (B ++ rel) = Some (File c)).
  { destruct (Hinv (B ++ rel)) as [-> | (rel' & c' & Heq & Hrst' & Hsrc' & _)]; [exact Hsrc|].
    destruct (Hgood rel' _ Hrst' Hsrc') as (_ & _ & _ & Hout').
    rewrite <- Heq, under_app in Hout'. discriminate. }
  assert (Hup : fi !! removelast (D ++ rel) = Some Dir).
  { destruct (Hinv (removelast (D ++ rel))) as [-> | (rel' & c' & Heq & Hrst' & Hsrc' & _)];
      [exact Hparent|].
    destruct (Hgood rel' _ Hrst' Hsrc') as (_ & _ & Hnodir' & _).
    rewrite <- Heq in Hnodir'. contradiction. }
  assert (Hne : B ++ rel ≠ D ++ rel).
  { intros Heq. rewrite <- Heq, under_app in Hout. discriminate. }
  split.
  - unfold body, bind, lift, update_fs, relative_to, docfile. cbn [absolute parts fs trace].
    rewrite eqb_reflx, under_app.
    replace (resolve cwd {| absolute := absolute root; parts := parts root ++ rel |})
      with (B ++ rel)
      by (unfold B, resolve; cbn [absolute parts]; symmetry; apply app_assoc).
    replace (resolve cwd (path_div deploy_to {| absolute := false; parts := rel |}))
      with (D ++ rel)
      by (unfold D, resolve, path_div; cbn [absolute parts]; symmetry; apply app_assoc).
    unfold shutil_copy.
    replace (match fi !! (D ++ rel) with Some Dir => (D ++ rel) ++ [List.last (B ++ rel) EmptyString] | _ => D ++ rel end)
      with (D ++ rel)
      by (destruct (fi !! (D ++ rel)) as [[|]|]; [reflexivity | contradiction | reflexivity]).
    destruct (decide (B ++ rel = D ++ rel)); [contradiction|].
    unfold fs_read. rewrite Hread. cbn [rbind]. unfold fs_open_w. rewrite Hup.
    destruct (fi !! (D ++ rel)) as [[|]|]; cbn [rbind];
      first [contradiction | rewrite insert_insert_eq; reflexivity].
  - intros k. destruct (decide (k = D ++ rel)) as [->|Hk].
    + right. exists rel, c. rewrite lookup_insert_eq. auto.
    + rewrite lookup_insert_ne by congruence. exact (Hinv k).
Qed.

Lemma copy_loop (l : list Path) fi tr :
  (∀ p, p ∈ l → ∃ rel, is_rst rel ∧ is_Some (fs0 !! (B ++ rel)) ∧ p = docfile rel) →
  inv fi →
  ∃ f',
    for_ l body {| fs := fi; trace := tr |} = (Ok tt, {| fs := f'; trace := tr |}) ∧
    inv f' ∧
    ∀ rel c, is_rst rel → fs0 !! (B ++ rel) = Some (File c) →
             docfile rel ∈ l ∨ fi !! (D ++ rel) = Some (File c) →
             f' !! (D ++ rel) = Some (File c).
Proof.
  revert fi. induction l as [|p l IH]; intros fi Hl Hinv.
  - exists fi. split; [reflexivity|]. split; [exact Hinv|].
    intros rel c _ _ [Hin | H]; [inversion Hin | exact H].
  - destruct (Hl p) as (rel0 & Hrst0 & [x Hx] & ->); [left|].
    destruct (Hgood rel0 x Hrst0 Hx) as ([c0 ->] & _).
    destruct (copy_step rel0 c0 fi tr Hrst0 Hx Hinv) as [Hstep Hinv1].
    destruct (IH (<[D ++ rel0 := File c0]> fi)) as (f' & Hrun & Hinv' & Hcopied);
      [intros q Hq; apply Hl; right; exact Hq | exact Hinv1 |].
    exists f'. split; [|split; [exact Hinv'|]].
    + cbn [for_]. unfold bind at 1. rewrite Hstep. exact Hrun.
    + intros rel c Hrst Hsrc Hor. apply Hcopied; [exact Hrst | exact Hsrc |].
      destruct (decide (rel = rel0)) as [->|Hrel].
      * right. rewrite lookup_insert_eq. congruence.
      * destruct Hor as [Hin | Hfi].
        -- apply elem_of_cons in Hin as [Heq | Hin]; [|left; exact Hin].
           injection Heq as Heq. apply app_inv_head in Heq. contradiction.
        -- right. rewrite lookup_insert_ne; [exact Hfi|].
           intros Heq. apply app_inv_head in Heq. congruence.
Qed.

(** The loop of [_deploy_docs], run from [fs0]. *)
Lemma deploy_loop tr :
  ∃ f',
    for_ (rglob cwd root "*.rst" fs0) body {| fs := fs0; trace := tr |}
      = (Ok tt, {| fs := f'; trace := tr |}) ∧
    (∀ rel c, rel ≠ [] → fnmatch "*.rst" (List.last rel EmptyString) = true →
              fs0 !! (B ++ rel) = Some (File c) → f' !! (D ++ rel) = Some (File c)) ∧
    (∀ k, f' !! k = Some Dir ↔ fs0 !! k = Some Dir) ∧
    (∀ k, under D k = None → f' !! k = fs0 !! k).
Proof.
  destruct (copy_loop (rglob cwd root "*.rst" fs0) fs0 tr) as (f' & Hrun & Hinv & Hcopied).
  { intros p Hp. apply elem_of_rglob in Hp as (rel & Hne & Hm & Hsome & ->).
    exists rel. split; [split; assumption|]. split; [exact Hsome | reflexivity]. }
  { intros k. left. reflexivity. }
  exists f'. split; [exact Hrun|]. split; [|split].
  - intros rel c Hne Hm Hsrc. apply Hcopied; [split; assumption | exact Hsrc |].
    left. apply elem_of_rglob. exists rel. split; [exact Hne|]. split; [exact Hm|].
    split; [eexists; exact Hsrc | reflexivity].
  - intros k. destruct (Hinv k) as [-> | (rel & c & -> & Hrst & Hsrc & Hk)]; [reflexivity|].
    destruct (Hgood rel _ Hrst Hsrc) as (_ & _ & Hnodir & _).
    rewrite Hk. split; [discriminate | intros Hdir; contradiction].
  - intros k Hk. destruct (Hinv k) as [-> | (rel & c & -> & _)]; [reflexivity|].
    rewrite under_app in Hk. discriminate.
Qed.

End Deploy.

(** C8, as stated, fails: after a build that left [api/mod.rst] in the
    build directory, deployment into a repository without an [api]
    directory raises [FileNotFoundError], and the page is not at
    [api/mod.rst] under the deploy directory. *)
Lemma deploy_fails_without_parent :
  let w := {| fs := nested_build_fs; trace := [] |} in
  fs w !! ["tmp"; "tmpdoccer"; "api"; "mod.rst"] = Some (File "module") ∧
  ∃ w',
    _deploy_docs ["repo"] demo_config w = (Raise FileNotFoundError, w') ∧
    fs w' !! ["repo"; "api"; "mod.rst"] = None.
Proof.
  split; [reflexivity|]. eexists. split; vm_compute; reflexivity.
Qed.

(** C8, amended. Let every entry under the build directory whose name
    matches [*.rst] be a regular file whose destination, at the same
    relative path under the deploy directory, has an existing directory
    above it, is not a directory itself and lies outside the build
    directory. Then deployment returns; every such file is at its
    destination with the same content, overwriting what was there; no
    directory is created or removed; and nothing outside the deploy
    directory changes. *)
Theorem deploy_copies cwd config w b d :
  let B := resolve cwd (path_of b) in
  let D := resolve cwd (path_of d) in
  derived config !! "build_dir" = Some (VStr b) →
  derived config !! "deploy_dir" = Some (VStr d) →
  in_model (path_of b) →
  in_model (path_of d) →
  (∀ rel x,
     rel ≠ [] ∧ fnmatch "*.rst" (List.last rel EmptyString) = true →
     fs w !! (B ++ rel) = Some x →
     (∃ c, x = File c) ∧
     fs w !! removelast (D ++ rel) = Some Dir ∧
     fs w !! (D ++ rel) ≠ Some Dir ∧
     under B (D ++ rel) = None) →
  ∃ f',
    _deploy_docs cwd config w =
      (Ok tt, {| fs := f'; trace := trace w ++ [EvDeploy (pyproject_path config)] |}) ∧
    (∀ rel c, rel ≠ [] → fnmatch "*.rst" (List.last rel EmptyString) = true →
              fs w !! (B ++ rel) = Some (File c) → f' !! (D ++ rel) = Some (File c)) ∧
    (∀ k, f' !! k = Some Dir ↔ fs w !! k = Some Dir) ∧
    (∀ k, under D k = None → f' !! k = fs w !! k).
Proof.
  intros B D Hb Hd _ _ Hgood.
  destruct (deploy_loop cwd (path_of b) (path_of d) (fs w) Hgood
              (trace w ++ [EvDeploy (pyproject_path config)]))
    as (f' & Hrun & Hfacts).
  exists f'. split; [|exact Hfacts].
  unfold _deploy_docs, bind, mark, lift, get_fs. cbn [py_getitem fs trace].
  rewrite Hd, Hb. cbn [py_Path fs]. exact Hrun.
Qed.

(** Case analysis on the entries of a concrete filesystem. *)
Ltac entries H :=
  apply elem_of_map_to_list in H; vm_compute in H;
  repeat (apply elem_of_cons in H as [H|H]; [try discriminate H|]);
  [.. | inversion H].

Lemma deploy_copies_witness :
  ∃ f',
    _deploy_docs ["repo"] demo_config {| fs := flat_build_fs; trace := [] |} =
      (Ok tt, {| fs := f'; trace := [] ++ [EvDeploy "pyproject.toml"] |}) ∧
    (∀ rel c, rel ≠ [] → fnmatch "*.rst" (List.last rel EmptyString) = true →
              flat_build_fs !! (["tmp"; "tmpdoccer"] ++ rel) = Some (File c) →
              f' !! (["repo"] ++ rel) = Some (File c)) ∧
    (∀ k, f' !! k = Some Dir ↔ flat_build_fs !! k = Some Dir) ∧
    (∀ k, under ["repo"] k = None → f' !! k = flat_build_fs !! k).
Proof.
  refine (deploy_copies ["repo"] demo_config {| fs := flat_build_fs; trace := [] |}
            "/tmp/tmpdoccer" "." _ _ _ _ _).
  - reflexivity.
  - reflexivity.
  - repeat constructor; discriminate.
  - constructor.
  - intros rel x [Hne Hm] Hx. cbn [fs] in Hx.
    change (resolve ["repo"] (path_of "/tmp/tmpdoccer")) with ["tmp"; "tmpdoccer"] in *.
    change (resolve ["repo"] (path_of ".")) with ["repo"] in *.
    entries Hx; injection Hx as Hrel Hnode; subst;
      first [contradiction | discriminate Hm
            | split; [eexists; reflexivity|]; repeat split; vm_compute; congruence].
Defined.

(** ** Scaffolding *)

Lemma take_rev_cons (tail : string) (rhead : list string) (i : nat) :
  i ≤ length rhead → take i (rev (tail :: rhead)) = take i (rev rhead).
Proof.
  intros Hi. cbn [rev]. apply take_app_le. rewrite length_rev. exact Hi.
Qed.

Lemma take_rev_all (rparts : list string) :
  take (length rparts) (rev rparts) = rev rparts.
Proof. apply take_ge. rewrite length_rev. reflexivity. Qed.

(** Entries deeper than the directories made are untouched. *)
Lemma dirs_made_rev_deeper (base rparts : list string) (f : filesystem)
    (k : list string) :
  length base + length rparts < length k →
  dirs_made_rev base rparts f !! k = f !! k.
Proof.
  induction rparts as [|tail rhead IH]; intros Hk; [reflexivity|].
  cbn [dirs_made_rev length] in *. rewrite lookup_insert_ne.
  - apply IH. lia.
  - intros <-. rewrite !length_app, length_rev in Hk. cbn in Hk. lia.
Qed.

(** The deepest directory made is there. *)
Lemma dirs_made_rev_top (base rparts : list string) (f : filesystem) :
  rparts ≠ [] → dirs_made_rev base rparts f !! (base ++ rev rparts) = Some Dir.
Proof.
  destruct rparts as [|tail rhead]; [contradiction|]. intros _.
  cbn [dirs_made_rev rev]. rewrite app_assoc. apply lookup_insert_eq.
Qed.

(** Making directories that are all there changes nothing. *)
Lemma dirs_made_rev_present (base rparts : list string) (f : filesystem) :
  (∀ i, i ≤ length rparts → f !! (base ++ take i (rev rparts)) = Some Dir) →
  dirs_made_rev base rparts f = f.
Proof.
  induction rparts as [|tail rhead IH]; intros Hall; [reflexivity|].
  cbn [dirs_made_rev]. rewrite IH.
  - apply insert_id. specialize (Hall (length (tail :: rhead)) (le_n _)).
    rewrite take_rev_all in Hall. cbn [rev] in Hall. rewrite app_assoc in Hall. exact Hall.
  - intros i Hi. rewrite <- (take_rev_cons tail) by exact Hi.
    apply Hall. cbn [length]. lia.
Qed.

(** [os.makedirs] on a path whose first [n] components are directories
    and whose other components are not there: every missing directory is
    made. *)
Lemma makedirs_rev_spec (base rparts : list string) (f : filesystem) (n : nat) :
  n ≤ length rparts →
  (∀ i, i ≤ n → f !! (base ++ take i (rev rparts)) = Some Dir) →
  (∀ i, n < i ≤ length rparts → f !! (base ++ take i (rev rparts)) = None) →
  makedirs_rev base rparts f = Ok (dirs_made_rev base rparts f).
Proof.
  revert n. induction rparts as [|tail rhead IH]; intros n Hn Hdirs Hnone.
  - cbn. specialize (Hdirs 0 (Nat.le_0_l _)). cbn in Hdirs.
    rewrite app_nil_r in Hdirs. rewrite Hdirs. reflexivity.
  - assert (Hkey : (base ++ rev rhead) ++ [tail]
                   = base ++ take (length (tail :: rhead)) (rev (tail :: rhead))).
    { rewrite take_rev_all. cbn [rev]. symmetry. apply app_assoc. }
    assert (Hhead : base ++ rev rhead = base ++ take (length rhead) (rev (tail :: rhead))).
    { rewrite take_rev_cons by reflexivity. rewrite take_rev_all. reflexivity. }
    cbn [makedirs_rev dirs_made_rev].
    destruct (decide (n ≤ length rhead)) as [Hle | Hgt].
    + (* the directory itself is missing *)
      assert (Hmiss : f !! ((base ++ rev rhead) ++ [tail]) = None).
      { rewrite Hkey. apply Hnone. cbn [length]. lia. }
      destruct (decide (n = length rhead)) as [-> | Hlt].
      * (* its parent is there *)
        assert (Hpar : f !! (base ++ rev rhead) = Some Dir).
        { rewrite Hhead. apply Hdirs. reflexivity. }
        rewrite (dirs_made_rev_present base rhead f).
        2:{ intros i Hi. rewrite <- (take_rev_cons tail) by exact Hi. apply Hdirs. exact Hi. }
        replace (match rhead with
                 | [] => Ok f
                 | _ :: _ => if fs_exists (base ++ rev rhead) f then Ok f
                             else makedirs_rev base rhead f
                 end) with (Ok (A := filesystem) f)
          by (destruct rhead; [reflexivity|]; unfold fs_exists; rewrite Hpar; reflexivity).
        cbn [rbind]. unfold fs_mkdir_exist_ok. rewrite Hmiss.
        rewrite removelast_last, Hpar. reflexivity.
      * (* its parent is missing too *)
        assert (Hrec : makedirs_rev base rhead f = Ok (dirs_made_rev base rhead f)).
        { apply (IH n); [lia | |].
          - intros i Hi. rewrite <- (take_rev_cons tail) by lia. apply Hdirs. exact Hi.
          - intros i Hi. rewrite <- (take_rev_cons tail) by lia. apply Hnone.
            cbn [length]. lia. }
        assert (Hnopar : f !! (base ++ rev rhead) = None).
        { rewrite Hhead. apply Hnone. cbn [length]. lia. }
        assert (Hne : rhead ≠ []) by (intros ->; cbn in Hlt, Hle; lia).
        replace (match rhead with
                 | [] => Ok f
                 | _ :: _ => if fs_exists (base ++ rev rhead) f then Ok f
                             else makedirs_rev base rhead f
                 end) with (Ok (dirs_made_rev base rhead f))
          by (destruct rhead; [contradiction|]; unfold fs_exists;
              rewrite Hnopar; symmetry; exact Hrec).
        cbn [rbind]. unfold fs_mkdir_exist_ok.
        rewrite dirs_made_rev_deeper
          by (rewrite !length_app, length_rev; cbn; lia).
        rewrite Hmiss, removelast_last.
        rewrite dirs_made_rev_top by exact Hne. reflexivity.
    + (* everything is there *)
      assert (Hn' : n = length (tail :: rhead)) by (cbn [length] in *; lia).
      assert (Hthere : f !! ((base ++ rev rhead) ++ [tail]) = Some Dir).
      { rewrite Hkey. apply Hdirs. lia. }
      assert (Hpar : f !! (base ++ rev rhead) = Some Dir).
      { rewrite Hhead. apply Hdirs. cbn [length] in *. lia. }
      rewrite (dirs_made_rev_present base rhead f).
      2:{ intros i Hi. rewrite <- (take_rev_cons tail) by exact Hi. apply Hdirs.
          cbn [length] in *. lia. }
      replace (match rhead with
               | [] => Ok f
               | _ :: _ => if fs_exists (base ++ rev rhead) f then Ok f
                           else makedirs_rev base rhead f
               end) with (Ok (A := filesystem) f)
        by (destruct rhead; [reflexivity|]; unfold fs_exists; rewrite Hpar; reflexivity).
      cbn [rbind]. unfold fs_mkdir_exist_ok. rewrite Hthere.
      rewrite insert_id by exact Hthere. reflexivity.
Qed.

(** In a closed filesystem nothing lies below a missing entry. *)
Lemma closed_below (f : filesystem) (k suffix : list string) :
  fs_closed f → f !! k = None → f !! (k ++ suffix) = None.
Proof.
  intros Hclosed Hk. induction suffix as [|x suffix IH] using rev_ind.
  - rewrite app_nil_r. exact Hk.
  - destruct (f !! (k ++ suffix ++ [x])) as [y|] eqn:Hx; [|reflexivity].
    rewrite app_assoc in Hx.
    rewrite (Hclosed (k ++ suffix) x) in IH by (eexists; exact Hx). discriminate.
Qed.

(** Entries no deeper than [base] are untouched by the directories made. *)
Lemma dirs_made_rev_shallower (base rparts : list string) (f : filesystem)
    (k : list string) :
  length k ≤ length base →
  dirs_made_rev base rparts f !! k = f !! k.
Proof.
  induction rparts as [|tail rhead IH]; intros Hk; [reflexivity|].
  cbn [dirs_made_rev]. rewrite lookup_insert_ne; [apply IH; exact Hk|].
  intros <-. rewrite !length_app in Hk. cbn in Hk. lia.
Qed.

(** Every step of the way is a directory afterwards. *)
Lemma dirs_made_rev_prefix (base rparts : list string) (f : filesystem) (i : nat) :
  0 < i ≤ length rparts →
  dirs_made_rev base rparts f !! (base ++ take i (rev rparts)) = Some Dir.
Proof.
  induction rparts as [|tail rhead IH]; intros Hi; [cbn in Hi; lia|].
  destruct (decide (i = length (tail :: rhead))) as [-> | Hne].
  - rewrite take_rev_all. apply dirs_made_rev_top. discriminate.
  - cbn [length] in *. rewrite take_rev_cons by lia.
    cbn [dirs_made_rev]. rewrite lookup_insert_ne; [apply IH; lia|].
    intros E. apply (f_equal length) in E.
    rewrite !length_app, length_take, length_rev in E. cbn in E. lia.
Qed.

Section Scaffold.

Variable cwd : list string.
Variable get_template : string → result (DocConfig → result string).

(** One template, once its directory can be made and its file written. *)
Lemma render_template_spec (name fname : string) (dest_dir : Path)
    (config : DocConfig) (w : world) (t : DocConfig → result string)
    (text : string) (f1 : filesystem) :
  get_template name = Ok t →
  t config = Ok text →
  path_of (str_remove ".jinja2" name) = {| absolute := false; parts := [fname] |} →
  makedirs cwd dest_dir (fs w) = Ok f1 →
  f1 !! resolve cwd dest_dir = Some Dir →
  f1 !! (resolve cwd dest_dir ++ [fname]) ≠ Some Dir →
  _render_template cwd get_template name dest_dir config w =
    (Ok tt, {| fs := <[resolve cwd dest_dir ++ [fname] := File text]> f1;
               trace := trace w |}).
Proof.
  intros Ht Htext Hname Hmk Hdir Hfile.
  unfold _render_template, bind, lift, update_fs. rewrite Ht, Hmk. cbn [fs trace].
  rewrite Hname.
  replace (resolve cwd (path_div dest_dir {| absolute := false; parts := [fname] |}))
    with (resolve cwd dest_dir ++ [fname])
    by (unfold resolve, path_div; cbn [absolute parts]; symmetry; apply app_assoc).
  unfold fs_open_w. rewrite removelast_last, Hdir.
  destruct (f1 !! (resolve cwd dest_dir ++ [fname])) as [[|]|]; try contradiction;
    rewrite Htext; cbn [fs trace]; rewrite insert_insert_eq; reflexivity.
Qed.

End Scaffold.

(** The same facts for paths, read from the root or the working
    directory down. *)
Section Makedirs.

Variable cwd : list string.
Variable src : Path.

Let base : list string := if absolute src then [] else cwd.
Let P : list string := parts src.

Lemma makedirs_missing (f : filesystem) (n : nat) :
  n ≤ length P →
  (∀ i, i ≤ n → f !! (base ++ take i P) = Some Dir) →
  (∀ i, n < i ≤ length P → f !! (base ++ take i P) = None) →
  makedirs cwd src f = Ok (dirs_made base P f).
Proof.
  intros Hn Hdirs Hnone. unfold makedirs, dirs_made. fold base. fold P.
  apply (makedirs_rev_spec base (rev P) f n); rewrite ?length_rev, ?rev_involutive;
    assumption.
Qed.

Lemma makedirs_all_there (f : filesystem) :
  (∀ i, i ≤ length P → f !! (base ++ take i P) = Some Dir) →
  makedirs cwd src f = Ok f.
Proof.
  intros Hdirs. rewrite (makedirs_missing f (length P)); [| reflexivity | exact Hdirs | lia].
  unfold dirs_made. rewrite dirs_made_rev_present; [reflexivity|].
  rewrite length_rev, rev_involutive. exact Hdirs.
Qed.

Lemma makedirs_child (d : string) (f : filesystem) :
  (∀ i, i ≤ length P → f !! (base ++ take i P) = Some Dir) →
  f !! (resolve cwd src ++ [d]) = None →
  makedirs cwd (path_div src {| absolute := false; parts := [d] |}) f
    = Ok (<[resolve cwd src ++ [d] := Dir]> f).
Proof.
  intros Hdirs Hnone. unfold makedirs, path_div. cbn [absolute parts]. fold base. fold P.
  rewrite rev_unit.
  rewrite (makedirs_rev_spec base (d :: rev P) f (length P)).
  - cbn [dirs_made_rev]. rewrite dirs_made_rev_present.
    + rewrite rev_involutive. reflexivity.
    + rewrite length_rev, rev_involutive. exact Hdirs.
  - cbn [length]. rewrite length_rev. lia.
  - intros i Hi. rewrite take_rev_cons by (rewrite length_rev; exact Hi).
    rewrite rev_involutive. apply Hdirs. exact Hi.
  - intros i Hi. cbn [length] in Hi. rewrite length_rev in Hi.
    replace i with (length (d :: rev P)) by (cbn [length]; rewrite length_rev; lia).
    rewrite take_rev_all. cbn [rev]. rewrite rev_involutive, app_assoc. exact Hnone.
Qed.

Lemma dirs_made_prefix (f : filesystem) (i : nat) :
  f !! base = Some Dir →
  i ≤ length P →
  dirs_made base P f !! (base ++ take i P) = Some Dir.
Proof.
  intros Hbase Hi. unfold dirs_made. destruct i as [|i].
  - cbn [take]. rewrite app_nil_r, dirs_made_rev_shallower by reflexivity. exact Hbase.
  - replace (take (S i) P) with (take (S i) (rev (rev P)))
      by (rewrite rev_involutive; reflexivity).
    apply dirs_made_rev_prefix. rewrite length_rev. lia.
Qed.

Lemma dirs_made_deeper (f : filesystem) (suffix : list string) :
  suffix ≠ [] →
  dirs_made base P f !! (resolve cwd src ++ suffix) = f !! (resolve cwd src ++ suffix).
Proof.
  intros Hne. unfold dirs_made. apply dirs_made_rev_deeper.
  unfold resolve. fold base. fold P. rewrite !length_app, length_rev.
  destruct suffix; [contradiction | cbn [length]; lia].
Qed.

End Makedirs.

Lemma bind_ok {A B} (m : M A) (k : A → M B) (w w' : world) (a : A) :
  m w = (Ok a, w') → bind m k w = k a w'.
Proof. intros H. unfold bind. rewrite H. reflexivity. Qed.

(** Two keys differ: by what follows a common start, or by their length. *)
Ltac key_ne :=
  let E := fresh "E" in
  intros E;
  first [ apply app_inv_head in E; discriminate E
        | apply (f_equal length) in E;
          repeat rewrite ?length_app, ?length_take in E; cbn [length] in E; lia ].

(** Scaffolding into a source directory that is not there, in a closed
    filesystem where the first [n] components of its path are directories
    and the others are missing, with the four templates at hand: the
    directories are made and the four files written. *)
Lemma generate_sample_docs_spec (cwd : list string)
    (get_template : string → result (DocConfig → result string))
    (config : DocConfig) (w : world) (s : string) (n : nat)
    (t1 t2 t3 t4 : DocConfig → result string) (c1 c2 c3 c4 : string) :
  let src := path_of s in
  let base := if absolute src then [] else cwd in
  doc_src config = VStr s →
  fs_closed (fs w) →
  n < length (parts src) →
  (∀ i, i ≤ n → fs w !! (base ++ take i (parts src)) = Some Dir) →
  (∀ i, n < i ≤ length (parts src) → fs w !! (base ++ take i (parts src)) = None) →
  get_template "README.rst.jinja2" = Ok t1 → t1 config = Ok c1 →
  get_template "subpage.rst.jinja2" = Ok t2 → t2 config = Ok c2 →
  get_template "conf.py.jinja2" = Ok t3 → t3 config = Ok c3 →
  get_template "Makefile.jinja2" = Ok t4 → t4 config = Ok c4 →
  _generate_sample_docs_source cwd get_template config w =
    (Ok tt, {| fs := scaffolded cwd src c1 c2 c3 c4 (fs w);
               trace := trace w ++ [EvScaffold (pyproject_path config)] |}).
Proof.
  intros src base Hsrc Hclosed Hn Hdirs Hnone Ht1 Hc1 Ht2 Hc2 Ht3 Hc3 Ht4 Hc4.
  set (P := parts src) in *.
  remember (resolve cwd src) as K eqn:HK.
  assert (Hlen : length K = length base + length P)
    by (subst K; unfold resolve; fold base; fold P; apply length_app).
  assert (HKP : K = base ++ take (length P) P)
    by (subst K; rewrite take_ge by reflexivity; reflexivity).
  assert (Hbelow : ∀ suffix, fs w !! (K ++ suffix) = None).
  { intros suffix. apply closed_below; [exact Hclosed|].
    rewrite HKP. apply Hnone. lia. }
  assert (Hbase : fs w !! base = Some Dir).
  { specialize (Hdirs 0 (Nat.le_0_l _)). cbn [take] in Hdirs.
    rewrite app_nil_r in Hdirs. exact Hdirs. }
  set (g0 := dirs_made base P (fs w)).
  assert (Hmk0 : makedirs cwd src (fs w) = Ok g0).
  { apply (makedirs_missing cwd src (fs w) n); [fold P; lia | exact Hdirs | exact Hnone]. }
  assert (Hall0 : ∀ i, i ≤ length P → g0 !! (base ++ take i P) = Some Dir).
  { intros i Hi. apply (dirs_made_prefix cwd src); assumption. }
  assert (Hdeep0 : ∀ suffix, suffix ≠ [] → g0 !! (K ++ suffix) = None).
  { intros suffix Hne. unfold g0. rewrite HK.
    rewrite (dirs_made_deeper cwd src) by exact Hne. rewrite <- HK. apply Hbelow. }
  assert (Hins : ∀ (g : filesystem) suffix x, suffix ≠ [] →
            (∀ i, i ≤ length P → g !! (base ++ take i P) = Some Dir) →
            ∀ i, i ≤ length P → <[K ++ suffix := x]> g !! (base ++ take i P) = Some Dir).
  { intros g suffix x Hne Hg i Hi. rewrite lookup_insert_ne; [apply Hg; exact Hi|].
    destruct suffix; [contradiction|]. key_ne. }
  assert (HKdir : ∀ g : filesystem,
            (∀ i, i ≤ length P → g !! (base ++ take i P) = Some Dir) → g !! K = Some Dir).
  { intros g Hg. rewrite HKP. apply Hg. reflexivity. }
  (* the root document *)
  set (g1 := <[K ++ ["README.rst"] := File c1]> g0).
  assert (Hall1 : ∀ i, i ≤ length P → g1 !! (base ++ take i P) = Some Dir)
    by (apply Hins; [discriminate | exact Hall0]).
  (* the example subpage *)
  set (g2 := <[K ++ ["docs"] := Dir]> g1).
  assert (Hmk1 : makedirs cwd (path_div src (path_of "docs")) g1 = Ok g2).
  { change (path_of "docs") with {| absolute := false; parts := ["docs"] |}.
    unfold g2. rewrite HK. apply makedirs_child; [exact Hall1|].
    rewrite <- HK. unfold g1. rewrite lookup_insert_ne by key_ne.
    apply Hdeep0. discriminate. }
  assert (Hres : resolve cwd (path_div src (path_of "docs")) = K ++ ["docs"]).
  { subst K. change (path_of "docs") with {| absolute := false; parts := ["docs"] |}.
    unfold resolve, path_div. cbn [absolute parts]. apply app_assoc. }
  assert (Hall2 : ∀ i, i ≤ length P → g2 !! (base ++ take i P) = Some Dir)
    by (apply Hins; [discriminate | exact Hall1]).
  set (g3 := <[(K ++ ["docs"]) ++ ["subpage.rst"] := File c2]> g2).
  assert (Hall3 : ∀ i, i ≤ length P → g3 !! (base ++ take i P) = Some Dir).
  { unfold g3. rewrite <- app_assoc. apply Hins; [discriminate | exact Hall2]. }
  (* the build configuration and the makefile *)
  set (g4 := <[K ++ ["conf.py"] := File c3]> g3).
  assert (Hall4 : ∀ i, i ≤ length P → g4 !! (base ++ take i P) = Some Dir)
    by (apply Hins; [discriminate | exact Hall3]).
  unfold _generate_sample_docs_source.
  unfold bind at 1. unfold mark at 1. unfold bind at 1. unfold lift at 1.
  rewrite Hsrc. cbn [py_Path]. fold src.
  erewrite bind_ok.
  2:{ apply (render_template_spec cwd get_template _ "README.rst" src config _ t1 c1 g0);
        [exact Ht1 | exact Hc1 | reflexivity | exact Hmk0 | | ].
      - rewrite <- HK. apply HKdir, Hall0.
      - rewrite <- HK, Hdeep0 by discriminate. discriminate. }
  rewrite <- HK. fold g1.
  erewrite bind_ok.
  2:{ apply (render_template_spec cwd get_template _ "subpage.rst" _ config _ t2 c2 g2);
        [exact Ht2 | exact Hc2 | reflexivity | exact Hmk1 | | ].
      - rewrite Hres. apply lookup_insert_eq.
      - rewrite Hres. unfold g2, g1. rewrite !lookup_insert_ne by key_ne.
        rewrite <- app_assoc, Hdeep0 by discriminate. discriminate. }
  rewrite Hres. fold g3.
  erewrite bind_ok.
  2:{ apply (render_template_spec cwd get_template _ "conf.py" src config _ t3 c3 g3);
        [exact Ht3 | exact Hc3 | reflexivity | | | ].
      - apply makedirs_all_there. exact Hall3.
      - rewrite <- HK. apply HKdir, Hall3.
      - rewrite <- HK. unfold g3, g2, g1. rewrite !lookup_insert_ne by key_ne.
        rewrite Hdeep0 by discriminate. discriminate. }
  rewrite <- HK. fold g4.
  erewrite (render_template_spec cwd get_template _ "Makefile" src config _ t4 c4 g4);
    [ | exact Ht4 | exact Hc4 | reflexivity | | | ].
  - unfold scaffolded. cbv zeta. rewrite <- HK. reflexivity.
  - apply makedirs_all_there. exact Hall4.
  - rewrite <- HK. apply HKdir, Hall4.
  - rewrite <- HK. unfold g4, g3, g2, g1. rewrite !lookup_insert_ne by key_ne.
    rewrite Hdeep0 by discriminate. discriminate.
Qed.


(** ** What each stage leaves in the record of stages *)


Lemma for_keeps_trace {A} (body : A → M unit) (l : list A) (w : world) :
  (∀ x w, trace (body x w).2 = trace w) →
  trace (for_ l body w).2 = trace w.
Proof.
  intros Hbody. revert w. induction l as [|x l IH]; intros w; [reflexivity|].
  cbn [for_]. unfold bind. specialize (Hbody x w).
  destruct (body x w) as [[[]|e] w1]; cbn [snd] in *; [|exact Hbody].
  rewrite IH. exact Hbody.
Qed.

Lemma deploy_trace (cwd : list string) (config : DocConfig) (w : world) :
  trace (_deploy_docs cwd config w).2 = trace w ++ [EvDeploy (pyproject_path config)].
Proof.
  unfold _deploy_docs, bind, mark, lift, get_fs. cbn [fs trace].
  destruct (py_getitem _ "deploy_dir") as [deploy_dir|]; [|reflexivity].
  destruct (py_Path deploy_dir) as [deploy_to|]; [|reflexivity].
  destruct (py_getitem _ "build_dir") as [build_dir|]; [|reflexivity].
  destruct (py_Path build_dir) as [build_root|]; [|reflexivity].
  cbn [fs]. rewrite for_keeps_trace; [reflexivity|].
  intros docfile w1. unfold update_fs.
  destruct (relative_to docfile build_root) as [rel|]; [|reflexivity].
  destruct (shutil_copy _ _ (fs w1)); reflexivity.
Qed.


(** A filesystem is closed when each of its entries is the root or has a
    directory above it. *)
Lemma fs_closed_by_entries (f : filesystem) :
  Forall (λ kv, kv.1 = [] ∨ f !! removelast kv.1 = Some Dir) (map_to_list f) →
  fs_closed f.
Proof.
  intros Hall k x [y Hy]. apply elem_of_map_to_list in Hy.
  rewrite Forall_forall in Hall. destruct (Hall _ Hy) as [H | H]; cbn [fst] in H.
  - destruct k; discriminate H.
  - rewrite removelast_last in H. exact H.
Qed.


(** ** What a run enters, and for which manifests *)

Lemma rmtree_inside (k suffix : list string) (f : filesystem) :
  rmtree k f !! (k ++ suffix) = None.
Proof.
  unfold rmtree. apply map_lookup_filter_None. right.
  intros x _. cbn [fst]. rewrite under_app. discriminate.
Qed.

Lemma rmtree_outside (k key : list string) (f : filesystem) :
  under k key = None → rmtree k f !! key = f !! key.
Proof.
  intros Hout. unfold rmtree.
  destruct (f !! key) as [x|] eqn:Hx.
  - apply map_lookup_filter_Some. split; [exact Hx | exact Hout].
  - apply map_lookup_filter_None. left. exact Hx.
Qed.

(** A configuration keeps the manifest it was made from, and its path. *)
Lemma load_config_toml_data (pyproject : Path) (toml : gmap string value)
    (config : DocConfig) :
  _load_config_toml pyproject toml = Ok (Some config) →
  pyproject_data config = toml ∧ pyproject_path config = path_str pyproject.
Proof.
  unfold _load_config_toml.
  destruct (py_get _ "doccer") as [[magdocs|]|]; cbn [rbind]; try (intros; discriminate).
  destruct (py_get_default magdocs _ _); cbn [rbind]; try (intros; discriminate).
  destruct (py_getitem (VTable toml) "project"); cbn [rbind]; try (intros; discriminate).
  destruct (py_get _ "authors"); cbn [rbind]; try (intros; discriminate).
  destruct (if from_option truthy false _ then _ else _); cbn [rbind];
    try (intros; discriminate).
  destruct (py_Path _); cbn [rbind]; try (intros; discriminate).
  destruct (py_get_default magdocs _ _); cbn [rbind]; try (intros; discriminate).
  destruct (py_getitem _ "name"); cbn [rbind]; try (intros; discriminate).
  destruct (py_get_default magdocs _ _); cbn [rbind]; try (intros; discriminate).
  intros [= <-]. split; reflexivity.
Qed.

Lemma load_config_path (cwd : list string)
    (tomli : string → result (gmap string value))
    (pyproject : Path) (w w' : world) (config : DocConfig) :
  _load_config cwd tomli pyproject w = (Ok (Some config), w') →
  pyproject_path config = path_str pyproject.
Proof.
  unfold _load_config, bind, lift, get_fs.
  destruct (fs_read _ _) as [data|]; [|intros; discriminate].
  destruct (tomli data) as [toml|]; [|intros; discriminate].
  destruct (_load_config_toml pyproject toml) as [o|] eqn:Hload; [|intros; discriminate].
  intros [= -> _]. apply (load_config_toml_data pyproject toml config Hload).
Qed.

(** Every configuration [load_each] returns was there already or comes
    from one of the manifests it walked through. *)
Lemma load_each_from (cwd : list string)
    (tomli : string → result (gmap string value))
    (l : list Path) (acc configs : list DocConfig) (w w' : world) :
  load_each cwd tomli l acc w = (Ok configs, w') →
  w' = w ∧
  ∀ c, c ∈ configs → c ∈ acc ∨ ∃ q, q ∈ l ∧ pyproject_path c = path_str q.
Proof.
  revert acc. induction l as [|p l IH]; intros acc; cbn [load_each].
  - intros [= <- <-]. split; [reflexivity|]. intros c Hc. left. exact Hc.
  - unfold bind. pose proof (load_config_world cwd tomli p w) as Hw.
    destruct (_load_config cwd tomli p w) as [[[c0|]|e] w1] eqn:Hp; cbn [snd] in Hw;
      subst w1; [| |intros; discriminate].
    + intros H. destruct (IH _ H) as [-> Hfrom]. split; [reflexivity|].
      intros c Hc. destruct (Hfrom c Hc) as [Hacc | (q & Hq & Hpath)].
      * apply elem_of_app in Hacc as [Hacc | Hnew]; [left; exact Hacc|].
        apply list_elem_of_singleton in Hnew as ->.
        right. exists p. split; [left|]. apply (load_config_path _ _ _ _ _ _ Hp).
      * right. exists q. split; [right; exact Hq | exact Hpath].
    + intros H. destruct (IH _ H) as [-> Hfrom]. split; [reflexivity|].
      intros c Hc. destruct (Hfrom c Hc) as [Hacc | (q & Hq & Hpath)];
        [left; exact Hacc|].
      right. exists q. split; [right; exact Hq | exact Hpath].
Qed.

Lemma load_each_world (cwd : list string)
    (tomli : string → result (gmap string value))
    (l : list Path) (acc : list DocConfig) (w : world) :
  (load_each cwd tomli l acc w).2 = w.
Proof.
  revert acc. induction l as [|p l IH]; intros acc; cbn [load_each]; [reflexivity|].
  unfold bind. pose proof (load_config_world cwd tomli p w) as Hw.
  destruct (_load_config cwd tomli p w) as [[[c0|]|e] w1]; cbn [snd] in Hw; subst w1;
    [apply IH | apply IH | reflexivity].
Qed.

(** *** The record of stages *)

Lemma entered_refl (ps : list string) (w w' : world) :
  trace w' = trace w → entered_among ps w w'.
Proof. intros H. exists []. rewrite app_nil_r. split; [exact H | constructor]. Qed.

Lemma entered_trans (ps : list string) (w1 w2 w3 : world) :
  entered_among ps w1 w2 → entered_among ps w2 w3 → entered_among ps w1 w3.
Proof.
  intros (e1 & H1 & F1) (e2 & H2 & F2). exists (e1 ++ e2).
  rewrite H2, H1, app_assoc. split; [reflexivity|]. apply Forall_app. split; assumption.
Qed.

Lemma entered_one (ps : list string) (w w' : world) (ev : event) :
  ev_manifest ev ∈ ps → trace w' = trace w ++ [ev] → entered_among ps w w'.
Proof. intros Hin H. exists [ev]. split; [exact H|]. repeat constructor. exact Hin. Qed.

Lemma entered_mono (ps qs : list string) (w w' : world) :
  (∀ p, p ∈ ps → p ∈ qs) → entered_among ps w w' → entered_among qs w w'.
Proof.
  intros Hsub (evs & H & F). exists evs. split; [exact H|].
  eapply Forall_impl; [exact F|]. intros ev. apply Hsub.
Qed.

Lemma render_template_trace (cwd : list string)
    (get_template : string → result (DocConfig → result string))
    (name : string) (dest_dir : Path) (config : DocConfig) (w : world) :
  trace (_render_template cwd get_template name dest_dir config w).2 = trace w.
Proof.
  unfold _render_template, bind, lift, update_fs.
  destruct (get_template name) as [t|]; [|reflexivity].
  destruct (makedirs cwd dest_dir (fs w)) as [f1|]; [|reflexivity]. cbn [fs trace].
  destruct (fs_open_w _ f1) as [f2|]; [|reflexivity]. cbn [fs trace].
  destruct (t config) as [text|]; reflexivity.
Qed.

Lemma bind_keeps_trace {A B} (m : M A) (k : A → M B) (w : world) :
  trace (m w).2 = trace w →
  (∀ a w1, trace (k a w1).2 = trace w1) →
  trace (bind m k w).2 = trace w.
Proof.
  intros Hm Hk. unfold bind. destruct (m w) as [[a|e] w1]; cbn [snd] in *.
  - rewrite Hk. exact Hm.
  - exact Hm.
Qed.

(** Scaffolding enters its stage once, however it ends. *)
Lemma scaffold_trace (cwd : list string)
    (get_template : string → result (DocConfig → result string))
    (config : DocConfig) (w : world) :
  trace (_generate_sample_docs_source cwd get_template config w).2 =
    trace w ++ [EvScaffold (pyproject_path config)].
Proof.
  unfold _generate_sample_docs_source. unfold bind at 1. unfold mark at 1.
  unfold bind at 1. unfold lift at 1.
  destruct (py_Path (doc_src config)) as [source_path|]; [|reflexivity].
  set (w1 := {| fs := fs w; trace := trace w ++ [EvScaffold (pyproject_path config)] |}).
  change (trace w ++ [EvScaffold (pyproject_path config)]) with (trace w1).
  repeat (apply bind_keeps_trace; [apply render_template_trace | intros _ ?]).
  apply render_template_trace.
Qed.

(** The build step enters its stage at most once. *)
Lemma build_entered (run : list string → filesystem → proc_outcome)
    (config : DocConfig) (w : world) :
  entered_among [pyproject_path config] w (_build_with_sphinx run config w).2.
Proof.
  unfold _build_with_sphinx, subprocess_run_check, bind, lift, get_fs, mark, put_fs,
    ret, raise.
  destruct (py_getitem _ "build_dir") as [build_dir|]; [|apply entered_refl; reflexivity].
  destruct (argv _) as [args|]; [|apply entered_refl; reflexivity].
  apply (entered_one _ _ _ (EvBuild (pyproject_path config) args (fs w))); [left|].
  cbn [fs trace].
  destruct (run args (fs w)) as [e | returncode stdout after]; [reflexivity|].
  cbn [fs trace].
  destruct (Z.eqb returncode 0); [|reflexivity].
  destruct (decode stdout); reflexivity.
Qed.

(** One iteration enters stages for its own manifest only. *)
Lemma hook_body_entered (cwd : list string)
    (get_template : string → result (DocConfig → result string))
    (run : list string → filesystem → proc_outcome)
    (mkdtemp : filesystem → string) (config : DocConfig) (w : world) :
  entered_among [pyproject_path config] w
    (hook_body cwd get_template run mkdtemp config w).2.
Proof.
  unfold hook_body, TemporaryDirectory.
  destruct (fs w !! _) as [x|]; [apply entered_refl; reflexivity|].
  destruct (fs w !! removelast _) as [[c|]|]; try (apply entered_refl; reflexivity).
  set (k := resolve cwd (path_of (mkdtemp (fs w)))).
  set (config' := set_derived "build_dir" (VStr (mkdtemp (fs w))) config).
  set (w0 := {| fs := <[k := Dir]> (fs w); trace := trace w |}).
  assert (Hbody : ∀ m : M unit,
            entered_among [pyproject_path config] w (m w0).2 →
            entered_among [pyproject_path config] w
              (let '(r, w') := m w0 in
               match fs w' !! k with
               | Some (File _) => (Raise NotADirectoryError, w')
               | _ => (r, {| fs := rmtree k (fs w'); trace := trace w' |})
               end).2).
  { intros m H. destruct (m w0) as [r w']. cbn [snd] in H.
    destruct (fs w' !! k) as [[c|]|]; cbn [snd]; destruct H as (evs & H & F);
      exists evs; (split; [exact H | exact F]). }
  apply Hbody. clear Hbody.
  apply (entered_trans _ w w0); [apply entered_refl; reflexivity|].
  unfold bind at 1. unfold lift at 1.
  destruct (py_Path (doc_src config')) as [source_path|];
    [|apply entered_refl; reflexivity].
  unfold bind at 1. unfold get_fs at 1. cbn [fs].
  unfold bind at 1.
  assert (Hsrc : entered_among [pyproject_path config] w0
            ((if fs_exists (resolve cwd source_path) (fs w0) then ret tt
              else _generate_sample_docs_source cwd get_template config') w0).2).
  { destruct (fs_exists _ _); [apply entered_refl; reflexivity|].
    apply (entered_one _ _ _ (EvScaffold (pyproject_path config))); [left|].
    exact (scaffold_trace cwd get_template config' w0). }
  change (<[k := Dir]> (fs w)) with (fs w0).
  destruct ((if fs_exists (resolve cwd source_path) (fs w0) then ret tt
             else _generate_sample_docs_source cwd get_template config') w0)
    as [[[]|e] w1]; cbn [snd] in Hsrc; [|exact Hsrc].
  apply (entered_trans _ w0 w1); [exact Hsrc|].
  unfold bind at 1.
  pose proof (build_entered run config' w1) as Hbuild.
  destruct (_build_with_sphinx run config' w1) as [[flag|e] w2]; cbn [snd] in Hbuild;
    [|exact Hbuild].
  apply (entered_trans _ w1 w2); [exact Hbuild|].
  apply (entered_one _ _ _ (EvDeploy (pyproject_path config))); [left|].
  exact (deploy_trace cwd config' w2).
Qed.

(** The loop enters stages for the manifests of its configurations only. *)
Lemma for_entered (cwd : list string)
    (get_template : string → result (DocConfig → result string))
    (run : list string → filesystem → proc_outcome)
    (mkdtemp : filesystem → string) (configs : list DocConfig) (w : world) :
  entered_among (pyproject_path <$> configs) w
    (for_ configs (hook_body cwd get_template run mkdtemp) w).2.
Proof.
  revert w. induction configs as [|config configs IH]; intros w.
  - apply entered_refl. reflexivity.
  - cbn [for_]. unfold bind.
    pose proof (hook_body_entered cwd get_template run mkdtemp config w) as Hone.
    apply (entered_mono _ (pyproject_path <$> config :: configs)) in Hone;
      [|intros p Hp; apply list_elem_of_singleton in Hp as ->; left].
    destruct (hook_body cwd get_template run mkdtemp config w) as [[[]|e] w1];
      cbn [snd] in Hone; [|exact Hone].
    apply (entered_trans _ w w1); [exact Hone|].
    apply (entered_mono (pyproject_path <$> configs)); [|apply IH].
    intros p Hp. right. exact Hp.
Qed.

(** The configurations before the one that fails have been dealt with. *)
Lemma for_app_ok {A} (body : A → M unit) (before l : list A) (w0 w : world) :
  for_ before body w0 = (Ok tt, w) →
  for_ (before ++ l) body w0 = for_ l body w.
Proof.
  revert w0. induction before as [|x before IH]; intros w0; cbn [app for_].
  - intros [= <-]. reflexivity.
  - unfold bind. destruct (body x w0) as [[[]|e] w1]; [apply IH | intros; discriminate].
Qed.

(** ** A build that fails *)

(** C4, amended. When the builder exits with a non-zero status for a
    project, wherever the project stands in the list and whether its
    source directory was there or has just been scaffolded, and the
    builder leaves the temporary directory a directory, the driver's loop
    raises [CalledProcessError] at once: the temporary directory is
    removed, the last stage entered is that project's build (after its
    scaffolding, if any), so it is not deployed, and no stage is entered
    for any project after it in the list. *)
Theorem build_failure_aborts_run (cwd : list string)
    (get_template : string → result (DocConfig → result string))
    (run : list string → filesystem → proc_outcome)
    (mkdtemp : filesystem → string)
    (before : list DocConfig) (config : DocConfig) (rest : list DocConfig)
    (w0 w w1 : world) (s : string) (returncode : Z) (stdout : string)
    (after : filesystem) :
  let tmpdir := mkdtemp (fs w) in
  let k := resolve cwd (path_of tmpdir) in
  let fs1 := <[k := Dir]> (fs w) in
  let config' := set_derived "build_dir" (VStr tmpdir) config in
  let args := ["sphinx-build"; "-b"; "rst"; s; tmpdir] in
  for_ before (hook_body cwd get_template run mkdtemp) w0 = (Ok tt, w) →
  fs w !! k = None →
  fs w !! removelast k = Some Dir →
  doc_src config = VStr s →
  in_model (path_of s) →
  in_model (path_of tmpdir) →
  (fs_exists (resolve cwd (path_of s)) fs1 = true ∧
   w1 = {| fs := fs1; trace := trace w |}) ∨
  (fs_exists (resolve cwd (path_of s)) fs1 = false ∧
   _generate_sample_docs_source cwd get_template config'
     {| fs := fs1; trace := trace w |} = (Ok tt, w1)) →
  run args (fs w1) = Completed returncode stdout after →
  returncode ≠ 0%Z →
  after !! k = Some Dir →
  for_ (before ++ config :: rest) (hook_body cwd get_template run mkdtemp) w0 =
    (Raise (CalledProcessError returncode),
     {| fs := rmtree k after;
        trace := trace w1 ++ [EvBuild (pyproject_path config) args (fs w1)] |}) ∧
  (trace w1 = trace w ∨ trace w1 = trace w ++ [EvScaffold (pyproject_path config)]).
Proof.
  intros tmpdir k fs1 config' args Hbefore Hfresh Hparent Hsrc _ _ Hsource Hrun Hrc Hdir.
  assert (Hstart :
    (if fs_exists (resolve cwd (path_of s)) fs1 then ret tt
     else _generate_sample_docs_source cwd get_template config')
      {| fs := fs1; trace := trace w |} = (Ok tt, w1)).
  { destruct Hsource as [[-> ->] | [-> Hscaffold]]; [reflexivity | exact Hscaffold]. }
  split.
  - rewrite (for_app_ok _ before (config :: rest) w0 w Hbefore).
    apply for_raises.
    unfold hook_body, TemporaryDirectory. fold tmpdir. fold k.
    rewrite Hfresh, Hparent. fold fs1. fold config'.
    unfold bind at 1. unfold lift at 1.
    replace (doc_src config') with (VStr s) by (symmetry; exact Hsrc).
    cbn [py_Path]. unfold bind at 1. unfold get_fs at 1. cbn [fs].
    unfold bind at 1. rewrite Hstart. unfold bind at 1.
    rewrite (build_fails run config' w1 s tmpdir returncode stdout after Hsrc
               (lookup_insert_eq _ _ _) Hrun Hrc).
    cbn [fs trace]. rewrite Hdir. reflexivity.
  - destruct Hsource as [[_ ->] | [_ Hscaffold]]; [left; reflexivity|].
    right. pose proof (scaffold_trace cwd get_template config'
                         {| fs := fs1; trace := trace w |}) as Htrace.
    rewrite Hscaffold in Htrace. exact Htrace.
Qed.

Lemma build_failure_aborts_run_witness :
  let w0 := {| fs := two_projects_fs; trace := [] |} in
  let hook := hook_body ["repo"] demo_templates second_run_fails demo_mkdtemp in
  let config_b := project_config "b/pyproject.toml" in
  let config_a := project_config "a/pyproject.toml" in
  (_load_configs ["repo"] demo_tomli (path_of ".") w0).1 = Ok [config_b; config_a] ∧
  for_ [config_b] hook w0 = (Ok tt, first_done) ∧
  for_ ([config_b] ++ config_a :: []) hook w0 =
    (Raise (CalledProcessError 1),
     {| fs := rmtree ["tmp"; "tmpdoccer"]
                (<[["tmp"; "tmpdoccer"; "index.rst"] := File "built"]>
                   (<[["tmp"; "tmpdoccer"] := Dir]> (fs first_done)));
        trace := trace first_done ++
                 [EvBuild "a/pyproject.toml"
                    ["sphinx-build"; "-b"; "rst"; "docs/src"; "/tmp/tmpdoccer"]
                    (<[["tmp"; "tmpdoccer"] := Dir]> (fs first_done))] |}).
Proof.
  intros w0 hook config_b config_a. split; [vm_compute; reflexivity|].
  split; [vm_compute; reflexivity|].
  pose proof (build_failure_aborts_run ["repo"] demo_templates second_run_fails
                demo_mkdtemp [config_b] config_a [] w0 first_done
                (World (<[["tmp"; "tmpdoccer"] := Dir]> (fs first_done))
                   (trace first_done))
                "docs/src" 1%Z "writing output"
                (<[["tmp"; "tmpdoccer"; "index.rst"] := File "built"]>
                   (<[["tmp"; "tmpdoccer"] := Dir]> (fs first_done)))) as Hrun.
  refine (proj1 (Hrun _ _ _ _ _ _ _ _ _ _)).
  - vm_compute. reflexivity.
  - reflexivity.
  - reflexivity.
  - reflexivity.
  - repeat constructor; discriminate.
  - repeat constructor; discriminate.
  - left. split; reflexivity.
  - reflexivity.
  - discriminate.
  - reflexivity.
Defined.

(** ** Manifests and their paths *)

Lemma split_on_free (x : string) :
  slash_free x = true → split_on "/" x = [x].
Proof.
  induction x as [|c x IH]; [reflexivity|]. cbn [slash_free split_on].
  intros H. apply andb_true_iff in H as [Hc Hx]. apply negb_true_iff in Hc.
  rewrite Hc, (IH Hx). reflexivity.
Qed.

Lemma split_on_app (x s : string) :
  slash_free x = true →
  split_on "/" (x +:+ String "/" s) = x :: split_on "/" s.
Proof.
  induction x as [|c x IH]; [reflexivity|]. cbn [slash_free].
  intros H. apply andb_true_iff in H as [Hc Hx]. apply negb_true_iff in Hc.
  rewrite append_cons. cbn [split_on]. rewrite Hc, (IH Hx). reflexivity.
Qed.

(** Joining names that hold no slash loses nothing. *)
Lemma split_concat (l : list string) :
  Forall (λ c, slash_free c = true) l → l ≠ [] →
  split_on "/" (String.concat "/" l) = l.
Proof.
  induction l as [|x l IH]; [intros _ H; contradiction|].
  intros Hall _. apply Forall_cons in Hall as [Hx Hl].
  destruct l as [|y l]; [apply split_on_free, Hx|].
  change (String.concat "/" (x :: y :: l))
    with (x +:+ String "/" (String.concat "/" (y :: l))).
  rewrite (split_on_app _ _ Hx), IH; [reflexivity | exact Hl | discriminate].
Qed.

Lemma path_str_relative_inj (l1 l2 : list string) :
  Forall (λ c, slash_free c = true) l1 → Forall (λ c, slash_free c = true) l2 →
  l1 ≠ [] → l2 ≠ [] →
  path_str {| absolute := false; parts := l1 |}
    = path_str {| absolute := false; parts := l2 |} →
  l1 = l2.
Proof.
  intros H1 H2 N1 N2. unfold path_str. cbn [absolute parts].
  destruct l1 as [|a l1]; [contradiction|]. destruct l2 as [|b l2]; [contradiction|].
  intros Heq. rewrite <- (split_concat (a :: l1)), <- (split_concat (b :: l2)), Heq;
    [reflexivity | assumption | discriminate | assumption | discriminate].
Qed.

Lemma NoDup_omap_inj {A B} (f : A → option B) (l : list A) :
  (∀ x y z, f x = Some z → f y = Some z → x = y) →
  NoDup l → NoDup (omap f l).
Proof.
  intros Hinj. induction 1 as [|x l Hx Hl IH]; cbn [omap list_omap]; [constructor|].
  destruct (f x) as [z|] eqn:Hz; [|exact IH].
  constructor; [|exact IH].
  intros Hin. apply list_elem_of_omap in Hin as (y & Hy & Hfy).
  rewrite (Hinj x y z Hz Hfy) in Hx. contradiction.
Qed.

(** [rglob] finds every path once. *)
Lemma rglob_NoDup (cwd : list string) (root : Path) (pattern : string)
    (f : filesystem) :
  NoDup (rglob cwd root pattern f).
Proof.
  unfold rglob. apply NoDup_omap_inj; [|apply NoDup_fst_map_to_list].
  assert (Hkey : ∀ k p,
            match under (resolve cwd root) k with
            | Some (c :: rel) =>
                if fnmatch pattern (List.last (c :: rel) EmptyString)
                then Some {| absolute := absolute root; parts := parts root ++ c :: rel |}
                else None
            | _ => None
            end = Some p →
            k = resolve cwd root ++ drop (length (parts root)) (parts p)).
  { intros k p. destruct (under (resolve cwd root) k) as [[|c rel]|] eqn:Hu;
      try discriminate.
    destruct (fnmatch _ _); [|discriminate]. intros [= <-]. cbn [parts].
    rewrite drop_app_length. apply under_Some, Hu. }
  intros x y z Hx Hy. rewrite (Hkey x z Hx), (Hkey y z Hy). reflexivity.
Qed.

(** In a filesystem of valid names, two manifests found from the working
    directory with the same path string are the same manifest. *)
Lemma found_path_str_inj (cwd : list string) (pattern : string) (f : filesystem)
    (p q : Path) :
  valid_names f →
  p ∈ rglob cwd (path_of ".") pattern f →
  q ∈ rglob cwd (path_of ".") pattern f →
  path_str p = path_str q → p = q.
Proof.
  intros Hvalid Hp Hq Heq.
  apply elem_of_rglob in Hp as (rp & Np & _ & Sp & ->).
  apply elem_of_rglob in Hq as (rq & Nq & _ & Sq & ->).
  change (parts (path_of ".") ++ rp) with rp in *.
  change (parts (path_of ".") ++ rq) with rq in *.
  change (absolute (path_of ".")) with false in *.
  apply Hvalid, Forall_app in Sp as [_ Fp]. apply Hvalid, Forall_app in Sq as [_ Fq].
  rewrite (path_str_relative_inj rp rq Fp Fq Np Nq Heq). reflexivity.
Qed.

(** ** Projects that opt out, and the stages *)

(** C6 (a manifest without the section that is not skipped). A manifest
    whose [tool] entry is a number has no documentation-tool section,
    yet [_load_config] raises [AttributeError] for it instead of
    returning [None], and the run of [precommit_hook] ends there, for
    the other project of the repository too. *)
Theorem sectionless_manifest_raises :
  let w := {| fs := scalar_fs; trace := [] |} in
  (∀ tool, scalar_tool_toml !! "tool" ≠ Some (VTable tool)) ∧
  _load_config ["repo"] scalar_tomli (path_of "lib/pyproject.toml") w
    = (Raise (AttributeError "get"), w) ∧
  precommit_hook ["repo"] scalar_tomli demo_templates (demo_sphinx 0 "writing output")
    demo_mkdtemp w = (Raise (AttributeError "get"), w).
Proof.
  split; [intros tool; vm_compute; discriminate|].
  split; vm_compute; reflexivity.
Qed.

(** The manifests that are skipped. For every manifest that parses and
    has no [tool] entry, or a [tool] table without a [doccer] entry,
    found in a repository whose names hold no slash: [_load_config]
    returns [None] without raising and without touching the world;
    [_load_configs] returns what it returns for the other manifests
    alone; the run of [precommit_hook] is the run over the other
    manifests alone; and no stage that the run enters (scaffolding, build
    or deployment) is entered for this manifest. *)
Lemma opted_out_manifest_is_skipped (cwd : list string)
    (tomli : string → result (gmap string value))
    (get_template : string → result (DocConfig → result string))
    (run : list string → filesystem → proc_outcome)
    (mkdtemp : filesystem → string)
    (pyproject : Path) (before after : list Path) (w : world)
    (data : string) (toml : gmap string value) :
  valid_names (fs w) →
  fs_read (resolve cwd pyproject) (fs w) = Ok data →
  tomli data = Ok toml →
  lacks_section toml →
  rglob cwd (path_of ".") "pyproject.toml" (fs w) = before ++ pyproject :: after →
  _load_config cwd tomli pyproject w = (Ok None, w) ∧
  _load_configs cwd tomli (path_of ".") w
    = load_each cwd tomli (before ++ after) [] w ∧
  precommit_hook cwd tomli get_template run mkdtemp w
    = (configs <- load_each cwd tomli (before ++ after) [] ;;
       for_ configs (hook_body cwd get_template run mkdtemp)) w ∧
  ∃ evs,
    trace (precommit_hook cwd tomli get_template run mkdtemp w).2 = trace w ++ evs ∧
    ∀ ev, ev ∈ evs → ev_manifest ev ≠ path_str pyproject.
Proof.
  intros Hvalid Hread Hparse Hlacks Hfound.
  assert (Hnone : _load_config cwd tomli pyproject w = (Ok None, w)).
  { rewrite (load_config_parsed _ _ _ _ _ _ Hread Hparse).
    rewrite (load_config_toml_opted_out _ _ Hlacks). reflexivity. }
  assert (Hconfigs : _load_configs cwd tomli (path_of ".") w
                     = load_each cwd tomli (before ++ after) [] w).
  { unfold _load_configs, bind, get_fs. rewrite Hfound.
    apply load_each_skip, Hnone. }
  assert (Hhook : precommit_hook cwd tomli get_template run mkdtemp w
                  = (configs <- load_each cwd tomli (before ++ after) [] ;;
                     for_ configs (hook_body cwd get_template run mkdtemp)) w).
  { unfold precommit_hook, bind. rewrite Hconfigs. reflexivity. }
  split; [exact Hnone|]. split; [exact Hconfigs|]. split; [exact Hhook|].
  rewrite Hhook. unfold bind.
  destruct (load_each cwd tomli (before ++ after) [] w) as [[configs|e] w1] eqn:Hload.
  2:{ pose proof (load_each_world cwd tomli (before ++ after) [] w) as Hw.
      rewrite Hload in Hw. cbn [snd] in Hw. subst w1.
      exists []. rewrite app_nil_r. split; [reflexivity|].
      intros ev Hev. inversion Hev. }
  destruct (load_each_from cwd tomli _ _ _ _ _ Hload) as [-> Hfrom].
  destruct (for_entered cwd get_template run mkdtemp configs w) as (evs & Htrace & Hall).
  exists evs. split; [exact Htrace|].
  intros ev Hev Hsame. rewrite Forall_forall in Hall.
  specialize (Hall ev Hev). apply list_elem_of_fmap in Hall as (c & Hpath & Hc).
  destruct (Hfrom c Hc) as [Hnil | (q & Hq & Hcq)]; [inversion Hnil|].
  pose proof (rglob_NoDup cwd (path_of ".") "pyproject.toml" (fs w)) as Hnodup.
  rewrite Hfound in Hnodup.
  apply NoDup_app in Hnodup as (_ & Hdisjoint & Htail).
  apply NoDup_cons in Htail as [Hnotafter _].
  assert (Heq : q = pyproject).
  { apply (found_path_str_inj cwd "pyproject.toml" (fs w)); [exact Hvalid | | |].
    - rewrite Hfound. apply elem_of_app in Hq as [Hq | Hq];
        [apply elem_of_app; left; exact Hq
        | apply elem_of_app; right; right; exact Hq].
    - rewrite Hfound. apply elem_of_app. right. left.
    - rewrite <- Hcq, <- Hpath. exact Hsame. }
  subst q. apply elem_of_app in Hq as [Hq | Hq].
  - apply (Hdisjoint pyproject Hq). left.
  - contradiction.
Qed.

Lemma opted_out_manifest_is_skipped_witness :
  let w := {| fs := mixed_fs; trace := [] |} in
  let run := demo_sphinx 0 "writing output" in
  _load_config ["repo"] demo_tomli (path_of "lib/pyproject.toml") w = (Ok None, w) ∧
  _load_configs ["repo"] demo_tomli (path_of ".") w
    = load_each ["repo"] demo_tomli ([path_of "pyproject.toml"] ++ []) [] w ∧
  precommit_hook ["repo"] demo_tomli demo_templates run demo_mkdtemp w
    = (configs <- load_each ["repo"] demo_tomli ([path_of "pyproject.toml"] ++ []) [] ;;
       for_ configs (hook_body ["repo"] demo_templates run demo_mkdtemp)) w ∧
  ∃ evs,
    trace (precommit_hook ["repo"] demo_tomli demo_templates run demo_mkdtemp w).2
      = trace w ++ evs ∧
    ∀ ev, ev ∈ evs → ev_manifest ev ≠ path_str (path_of "lib/pyproject.toml").
Proof.
  refine (opted_out_manifest_is_skipped ["repo"] demo_tomli demo_templates
            (demo_sphinx 0 "writing output") demo_mkdtemp
            (path_of "lib/pyproject.toml") [path_of "pyproject.toml"] []
            {| fs := mixed_fs; trace := [] |} "plain" plain_toml _ _ _ _ _).
  - intros k [x Hx]. apply elem_of_map_to_list in Hx.
    assert (Hall : Forall (λ kv, Forall (λ c, slash_free c = true) kv.1)
                     (map_to_list mixed_fs))
      by (vm_compute map_to_list; repeat constructor).
    rewrite Forall_forall in Hall. exact (Hall (k, x) Hx).
  - reflexivity.
  - reflexivity.
  - left. reflexivity.
  - vm_compute. reflexivity.
Defined.

(** * More of the code *)

(** ** Resolution, field by field *)

(** With the section and the project table there, resolution is the
    author, then the source path, then the name. *)
Lemma load_config_toml_steps (pyproject : Path) (toml sec proj : gmap string value) :
  has_section toml sec →
  toml !! "project" = Some (VTable proj) →
  _load_config_toml pyproject toml =
    (let src_dir := default (VStr "docs/src") (sec !! "doc_src") in
     let? author := author_of proj in
     let? src_path := py_Path src_dir in
     let? name := py_getitem (VTable proj) "name" in
     Ok (Some {| pyproject_path := path_str pyproject;
                 pyproject_data := toml;
                 doc_src := src_dir;
                 doc_dest := default (VStr ".") (sec !! "doc_dest");
                 derived :=
                   <["deploy_dir" := VStr "."]>
                     (<["build_dir" :=
                          VStr (path_str (path_div (path_parent src_path)
                                                   (path_of "build")))]>
                        (<["author" := author]> ∅));
                 py_modules := default (VList [name]) (sec !! "py_modules") |})).
Proof.
  intros (tool & Htool & Hsec) Hproj.
  unfold _load_config_toml, author_of. rewrite Htool. py_simpl. rewrite Hsec.
  py_simpl. rewrite Hproj. py_simpl.
  destruct (from_option truthy false (proj !! "authors")); py_simpl; [|reflexivity].
  destruct (proj !! "authors") as [authors|]; py_simpl; [|reflexivity].
  destruct (py_getitem0 authors); reflexivity.
Qed.

(** X1. For every manifest with the section, a project name and a source
    directory that is a string: when the project declares no authors, or
    an empty list, the author is the contact [unknown]/[unknown]; when it
    declares a non-empty list, the author is its first entry, as it
    stands. *)
Theorem author_resolution (pyproject : Path) (toml sec proj : gmap string value)
    (name : value) (s : string) :
  has_section toml sec →
  default (VStr "docs/src") (sec !! "doc_src") = VStr s →
  toml !! "project" = Some (VTable proj) →
  proj !! "name" = Some name →
  (proj !! "authors" = None ∨ proj !! "authors" = Some (VList []) →
   ∃ config,
     _load_config_toml pyproject toml = Ok (Some config) ∧
     derived config !! "author" = Some (EmailContact "unknown" "unknown")) ∧
  (∀ first rest,
     proj !! "authors" = Some (VList (first :: rest)) →
     ∃ config,
       _load_config_toml pyproject toml = Ok (Some config) ∧
       derived config !! "author" = Some first).
Proof.
  intros Hsec Hsrc Hproj Hname.
  rewrite (load_config_toml_steps pyproject toml sec proj Hsec Hproj).
  unfold author_of. cbv zeta. rewrite Hsrc. py_simpl. rewrite Hname.
  split.
  - intros [-> | ->]; cbn [from_option truthy rbind];
      (eexists; split; [reflexivity|]); cbn [derived];
      rewrite !lookup_insert_ne by done; apply lookup_insert_eq.
  - intros first rest ->. cbn [from_option truthy py_getitem0 rbind].
    eexists. split; [reflexivity|]. cbn [derived].
    rewrite !lookup_insert_ne by done. apply lookup_insert_eq.
Qed.

Lemma author_resolution_witness :
  ∃ config,
    _load_config_toml (path_of "lib/pyproject.toml") full_toml = Ok (Some config) ∧
    derived config !! "author" = Some (EmailContact "Ada" "ada@example.org").
Proof.
  refine (proj2 (author_resolution (path_of "lib/pyproject.toml") full_toml
            (<["doc_src" := VStr "manual/source"]>
               (<["doc_dest" := VStr "site"]>
                  (<["py_modules" := VList [VStr "pkg"; VStr "cli"]]> ∅)))
            (<["name" := VStr "demo"]>
               (<["authors" :=
                    VList [EmailContact "Ada" "ada@example.org";
                           EmailContact "Bob" "bob@example.org"]]> ∅))
            (VStr "demo") "manual/source" _ _ _ _)
            (EmailContact "Ada" "ada@example.org")
            [EmailContact "Bob" "bob@example.org"] _).
  - eexists. split; reflexivity.
  - reflexivity.
  - reflexivity.
  - reflexivity.
  - reflexivity.
Defined.

(** X2. An [authors] entry that is truthy and neither a list nor a string
    makes resolution raise: [TypeError] for a number, a boolean or a
    date, [KeyError(0)] for a non-empty table. *)
Theorem malformed_authors_raise (pyproject : Path) (toml sec proj : gmap string value)
    (authors : value) :
  has_section toml sec →
  toml !! "project" = Some (VTable proj) →
  proj !! "authors" = Some authors →
  truthy authors = true →
  match authors with
  | VInt _ | VBool _ | VFloat _ | VDate _ =>
      _load_config_toml pyproject toml = Raise TypeError
  | VTable _ => _load_config_toml pyproject toml = Raise (KeyError (VInt 0))
  | VStr _ | VList _ => True
  end.
Proof.
  intros Hsec Hproj Hauthors Htruthy.
  rewrite (load_config_toml_steps pyproject toml sec proj Hsec Hproj).
  unfold author_of. cbv zeta. rewrite Hauthors. cbn [from_option]. rewrite Htruthy.
  py_simpl. rewrite Hauthors. destruct authors; try exact I; reflexivity.
Qed.

Lemma malformed_authors_raise_witness :
  _load_config_toml (path_of "pyproject.toml")
    (<["project" :=
         VTable (<["name" := VStr "demo"]>
                   (<["authors" := VTable (<["name" := VStr "Ada"]> ∅)]> ∅))]> demo_toml)
  = Raise (KeyError (VInt 0)).
Proof.
  refine (malformed_authors_raise (path_of "pyproject.toml") _ ∅
            (<["name" := VStr "demo"]>
               (<["authors" := VTable (<["name" := VStr "Ada"]> ∅)]> ∅))
            (VTable (<["name" := VStr "Ada"]> ∅)) _ _ _ _).
  - eexists. split; reflexivity.
  - reflexivity.
  - reflexivity.
  - reflexivity.
Defined.

(** X3. What every returned configuration looks like: the source
    directory is a string; the derived part holds exactly [author],
    [build_dir] and [deploy_dir]; [deploy_dir] is ["."] whatever the
    manifest says; [build_dir] is the directory [build] beside the source
    directory, for a source directory that does not start with exactly
    two slashes; the path and the raw manifest are kept as they came. *)
Theorem resolved_config_shape (pyproject : Path) (toml : gmap string value)
    (config : DocConfig) :
  _load_config_toml pyproject toml = Ok (Some config) →
  ∃ s,
    doc_src config = VStr s ∧
    dom (derived config) = {["author"; "build_dir"; "deploy_dir"]} ∧
    derived config !! "deploy_dir" = Some (VStr ".") ∧
    (single_root s →
     derived config !! "build_dir" = Some (VStr (build_placeholder s))) ∧
    pyproject_path config = path_str pyproject ∧
    pyproject_data config = toml.
Proof.
  unfold _load_config_toml.
  destruct (py_get _ "doccer") as [[magdocs|]|]; cbn [rbind]; try (intros; discriminate).
  destruct (py_get_default magdocs _ _) as [src_dir|]; cbn [rbind];
    try (intros; discriminate).
  destruct (py_getitem (VTable toml) "project"); cbn [rbind]; try (intros; discriminate).
  destruct (py_get _ "authors"); cbn [rbind]; try (intros; discriminate).
  destruct (if from_option truthy false _ then _ else _); cbn [rbind];
    try (intros; discriminate).
  destruct src_dir as [s| | | | | |]; cbn [py_Path rbind]; try (intros; discriminate).
  destruct (py_get_default magdocs _ _); cbn [rbind]; try (intros; discriminate).
  destruct (py_getitem _ "name"); cbn [rbind]; try (intros; discriminate).
  destruct (py_get_default magdocs _ _); cbn [rbind]; try (intros; discriminate).
  intros [= <-]. exists s. cbn [doc_src derived pyproject_path pyproject_data].
  split; [reflexivity|]. split; [rewrite !dom_insert_L, dom_empty_L; set_solver|].
  split; [apply lookup_insert_eq|].
  split; [intros _; rewrite lookup_insert_ne by done; apply lookup_insert_eq|].
  split; reflexivity.
Qed.

Lemma resolved_config_shape_witness :
  single_root "manual/source" ∧
  doc_src full_config = VStr "manual/source" ∧
  dom (derived full_config) = {["author"; "build_dir"; "deploy_dir"]} ∧
  derived full_config !! "deploy_dir" = Some (VStr ".") ∧
  derived full_config !! "build_dir" = Some (VStr (build_placeholder "manual/source")) ∧
  pyproject_path full_config = path_str (path_of "lib/pyproject.toml") ∧
  pyproject_data full_config = full_toml.
Proof.
  assert (Hsingle : single_root "manual/source") by (intros H; discriminate H).
  destruct (resolved_config_shape (path_of "lib/pyproject.toml") full_toml full_config)
    as (s & Hs & Hdom & Hdeploy & Hbuild & Hpath & Hdata); [vm_compute; reflexivity|].
  injection Hs as <-.
  split; [exact Hsingle|]. split; [reflexivity|]. split; [exact Hdom|].
  split; [exact Hdeploy|]. split; [exact (Hbuild Hsingle)|].
  split; [exact Hpath | exact Hdata].
Defined.

(** X4. A [doc_src] entry that is not a string makes resolution raise
    [TypeError] (from [Path(src_dir)]), once the author has been
    found. *)
Theorem non_string_doc_src_raises (pyproject : Path) (toml sec proj : gmap string value)
    (v author : value) :
  has_section toml sec →
  sec !! "doc_src" = Some v →
  (∀ s, v ≠ VStr s) →
  toml !! "project" = Some (VTable proj) →
  author_of proj = Ok author →
  _load_config_toml pyproject toml = Raise TypeError.
Proof.
  intros Hsec Hsrc Hv Hproj Hauthor.
  rewrite (load_config_toml_steps pyproject toml sec proj Hsec Hproj).
  cbv zeta. rewrite Hauthor, Hsrc. cbn [rbind default from_option id].
  destruct v as [s| | | | | |]; try reflexivity. destruct (Hv s eq_refl).
Qed.

Lemma non_string_doc_src_raises_witness :
  _load_config_toml (path_of "pyproject.toml")
    (<["tool" := VTable (<["doccer" := VTable (<["doc_src" := VInt 5]> ∅)]> ∅)]> demo_toml)
  = Raise TypeError.
Proof.
  refine (non_string_doc_src_raises (path_of "pyproject.toml") _
            (<["doc_src" := VInt 5]> ∅) (<["name" := VStr "demo"]> ∅)
            (VInt 5) (EmailContact "unknown" "unknown") _ _ _ _ _).
  - eexists. split; reflexivity.
  - reflexivity.
  - discriminate.
  - reflexivity.
  - reflexivity.
Defined.

(** X5. A [tool] entry, or a [doccer] entry under [tool], that is there
    and is not a table makes resolution raise [AttributeError]: nothing
    but a dictionary has [get]. *)
Theorem scalar_section_raises (pyproject : Path) (toml : gmap string value) (v : value) :
  (∀ m, v ≠ VTable m) →
  toml !! "tool" = Some v ∨
  (∃ tool, toml !! "tool" = Some (VTable tool) ∧ tool !! "doccer" = Some v) →
  _load_config_toml pyproject toml = Raise (AttributeError "get").
Proof.
  intros Hv [Htool | (tool & Htool & Hdoccer)]; unfold _load_config_toml;
    rewrite Htool; py_simpl.
  - destruct v; try reflexivity. destruct (Hv m eq_refl).
  - rewrite Hdoccer. destruct v; try reflexivity. destruct (Hv m eq_refl).
Qed.

Lemma scalar_section_raises_witness :
  _load_config_toml (path_of "pyproject.toml")
    (<["tool" := VTable (<["doccer" := VBool true]> ∅)]> demo_toml)
  = Raise (AttributeError "get").
Proof.
  refine (scalar_section_raises (path_of "pyproject.toml") _ (VBool true) _ _).
  - discriminate.
  - right. eexists. split; reflexivity.
Defined.

(** ** Discovery *)

Lemma load_each_all (cwd : list string)
    (tomli : string → result (gmap string value))
    (l : list Path) (configs : list DocConfig) (w : world) :
  (∀ q, q ∈ l → ∃ o, (_load_config cwd tomli q w).1 = Ok o) →
  load_each cwd tomli l configs w = (Ok (configs ++ omap (loaded cwd tomli w) l), w).
Proof.
  revert configs. induction l as [|p l IH]; intros configs Hall.
  - cbn. rewrite app_nil_r. reflexivity.
  - cbn [load_each]. unfold bind.
    destruct (Hall p) as [o Ho]; [left|].
    pose proof (load_config_world cwd tomli p w) as Hw.
    assert (Hl : loaded cwd tomli w p = o) by (unfold loaded; rewrite Ho; reflexivity).
    destruct (_load_config cwd tomli p w) as [r w1]. cbn [fst snd] in *. subst r w1.
    cbn [omap list_omap]. rewrite Hl.
    destruct o as [config|].
    + rewrite IH by (intros q Hq; apply Hall; right; exact Hq).
      rewrite <- app_assoc. reflexivity.
    + apply IH. intros q Hq. apply Hall. right. exact Hq.
Qed.

Lemma load_each_raises (cwd : list string)
    (tomli : string → result (gmap string value))
    (before after : list Path) (p : Path) (configs : list DocConfig) (w : world)
    (e : exn) :
  (∀ q, q ∈ before → ∃ o, (_load_config cwd tomli q w).1 = Ok o) →
  (_load_config cwd tomli p w).1 = Raise e →
  load_each cwd tomli (before ++ p :: after) configs w = (Raise e, w).
Proof.
  intros Hbefore Hp. revert configs.
  induction before as [|q before IH]; intros configs; cbn [app load_each]; unfold bind.
  - pose proof (load_config_world cwd tomli p w) as Hw.
    destruct (_load_config cwd tomli p w) as [r w1]. cbn [fst snd] in *. subst r w1.
    reflexivity.
  - destruct (Hbefore q) as [o Ho]; [left|].
    pose proof (load_config_world cwd tomli q w) as Hw.
    destruct (_load_config cwd tomli q w) as [r w1]. cbn [fst snd] in *. subst r w1.
    destruct o; apply IH; intros q' Hq'; apply Hbefore; right; exact Hq'.
Qed.

(** X6. When every discovered manifest loads, [_load_configs] returns the
    configurations of those that have one, in the order of discovery,
    and leaves the world as it is. *)
Theorem load_configs_in_order (cwd : list string)
    (tomli : string → result (gmap string value)) (repo_root : Path) (w : world) :
  (∀ q, q ∈ rglob cwd repo_root "pyproject.toml" (fs w) →
        ∃ o, (_load_config cwd tomli q w).1 = Ok o) →
  _load_configs cwd tomli repo_root w =
    (Ok (omap (loaded cwd tomli w) (rglob cwd repo_root "pyproject.toml" (fs w))), w).
Proof.
  intros Hall. unfold _load_configs, bind, get_fs.
  rewrite (load_each_all cwd tomli _ [] w Hall). reflexivity.
Qed.

Lemma load_configs_in_order_witness :
  let w := {| fs := mixed_fs; trace := [] |} in
  _load_configs ["repo"] demo_tomli (path_of ".") w =
    (Ok (omap (loaded ["repo"] demo_tomli w)
           (rglob ["repo"] (path_of ".") "pyproject.toml" mixed_fs)), w).
Proof.
  refine (load_configs_in_order ["repo"] demo_tomli (path_of ".")
            {| fs := mixed_fs; trace := [] |} _).
  intros q Hq. vm_compute in Hq.
  repeat (apply elem_of_cons in Hq as [-> | Hq]); [.. | inversion Hq];
    eexists; vm_compute; reflexivity.
Defined.

(** X7. Discovery stops at the first manifest that cannot be loaded
    (unreadable, not TOML, or failing resolution): [_load_configs]
    raises its error, and so does [precommit_hook], before any stage of
    any project, valid ones included; the world is as it was. *)
Theorem discovery_fails_fast (cwd : list string)
    (tomli : string → result (gmap string value))
    (get_template : string → result (DocConfig → result string))
    (run : list string → filesystem → proc_outcome) (mkdtemp : filesystem → string)
    (before after : list Path) (p : Path) (w : world) (e : exn) :
  rglob cwd (path_of ".") "pyproject.toml" (fs w) = before ++ p :: after →
  (∀ q, q ∈ before → ∃ o, (_load_config cwd tomli q w).1 = Ok o) →
  (_load_config cwd tomli p w).1 = Raise e →
  _load_configs cwd tomli (path_of ".") w = (Raise e, w) ∧
  precommit_hook cwd tomli get_template run mkdtemp w = (Raise e, w).
Proof.
  intros Hfound Hbefore Hp.
  assert (Hconfigs : _load_configs cwd tomli (path_of ".") w = (Raise e, w)).
  { unfold _load_configs, bind, get_fs. rewrite Hfound.
    apply load_each_raises; assumption. }
  split; [exact Hconfigs|]. unfold precommit_hook, bind. rewrite Hconfigs. reflexivity.
Qed.

Lemma discovery_fails_fast_witness :
  let w := {| fs := broken_fs; trace := [] |} in
  _load_configs ["repo"] demo_tomli (path_of ".") w = (Raise TOMLDecodeError, w) ∧
  precommit_hook ["repo"] demo_tomli demo_templates (demo_sphinx 0 "writing output")
    demo_mkdtemp w = (Raise TOMLDecodeError, w).
Proof.
  refine (discovery_fails_fast ["repo"] demo_tomli demo_templates
            (demo_sphinx 0 "writing output") demo_mkdtemp
            [path_of "pyproject.toml"] [] (path_of "lib/pyproject.toml")
            {| fs := broken_fs; trace := [] |} TOMLDecodeError _ _ _).
  - vm_compute. reflexivity.
  - intros q Hq. apply list_elem_of_singleton in Hq as ->.
    eexists. vm_compute. reflexivity.
  - vm_compute. reflexivity.
Defined.




(** ** Rendering a template *)

Lemma string_app_assoc (a b c : string) : (a +:+ b) +:+ c = a +:+ (b +:+ c).
Proof.
  induction a as [|x a IH]; [reflexivity|].
  rewrite !append_cons, IH. reflexivity.
Qed.

(** What lies past the length of the pattern does not matter to a prefix
    test. *)
Lemma prefix_app_short (p u z : string) :
  String.length p ≤ String.length u →
  String.prefix p (u +:+ z) = String.prefix p u.
Proof.
  revert u. induction p as [|a p IH]; intros u Hlen.
  - destruct u; [destruct z|]; reflexivity.
  - destruct u as [|b u]; [cbn in Hlen; lia|].
    rewrite append_cons. cbn [String.prefix].
    destruct (ascii_dec a b); [|reflexivity].
    apply IH. cbn in Hlen. lia.
Qed.

Lemma string_length_app (a b : string) :
  String.length (a +:+ b) = String.length a + String.length b.
Proof.
  induction a as [|x a IH]; [reflexivity|].
  rewrite append_cons. cbn [String.length]. rewrite IH. reflexivity.
Qed.

(** The extension is taken off a name that holds [.jinja2] nowhere
    before its end. *)
Lemma str_remove_extension (stem : string) :
  contains ".jinja2" (stem +:+ ".jinja") = false →
  str_remove ".jinja2" (stem +:+ ".jinja2") = stem.
Proof.
  unfold str_remove. induction stem as [|c stem IH]; intros Hno; [reflexivity|].
  rewrite append_cons in Hno. cbn [contains] in Hno.
  apply orb_false_iff in Hno as [Hhere Hlater].
  rewrite append_cons. cbn [remove_all_from].
  assert (Hp : String.prefix ".jinja2" (String c (stem +:+ ".jinja2")) = false).
  { replace (String c (stem +:+ ".jinja2")) with (String c (stem +:+ ".jinja") +:+ "2")
      by (rewrite append_cons, string_app_assoc; reflexivity).
    rewrite prefix_app_short; [exact Hhere|].
    cbn [String.length]. rewrite string_length_app. cbn [String.length]. lia. }
  rewrite Hp, IH by exact Hlater. reflexivity.
Qed.

(** A [makedirs] that succeeds leaves a directory at its path. *)
Lemma makedirs_rev_dir (base rparts : list string) (f f1 : filesystem) :
  makedirs_rev base rparts f = Ok f1 →
  f1 !! (base ++ rev rparts) = Some Dir.
Proof.
  destruct rparts as [|tail rhead]; cbn [makedirs_rev rev].
  - rewrite app_nil_r. destruct (f !! base) as [[|]|] eqn:Hb; try discriminate.
    intros [= <-]. exact Hb.
  - destruct (match rhead with
              | [] => Ok f
              | _ :: _ => if fs_exists (base ++ rev rhead) f then Ok f
                          else makedirs_rev base rhead f
              end) as [g|]; cbn [rbind]; [|discriminate].
    rewrite app_assoc. unfold fs_mkdir_exist_ok.
    destruct (g !! ((base ++ rev rhead) ++ [tail])) as [[|]|] eqn:Hk; try discriminate.
    + intros [= <-]. exact Hk.
    + destruct (g !! removelast _) as [[|]|]; try discriminate;
        [|destruct (through_file _ g); discriminate].
      intros [= <-]. apply lookup_insert_eq.
Qed.

Lemma makedirs_dir (cwd : list string) (p : Path) (f f1 : filesystem) :
  makedirs cwd p f = Ok f1 → f1 !! resolve cwd p = Some Dir.
Proof.
  unfold makedirs, resolve. intros H. apply makedirs_rev_dir in H.
  rewrite rev_involutive in H. exact H.
Qed.

(** X9. A template named [stem.jinja2], with no other [.jinja2] in the
    name and a stem that is a plain file name, is written to the file
    [stem] of the destination directory, which is made if need be; what
    that file held before is replaced by the rendered text, and nothing
    else changes after the directories are made. *)
Theorem render_writes_stem (cwd : list string)
    (get_template : string → result (DocConfig → result string))
    (stem : string) (dest_dir : Path) (config : DocConfig) (w : world)
    (t : DocConfig → result string) (text : string) (f1 : filesystem) :
  in_model dest_dir →
  in_model (path_of stem) →
  contains ".jinja2" (stem +:+ ".jinja") = false →
  path_of stem = {| absolute := false; parts := [stem] |} →
  get_template (stem +:+ ".jinja2") = Ok t →
  t config = Ok text →
  makedirs cwd dest_dir (fs w) = Ok f1 →
  f1 !! (resolve cwd dest_dir ++ [stem]) ≠ Some Dir →
  _render_template cwd get_template (stem +:+ ".jinja2") dest_dir config w =
    (Ok tt, {| fs := <[resolve cwd dest_dir ++ [stem] := File text]> f1;
               trace := trace w |}).
Proof.
  intros _ _ Hno Hstem Ht Htext Hmk Hfile.
  apply (render_template_spec cwd get_template _ stem dest_dir config w t text f1);
    try assumption.
  - rewrite str_remove_extension by exact Hno. exact Hstem.
  - apply (makedirs_dir cwd dest_dir (fs w)). exact Hmk.
Qed.

Lemma render_writes_stem_witness :
  _render_template ["repo"] demo_templates ("index.rst" +:+ ".jinja2")
    (path_of "docs/src") demo_config {| fs := demo_fs; trace := [] |} =
    (Ok tt,
     {| fs := <[resolve ["repo"] (path_of "docs/src") ++ ["index.rst"] :=
                  File "rendered index.rst.jinja2 for pyproject.toml"]> demo_fs;
        trace := [] |}).
Proof.
  refine (render_writes_stem ["repo"] demo_templates "index.rst" (path_of "docs/src")
            demo_config {| fs := demo_fs; trace := [] |}
            (λ config, Ok ("rendered index.rst.jinja2 for " +:+ pyproject_path config))
            "rendered index.rst.jinja2 for pyproject.toml" demo_fs _ _ _ _ _ _ _ _).
  - repeat constructor; discriminate.
  - repeat constructor; discriminate.
  - reflexivity.
  - reflexivity.
  - reflexivity.
  - reflexivity.
  - reflexivity.
  - vm_compute. discriminate.
Defined.

(** X10. How [_render_template] fails. A template that cannot be loaded
    makes it raise before anything is touched: no directory is made. A
    template that loads and then fails to render makes it raise after the
    directories were made and the file (a plain file name in the
    destination directory) opened: the file is left empty, whatever it
    held before. *)
Theorem render_failures (cwd : list string)
    (get_template : string → result (DocConfig → result string))
    (name fname : string) (dest_dir : Path) (config : DocConfig) (w : world) (e : exn) :
  in_model dest_dir →
  (get_template name = Raise e →
   _render_template cwd get_template name dest_dir config w = (Raise e, w)) ∧
  (∀ t f1,
     get_template name = Ok t →
     t config = Raise e →
     path_of (str_remove ".jinja2" name) = {| absolute := false; parts := [fname] |} →
     fname ≠ ".." →
     makedirs cwd dest_dir (fs w) = Ok f1 →
     f1 !! (resolve cwd dest_dir ++ [fname]) ≠ Some Dir →
     _render_template cwd get_template name dest_dir config w =
       (Raise e, {| fs := <[resolve cwd dest_dir ++ [fname] := File EmptyString]> f1;
                    trace := trace w |})).
Proof.
  intros _. split.
  - intros Ht. unfold _render_template, bind, lift. rewrite Ht. reflexivity.
  - intros t f1 Ht Htext Hname _ Hmk Hfile.
    pose proof (makedirs_dir cwd dest_dir (fs w) f1 Hmk) as Hdir.
    unfold _render_template, bind, lift, update_fs. rewrite Ht, Hmk. cbn [fs trace].
    rewrite Hname.
    replace (resolve cwd (path_div dest_dir {| absolute := false; parts := [fname] |}))
      with (resolve cwd dest_dir ++ [fname])
      by (unfold resolve, path_div; cbn [absolute parts]; symmetry; apply app_assoc).
    unfold fs_open_w. rewrite removelast_last, Hdir.
    destruct (f1 !! (resolve cwd dest_dir ++ [fname])) as [[|]|]; try contradiction;
      rewrite Htext; reflexivity.
Qed.

Lemma render_failures_witness :
  _render_template ["repo"]
    (λ name, Ok (λ _ : DocConfig, Raise TemplateError)) "conf.py.jinja2"
    (path_of "docs/src") demo_config
    {| fs := <[["repo"; "docs"; "src"; "conf.py"] := File "project = 'demo'"]> demo_fs;
       trace := [] |} =
    (Raise TemplateError,
     {| fs := <[resolve ["repo"] (path_of "docs/src") ++ ["conf.py"] := File EmptyString]>
                (<[["repo"; "docs"; "src"; "conf.py"] := File "project = 'demo'"]> demo_fs);
        trace := [] |}).
Proof.
  refine (proj2 (render_failures ["repo"]
                   (λ name, Ok (λ _ : DocConfig, Raise TemplateError)) "conf.py.jinja2"
                   "conf.py" (path_of "docs/src") demo_config
                   {| fs := <[["repo"; "docs"; "src"; "conf.py"] := File "project = 'demo'"]>
                              demo_fs;
                      trace := [] |} TemplateError _)
            (λ _, Raise TemplateError) _ _ _ _ _ _ _).
  - repeat constructor; discriminate.
  - reflexivity.
  - reflexivity.
  - reflexivity.
  - discriminate.
  - reflexivity.
  - vm_compute. discriminate.
Defined.

(** ** Scaffolding again *)

(** Scaffolding into a source directory that is there, with its [docs]
    subdirectory: no directory is made and the four files are written
    over whatever files stood in their places. *)
Lemma scaffold_over_existing (cwd : list string)
    (get_template : string → result (DocConfig → result string))
    (config : DocConfig) (w : world) (s : string)
    (t1 t2 t3 t4 : DocConfig → result string) (c1 c2 c3 c4 : string) :
  let src := path_of s in
  let base := if absolute src then [] else cwd in
  let K := resolve cwd src in
  doc_src config = VStr s →
  (∀ i, i ≤ length (parts src) → fs w !! (base ++ take i (parts src)) = Some Dir) →
  fs w !! (K ++ ["docs"]) = Some Dir →
  fs w !! (K ++ ["README.rst"]) ≠ Some Dir →
  fs w !! ((K ++ ["docs"]) ++ ["subpage.rst"]) ≠ Some Dir →
  fs w !! (K ++ ["conf.py"]) ≠ Some Dir →
  fs w !! (K ++ ["Makefile"]) ≠ Some Dir →
  get_template "README.rst.jinja2" = Ok t1 → t1 config = Ok c1 →
  get_template "subpage.rst.jinja2" = Ok t2 → t2 config = Ok c2 →
  get_template "conf.py.jinja2" = Ok t3 → t3 config = Ok c3 →
  get_template "Makefile.jinja2" = Ok t4 → t4 config = Ok c4 →
  _generate_sample_docs_source cwd get_template config w =
    (Ok tt,
     {| fs := <[K ++ ["Makefile"] := File c4]>
                (<[K ++ ["conf.py"] := File c3]>
                   (<[(K ++ ["docs"]) ++ ["subpage.rst"] := File c2]>
                      (<[K ++ ["README.rst"] := File c1]> (fs w))));
        trace := trace w ++ [EvScaffold (pyproject_path config)] |}).
Proof.
  intros src base K Hsrc Hdirs Hdocs N1 N2 N3 N4 Ht1 Hc1 Ht2 Hc2 Ht3 Hc3 Ht4 Hc4.
  set (P := parts src) in *.
  assert (Hlen : length K = length base + length P) by apply length_app.
  assert (HKP : K = base ++ take (length P) P)
    by (rewrite take_ge by reflexivity; reflexivity).
  assert (Hres : resolve cwd (path_div src (path_of "docs")) = K ++ ["docs"]).
  { change (path_of "docs") with {| absolute := false; parts := ["docs"] |}.
    unfold K, resolve, path_div. cbn [absolute parts]. apply app_assoc. }
  assert (Hins : ∀ (g : filesystem) suffix x, suffix ≠ [] →
            (∀ i, i ≤ length P → g !! (base ++ take i P) = Some Dir) →
            ∀ i, i ≤ length P → <[K ++ suffix := x]> g !! (base ++ take i P) = Some Dir).
  { intros g suffix x Hne Hg i Hi. rewrite lookup_insert_ne; [apply Hg; exact Hi|].
    destruct suffix; [contradiction|]. key_ne. }
  assert (Hmk : ∀ g : filesystem,
            (∀ i, i ≤ length P → g !! (base ++ take i P) = Some Dir) →
            makedirs cwd src g = Ok g)
    by (intros g Hg; apply makedirs_all_there; exact Hg).
  assert (Hmkd : ∀ g : filesystem,
            (∀ i, i ≤ length P → g !! (base ++ take i P) = Some Dir) →
            g !! (K ++ ["docs"]) = Some Dir →
            makedirs cwd (path_div src (path_of "docs")) g = Ok g).
  { intros g Hg Hd. apply makedirs_all_there.
    change (path_of "docs") with {| absolute := false; parts := ["docs"] |}.
    unfold path_div. cbn [absolute parts]. fold base. fold P.
    intros i Hi. rewrite length_app in Hi. cbn [length] in Hi.
    destruct (decide (i ≤ length P)) as [Hle | Hgt].
    - rewrite take_app_le by exact Hle. apply Hg. exact Hle.
    - rewrite take_ge by (rewrite length_app; cbn [length]; lia).
      rewrite app_assoc. exact Hd. }
  assert (HKdir : ∀ g : filesystem,
            (∀ i, i ≤ length P → g !! (base ++ take i P) = Some Dir) → g !! K = Some Dir).
  { intros g Hg. rewrite HKP. apply Hg. reflexivity. }
  set (g1 := <[K ++ ["README.rst"] := File c1]> (fs w)).
  assert (Hall1 : ∀ i, i ≤ length P → g1 !! (base ++ take i P) = Some Dir)
    by (apply Hins; [discriminate | exact Hdirs]).
  set (g2 := <[(K ++ ["docs"]) ++ ["subpage.rst"] := File c2]> g1).
  assert (Hall2 : ∀ i, i ≤ length P → g2 !! (base ++ take i P) = Some Dir).
  { unfold g2. rewrite <- app_assoc. apply Hins; [discriminate | exact Hall1]. }
  set (g3 := <[K ++ ["conf.py"] := File c3]> g2).
  assert (Hall3 : ∀ i, i ≤ length P → g3 !! (base ++ take i P) = Some Dir)
    by (apply Hins; [discriminate | exact Hall2]).
  assert (Hd1 : g1 !! (K ++ ["docs"]) = Some Dir)
    by (unfold g1; rewrite lookup_insert_ne by key_ne; exact Hdocs).
  unfold _generate_sample_docs_source.
  unfold bind at 1. unfold mark at 1. unfold bind at 1. unfold lift at 1.
  rewrite Hsrc. cbn [py_Path]. fold src.
  erewrite bind_ok.
  2:{ apply (render_template_spec cwd get_template _ "README.rst" src config _ t1 c1 (fs w));
        [exact Ht1 | exact Hc1 | reflexivity | apply Hmk; exact Hdirs
        | apply HKdir; exact Hdirs | exact N1]. }
  fold K. fold g1.
  erewrite bind_ok.
  2:{ apply (render_template_spec cwd get_template _ "subpage.rst" _ config _ t2 c2 g1);
        [exact Ht2 | exact Hc2 | reflexivity | apply Hmkd; assumption | | ].
      - rewrite Hres. exact Hd1.
      - rewrite Hres. unfold g1. rewrite lookup_insert_ne by key_ne. exact N2. }
  rewrite Hres. cbn [fs trace]. fold g2.
  erewrite bind_ok.
  2:{ apply (render_template_spec cwd get_template _ "conf.py" src config _ t3 c3 g2);
        [exact Ht3 | exact Hc3 | reflexivity | apply Hmk; exact Hall2
        | apply HKdir; exact Hall2 | ].
      fold K. unfold g2, g1. rewrite !lookup_insert_ne by key_ne. exact N3. }
  fold K. cbn [fs trace]. fold g3.
  erewrite (render_template_spec cwd get_template _ "Makefile" src config _ t4 c4 g3);
    [ reflexivity | exact Ht4 | exact Hc4 | reflexivity | apply Hmk; exact Hall3
    | apply HKdir; exact Hall3 | ].
  fold K. unfold g3, g2, g1. rewrite !lookup_insert_ne by key_ne. exact N4.
Qed.

(** X11. Scaffolding over a source directory that exists with its [docs]
    subdirectory (none of the four targets being a directory) makes no
    directory, replaces the four files by the rendered templates, and
    leaves every other entry of the filesystem as it was. *)
Theorem scaffold_overwrites (cwd : list string)
    (get_template : string → result (DocConfig → result string))
    (config : DocConfig) (w : world) (s : string)
    (t1 t2 t3 t4 : DocConfig → result string) (c1 c2 c3 c4 : string) :
  let src := path_of s in
  let base := if absolute src then [] else cwd in
  let K := resolve cwd src in
  doc_src config = VStr s →
  in_model src →
  (∀ i, i ≤ length (parts src) → fs w !! (base ++ take i (parts src)) = Some Dir) →
  fs w !! (K ++ ["docs"]) = Some Dir →
  fs w !! (K ++ ["README.rst"]) ≠ Some Dir →
  fs w !! ((K ++ ["docs"]) ++ ["subpage.rst"]) ≠ Some Dir →
  fs w !! (K ++ ["conf.py"]) ≠ Some Dir →
  fs w !! (K ++ ["Makefile"]) ≠ Some Dir →
  get_template "README.rst.jinja2" = Ok t1 → t1 config = Ok c1 →
  get_template "subpage.rst.jinja2" = Ok t2 → t2 config = Ok c2 →
  get_template "conf.py.jinja2" = Ok t3 → t3 config = Ok c3 →
  get_template "Makefile.jinja2" = Ok t4 → t4 config = Ok c4 →
  ∃ f',
    _generate_sample_docs_source cwd get_template config w =
      (Ok tt, {| fs := f'; trace := trace w ++ [EvScaffold (pyproject_path config)] |}) ∧
    f' !! (K ++ ["README.rst"]) = Some (File c1) ∧
    f' !! ((K ++ ["docs"]) ++ ["subpage.rst"]) = Some (File c2) ∧
    f' !! (K ++ ["conf.py"]) = Some (File c3) ∧
    f' !! (K ++ ["Makefile"]) = Some (File c4) ∧
    ∀ k, k ≠ K ++ ["README.rst"] → k ≠ (K ++ ["docs"]) ++ ["subpage.rst"] →
         k ≠ K ++ ["conf.py"] → k ≠ K ++ ["Makefile"] →
         f' !! k = fs w !! k.
Proof.
  intros src base K Hsrc _ Hdirs Hdocs N1 N2 N3 N4 Ht1 Hc1 Ht2 Hc2 Ht3 Hc3 Ht4 Hc4.
  eexists. split.
  - apply (scaffold_over_existing cwd get_template config w s t1 t2 t3 t4 c1 c2 c3 c4);
      assumption.
  - fold src. fold K. repeat split.
    + rewrite !lookup_insert_ne by key_ne. apply lookup_insert_eq.
    + rewrite !lookup_insert_ne by key_ne. apply lookup_insert_eq.
    + rewrite lookup_insert_ne by key_ne. apply lookup_insert_eq.
    + apply lookup_insert_eq.
    + intros k H1 H2 H3 H4. rewrite !lookup_insert_ne by congruence. reflexivity.
Qed.

(** X12. Scaffolding twice is scaffolding once: after a first run into a
    source directory that was not there (the conditions of the first
    run being as for C9), a second run succeeds and leaves the
    filesystem exactly as the first one left it. *)
Theorem scaffold_idempotent (cwd : list string)
    (get_template : string → result (DocConfig → result string))
    (config : DocConfig) (w : world) (s : string) (n : nat)
    (t1 t2 t3 t4 : DocConfig → result string) (c1 c2 c3 c4 : string) :
  let src := path_of s in
  let base := if absolute src then [] else cwd in
  doc_src config = VStr s →
  in_model src →
  fs_closed (fs w) →
  n < length (parts src) →
  (∀ i, i ≤ n → fs w !! (base ++ take i (parts src)) = Some Dir) →
  (∀ i, n < i ≤ length (parts src) → fs w !! (base ++ take i (parts src)) = None) →
  get_template "README.rst.jinja2" = Ok t1 → t1 config = Ok c1 →
  get_template "subpage.rst.jinja2" = Ok t2 → t2 config = Ok c2 →
  get_template "conf.py.jinja2" = Ok t3 → t3 config = Ok c3 →
  get_template "Makefile.jinja2" = Ok t4 → t4 config = Ok c4 →
  ∃ w1 w2,
    _generate_sample_docs_source cwd get_template config w = (Ok tt, w1) ∧
    _generate_sample_docs_source cwd get_template config w1 = (Ok tt, w2) ∧
    fs w2 = fs w1.
Proof.
  intros src base Hsrc _ Hclosed Hn Hdirs Hnone Ht1 Hc1 Ht2 Hc2 Ht3 Hc3 Ht4 Hc4.
  set (K := resolve cwd src).
  set (S1 := scaffolded cwd src c1 c2 c3 c4 (fs w)).
  assert (Hlen : length K = length base + length (parts src)) by apply length_app.
  assert (Hbase : fs w !! base = Some Dir).
  { specialize (Hdirs 0 (Nat.le_0_l _)). cbn [take] in Hdirs.
    rewrite app_nil_r in Hdirs. exact Hdirs. }
  assert (L1 : S1 !! (K ++ ["README.rst"]) = Some (File c1)).
  { unfold S1, scaffolded. cbv zeta. fold K.
    rewrite !lookup_insert_ne by key_ne. apply lookup_insert_eq. }
  assert (L2 : S1 !! ((K ++ ["docs"]) ++ ["subpage.rst"]) = Some (File c2)).
  { unfold S1, scaffolded. cbv zeta. fold K.
    rewrite !lookup_insert_ne by key_ne. apply lookup_insert_eq. }
  assert (L3 : S1 !! (K ++ ["conf.py"]) = Some (File c3)).
  { unfold S1, scaffolded. cbv zeta. fold K.
    rewrite lookup_insert_ne by key_ne. apply lookup_insert_eq. }
  assert (L4 : S1 !! (K ++ ["Makefile"]) = Some (File c4)).
  { unfold S1, scaffolded. cbv zeta. fold K. apply lookup_insert_eq. }
  assert (Ld : S1 !! (K ++ ["docs"]) = Some Dir).
  { unfold S1, scaffolded. cbv zeta. fold K.
    rewrite !lookup_insert_ne by key_ne. apply lookup_insert_eq. }
  assert (Lp : ∀ i, i ≤ length (parts src) →
                    S1 !! (base ++ take i (parts src)) = Some Dir).
  { intros i Hi. unfold S1, scaffolded. cbv zeta. fold K. fold base.
    rewrite !lookup_insert_ne
      by (let E := fresh in intros E; apply (f_equal length) in E;
          rewrite !length_app, length_take in E; cbn [length] in E; lia).
    apply (dirs_made_prefix cwd src); assumption. }
  exists {| fs := S1; trace := trace w ++ [EvScaffold (pyproject_path config)] |}.
  eexists. split; [|split].
  - apply (generate_sample_docs_spec cwd get_template config w s n t1 t2 t3 t4
             c1 c2 c3 c4); assumption.
  - apply (scaffold_over_existing cwd get_template config _ s t1 t2 t3 t4 c1 c2 c3 c4);
      cbn [fs]; fold src; fold K; fold base;
      try assumption; try (rewrite ?L1, ?L2, ?L3, ?L4; discriminate).
  - cbn [fs]. fold src. fold K.
    rewrite (insert_id S1 (K ++ ["README.rst"])) by exact L1.
    rewrite (insert_id S1 ((K ++ ["docs"]) ++ ["subpage.rst"])) by exact L2.
    rewrite (insert_id S1 (K ++ ["conf.py"])) by exact L3.
    apply insert_id. exact L4.
Qed.

Lemma scaffold_overwrites_witness :
  let K := ["repo"; "docs"; "src"] in
  ∃ f',
    _generate_sample_docs_source ["repo"] demo_templates demo_config
      {| fs := src_tree_fs; trace := [] |} =
      (Ok tt, {| fs := f'; trace := [] ++ [EvScaffold "pyproject.toml"] |}) ∧
    f' !! (K ++ ["README.rst"])
      = Some (File "rendered README.rst.jinja2 for pyproject.toml") ∧
    f' !! ((K ++ ["docs"]) ++ ["subpage.rst"])
      = Some (File "rendered subpage.rst.jinja2 for pyproject.toml") ∧
    f' !! (K ++ ["conf.py"])
      = Some (File "rendered conf.py.jinja2 for pyproject.toml") ∧
    f' !! (K ++ ["Makefile"])
      = Some (File "rendered Makefile.jinja2 for pyproject.toml") ∧
    ∀ k, k ≠ K ++ ["README.rst"] → k ≠ (K ++ ["docs"]) ++ ["subpage.rst"] →
         k ≠ K ++ ["conf.py"] → k ≠ K ++ ["Makefile"] →
         f' !! k = src_tree_fs !! k.
Proof.
  refine (scaffold_overwrites ["repo"] demo_templates demo_config
            {| fs := src_tree_fs; trace := [] |} "docs/src"
            (λ config, Ok ("rendered README.rst.jinja2 for " +:+ pyproject_path config))
            (λ config, Ok ("rendered subpage.rst.jinja2 for " +:+ pyproject_path config))
            (λ config, Ok ("rendered conf.py.jinja2 for " +:+ pyproject_path config))
            (λ config, Ok ("rendered Makefile.jinja2 for " +:+ pyproject_path config))
            "rendered README.rst.jinja2 for pyproject.toml"
            "rendered subpage.rst.jinja2 for pyproject.toml"
            "rendered conf.py.jinja2 for pyproject.toml"
            "rendered Makefile.jinja2 for pyproject.toml"
            _ _ _ _ _ _ _ _ _ _ _ _ _ _ _ _).
  - reflexivity.
  - repeat constructor; discriminate.
  - intros i Hi. change (length (parts (path_of "docs/src"))) with 2 in Hi.
    assert (Hcases : i = 0 ∨ i = 1 ∨ i = 2) by lia.
    destruct Hcases as [-> | [-> | ->]]; reflexivity.
  - reflexivity.
  - vm_compute. discriminate.
  - vm_compute. discriminate.
  - vm_compute. discriminate.
  - vm_compute. discriminate.
  - reflexivity.
  - reflexivity.
  - reflexivity.
  - reflexivity.
  - reflexivity.
  - reflexivity.
  - reflexivity.
  - reflexivity.
Defined.

Lemma scaffold_idempotent_witness :
  ∃ w1 w2,
    _generate_sample_docs_source ["repo"] demo_templates demo_config
      {| fs := bare_fs; trace := [] |} = (Ok tt, w1) ∧
    _generate_sample_docs_source ["repo"] demo_templates demo_config w1 = (Ok tt, w2) ∧
    fs w2 = fs w1.
Proof.
  refine (scaffold_idempotent ["repo"] demo_templates demo_config
            {| fs := bare_fs; trace := [] |} "docs/src" 0
            (λ config, Ok ("rendered README.rst.jinja2 for " +:+ pyproject_path config))
            (λ config, Ok ("rendered subpage.rst.jinja2 for " +:+ pyproject_path config))
            (λ config, Ok ("rendered conf.py.jinja2 for " +:+ pyproject_path config))
            (λ config, Ok ("rendered Makefile.jinja2 for " +:+ pyproject_path config))
            "rendered README.rst.jinja2 for pyproject.toml"
            "rendered subpage.rst.jinja2 for pyproject.toml"
            "rendered conf.py.jinja2 for pyproject.toml"
            "rendered Makefile.jinja2 for pyproject.toml"
            _ _ _ _ _ _ _ _ _ _ _ _ _ _).
  - reflexivity.
  - repeat constructor; discriminate.
  - apply fs_closed_by_entries. vm_compute map_to_list.
    repeat constructor; cbn [fst]; first [left; reflexivity | right; reflexivity].
  - vm_compute. lia.
  - intros i Hi. replace i with 0 by lia. reflexivity.
  - intros i Hi. change (length (parts (path_of "docs/src"))) with 2 in Hi.
    assert (Hcases : i = 1 ∨ i = 2) by lia.
    destruct Hcases as [-> | ->]; reflexivity.
  - reflexivity.
  - reflexivity.
  - reflexivity.
  - reflexivity.
  - reflexivity.
  - reflexivity.
  - reflexivity.
  - reflexivity.
Defined.

(** ** The build step, when the builder fails *)

(** X13. How [_build_with_sphinx] fails. When the builder cannot be
    started, its error is raised and the filesystem is as it was. When
    the builder exits with a non-zero status, [CalledProcessError] is
    raised whatever the builder printed (the marker included), and what
    the builder did to the filesystem stays. In both cases the builder
    was started once, on [sphinx-build -b rst <doc_src> <build_dir>]. *)
Theorem build_failures (run : list string → filesystem → proc_outcome)
    (config : DocConfig) (w : world) (s b : string) :
  let args := ["sphinx-build"; "-b"; "rst"; s; b] in
  let started := trace w ++ [EvBuild (pyproject_path config) args (fs w)] in
  doc_src config = VStr s →
  derived config !! "build_dir" = Some (VStr b) →
  (∀ e, run args (fs w) = SpawnFailed e →
        _build_with_sphinx run config w = (Raise e, {| fs := fs w; trace := started |})) ∧
  (∀ returncode stdout after,
     run args (fs w) = Completed returncode stdout after →
     returncode ≠ 0%Z →
     _build_with_sphinx run config w =
       (Raise (CalledProcessError returncode), {| fs := after; trace := started |})).
Proof.
  intros args started Hsrc Hb. split.
  - intros e Hrun.
    unfold _build_with_sphinx, subprocess_run_check, bind, lift, get_fs, mark, raise.
    cbn [py_getitem]. rewrite Hb, Hsrc. cbn [argv rbind fs trace]. fold args.
    rewrite Hrun. reflexivity.
  - intros returncode stdout after Hrun Hrc.
    apply (build_fails run config w s b returncode stdout after); assumption.
Qed.

Lemma build_failures_witness :
  _build_with_sphinx (demo_sphinx 2 "writing output") demo_config
    {| fs := demo_fs; trace := [] |} =
    (Raise (CalledProcessError 2),
     {| fs := <[["tmp"; "tmpdoccer"; "index.rst"] := File "built"]> demo_fs;
        trace := [] ++ [EvBuild "pyproject.toml"
                          ["sphinx-build"; "-b"; "rst"; "docs/src"; "/tmp/tmpdoccer"]
                          demo_fs] |}).
Proof.
  refine (proj2 (build_failures (demo_sphinx 2 "writing output") demo_config
                   {| fs := demo_fs; trace := [] |} "docs/src" "/tmp/tmpdoccer" _ _)
            2%Z "writing output" _ _ _).
  - reflexivity.
  - reflexivity.
  - reflexivity.
  - discriminate.
Defined.

(** ** Deployment, at its edges *)

Lemma deploy_docs_unfold (cwd : list string) (config : DocConfig) (w : world)
    (b d : string) :
  derived config !! "build_dir" = Some (VStr b) →
  derived config !! "deploy_dir" = Some (VStr d) →
  _deploy_docs cwd config w =
    for_ (rglob cwd (path_of b) "*.rst" (fs w))
      (λ docfile,
         rel <- lift (relative_to docfile (path_of b)) ;;
         update_fs (shutil_copy (resolve cwd docfile)
                      (resolve cwd (path_div (path_of d) rel))))
      {| fs := fs w; trace := trace w ++ [EvDeploy (pyproject_path config)] |}.
Proof.
  intros Hb Hd. unfold _deploy_docs, bind, mark, lift, get_fs.
  cbn [py_getitem fs trace]. rewrite Hd, Hb. reflexivity.
Qed.

(** X14. When nothing under the build directory matches [*.rst] (an
    empty build, or one that wrote only other files), deployment returns
    and the filesystem is as it was. *)
Theorem deploy_nothing (cwd : list string) (config : DocConfig) (w : world)
    (b d : string) :
  derived config !! "build_dir" = Some (VStr b) →
  derived config !! "deploy_dir" = Some (VStr d) →
  in_model (path_of b) →
  (∀ rel, rel ≠ [] → fnmatch "*.rst" (List.last rel EmptyString) = true →
          fs w !! (resolve cwd (path_of b) ++ rel) = None) →
  _deploy_docs cwd config w =
    (Ok tt, {| fs := fs w; trace := trace w ++ [EvDeploy (pyproject_path config)] |}).
Proof.
  intros Hb Hd _ Hnone. rewrite (deploy_docs_unfold cwd config w b d Hb Hd).
  destruct (rglob cwd (path_of b) "*.rst" (fs w)) as [|p l] eqn:Hl; [reflexivity|].
  assert (Hp : p ∈ rglob cwd (path_of b) "*.rst" (fs w)) by (rewrite Hl; left).
  apply elem_of_rglob in Hp as (rel & Hne & Hm & [x Hx] & _).
  rewrite Hnone in Hx by assumption. discriminate.
Qed.

Lemma deploy_nothing_witness :
  _deploy_docs ["repo"] demo_config
    {| fs := <[["tmp"; "tmpdoccer"; "objects.inv"] := File "inventory"]>
               (<[["tmp"; "tmpdoccer"] := Dir]> demo_fs);
       trace := [] |} =
    (Ok tt,
     {| fs := <[["tmp"; "tmpdoccer"; "objects.inv"] := File "inventory"]>
                (<[["tmp"; "tmpdoccer"] := Dir]> demo_fs);
        trace := [] ++ [EvDeploy "pyproject.toml"] |}).
Proof.
  refine (deploy_nothing ["repo"] demo_config
            {| fs := <[["tmp"; "tmpdoccer"; "objects.inv"] := File "inventory"]>
                       (<[["tmp"; "tmpdoccer"] := Dir]> demo_fs);
               trace := [] |} "/tmp/tmpdoccer" "." _ _ _ _).
  - reflexivity.
  - reflexivity.
  - repeat constructor; discriminate.
  - intros rel Hne Hm. cbn [fs].
    change (resolve ["repo"] (path_of "/tmp/tmpdoccer")) with ["tmp"; "tmpdoccer"].
    destruct (_ !! (["tmp"; "tmpdoccer"] ++ rel)) as [x|] eqn:Hx; [|reflexivity].
    exfalso. entries Hx; injection Hx as Hrel Hnode; subst;
      first [contradiction | discriminate Hm].
Defined.

(** X15. Under the conditions of C8's amended statement, deployment
    changes nothing but the destinations of the pages: every entry that
    differs afterwards is such a destination and holds its page's
    content (so a build output that is not a page is never copied), and
    the build directory itself is left as it was (pages are copied, not
    moved). *)
Theorem deploy_touches_only_pages (cwd : list string) (config : DocConfig) (w : world)
    (b d : string) :
  let B := resolve cwd (path_of b) in
  let D := resolve cwd (path_of d) in
  derived config !! "build_dir" = Some (VStr b) →
  derived config !! "deploy_dir" = Some (VStr d) →
  in_model (path_of b) →
  in_model (path_of d) →
  (∀ rel x,
     rel ≠ [] ∧ fnmatch "*.rst" (List.last rel EmptyString) = true →
     fs w !! (B ++ rel) = Some x →
     (∃ c, x = File c) ∧
     fs w !! removelast (D ++ rel) = Some Dir ∧
     fs w !! (D ++ rel) ≠ Some Dir ∧
     under B (D ++ rel) = None) →
  ∃ f',
    _deploy_docs cwd config w =
      (Ok tt, {| fs := f'; trace := trace w ++ [EvDeploy (pyproject_path config)] |}) ∧
    (∀ k, f' !! k ≠ fs w !! k →
          ∃ rel c, k = D ++ rel ∧ rel ≠ [] ∧
                   fnmatch "*.rst" (List.last rel EmptyString) = true ∧
                   fs w !! (B ++ rel) = Some (File c) ∧ f' !! k = Some (File c)) ∧
    (∀ suffix, f' !! (B ++ suffix) = fs w !! (B ++ suffix)).
Proof.
  intros B D Hb Hd _ _ Hgood.
  rewrite (deploy_docs_unfold cwd config w b d Hb Hd).
  destruct (copy_loop cwd (path_of b) (path_of d) (fs w) Hgood
              (rglob cwd (path_of b) "*.rst" (fs w)) (fs w)
              (trace w ++ [EvDeploy (pyproject_path config)]))
    as (f' & Hrun & Hinv & _).
  { intros p Hp. apply elem_of_rglob in Hp as (rel & Hne & Hm & Hsome & ->).
    exists rel. split; [split; assumption|]. split; [exact Hsome | reflexivity]. }
  { intros k. left. reflexivity. }
  exists f'. split; [exact Hrun|]. split.
  - intros k Hk. destruct (Hinv k) as [Heq | (rel & c & -> & [Hne Hm] & Hsrc & Hf)];
      [contradiction|].
    exists rel, c. auto.
  - intros suffix.
    destruct (Hinv (B ++ suffix)) as [Heq | (rel & c & Heq & Hrst & Hsrc & _)];
      [exact Heq|].
    destruct (Hgood rel _ Hrst Hsrc) as (_ & _ & _ & Hout).
    fold D in Heq. rewrite <- Heq, under_app in Hout. discriminate.
Qed.

Lemma deploy_touches_only_pages_witness :
  ∃ f',
    _deploy_docs ["repo"] demo_config {| fs := flat_build_fs; trace := [] |} =
      (Ok tt, {| fs := f'; trace := [] ++ [EvDeploy "pyproject.toml"] |}) ∧
    (∀ k, f' !! k ≠ flat_build_fs !! k →
          ∃ rel c, k = ["repo"] ++ rel ∧ rel ≠ [] ∧
                   fnmatch "*.rst" (List.last rel EmptyString) = true ∧
                   flat_build_fs !! (["tmp"; "tmpdoccer"] ++ rel) = Some (File c) ∧
                   f' !! k = Some (File c)) ∧
    (∀ suffix, f' !! (["tmp"; "tmpdoccer"] ++ suffix)
               = flat_build_fs !! (["tmp"; "tmpdoccer"] ++ suffix)).
Proof.
  refine (deploy_touches_only_pages ["repo"] demo_config
            {| fs := flat_build_fs; trace := [] |} "/tmp/tmpdoccer" "." _ _ _ _ _).
  - reflexivity.
  - reflexivity.
  - repeat constructor; discriminate.
  - constructor.
  - intros rel x [Hne Hm] Hx. cbn [fs] in Hx.
    change (resolve ["repo"] (path_of "/tmp/tmpdoccer")) with ["tmp"; "tmpdoccer"] in *.
    change (resolve ["repo"] (path_of ".")) with ["repo"] in *.
    entries Hx; injection Hx as Hrel Hnode; subst;
      first [contradiction | discriminate Hm
            | split; [eexists; reflexivity|]; repeat split; vm_compute; congruence].
Defined.

(** X16. Deploying a directory onto itself fails at the first page: when
    the build and deploy directories are the same place and the first
    entry found is a regular file, [shutil.copy] raises [SameFileError]
    and nothing has changed. *)
Theorem deploy_onto_itself (cwd : list string) (config : DocConfig) (w : world)
    (b d : string) (p : Path) (rest : list Path) (c : string) :
  derived config !! "build_dir" = Some (VStr b) →
  derived config !! "deploy_dir" = Some (VStr d) →
  in_model (path_of b) →
  in_model (path_of d) →
  resolve cwd (path_of b) = resolve cwd (path_of d) →
  rglob cwd (path_of b) "*.rst" (fs w) = p :: rest →
  fs w !! resolve cwd p = Some (File c) →
  _deploy_docs cwd config w =
    (Raise SameFileError,
     {| fs := fs w; trace := trace w ++ [EvDeploy (pyproject_path config)] |}).
Proof.
  intros Hb Hd _ _ Hsame Hfound Hfile.
  rewrite (deploy_docs_unfold cwd config w b d Hb Hd). rewrite Hfound.
  assert (Hp : p ∈ rglob cwd (path_of b) "*.rst" (fs w)) by (rewrite Hfound; left).
  apply elem_of_rglob in Hp as (rel & Hne & Hm & _ & ->).
  cbn [for_]. unfold bind, lift, update_fs, relative_to. cbn [absolute parts fs trace].
  rewrite eqb_reflx, under_app.
  replace (resolve cwd {| absolute := absolute (path_of b);
                          parts := parts (path_of b) ++ rel |})
    with (resolve cwd (path_of b) ++ rel) in *
    by (unfold resolve; cbn [absolute parts]; symmetry; apply app_assoc).
  replace (resolve cwd (path_div (path_of d) {| absolute := false; parts := rel |}))
    with (resolve cwd (path_of b) ++ rel)
    by (rewrite Hsame; unfold resolve, path_div; cbn [absolute parts];
        symmetry; apply app_assoc).
  unfold shutil_copy. rewrite Hfile.
  destruct (decide (resolve cwd (path_of b) ++ rel = resolve cwd (path_of b) ++ rel));
    [reflexivity | contradiction].
Qed.

Lemma deploy_onto_itself_witness :
  _deploy_docs ["repo"] in_place_config {| fs := page_fs; trace := [] |} =
    (Raise SameFileError,
     {| fs := page_fs; trace := [] ++ [EvDeploy "pyproject.toml"] |}).
Proof.
  refine (deploy_onto_itself ["repo"] in_place_config {| fs := page_fs; trace := [] |}
            "." "." (path_of "index.rst") [] "index" _ _ _ _ _ _ _).
  - reflexivity.
  - reflexivity.
  - constructor.
  - constructor.
  - reflexivity.
  - vm_compute. reflexivity.
  - reflexivity.
Defined.

(** ** One project, from start to finish *)

(** The build and deploy stages read the manifest's path, the source
    directory and the derived fields of a configuration, nothing else. *)
Lemma build_reads (run : list string → filesystem → proc_outcome)
    (config config' : DocConfig) (w : world) :
  pyproject_path config' = pyproject_path config →
  doc_src config' = doc_src config →
  derived config' = derived config →
  _build_with_sphinx run config' w = _build_with_sphinx run config w.
Proof.
  intros Hp Hs Hd. unfold _build_with_sphinx. rewrite Hp, Hs, Hd. reflexivity.
Qed.

Lemma deploy_reads (cwd : list string) (config config' : DocConfig) (w : world) :
  pyproject_path config' = pyproject_path config →
  derived config' = derived config →
  _deploy_docs cwd config' w = _deploy_docs cwd config w.
Proof.
  intros Hp Hd. unfold _deploy_docs. rewrite Hp, Hd. reflexivity.
Qed.

(** X17. One project whose source directory exists, a builder that
    exits with status 0, prints UTF-8 and leaves the temporary directory
    a directory, and pages that deployment can place (as in C8's amended
    statement, read on the filesystem the builder leaves): the iteration returns; exactly two stages are
    entered, the build and then the deployment, and the builder is given
    the temporary directory as its output directory and starts from the
    filesystem with nothing but that directory added; afterwards every
    page the builder wrote is at the same relative path under the deploy
    directory, the temporary directory and all below it are gone, and
    every other entry is as the builder left it. *)
Theorem hook_publishes (cwd : list string)
    (get_template : string → result (DocConfig → result string))
    (run : list string → filesystem → proc_outcome)
    (mkdtemp : filesystem → string)
    (config : DocConfig) (w : world) (s d stdout : string) (after : filesystem) :
  let tmpdir := mkdtemp (fs w) in
  let k := resolve cwd (path_of tmpdir) in
  let D := resolve cwd (path_of d) in
  let fs1 := <[k := Dir]> (fs w) in
  let args := ["sphinx-build"; "-b"; "rst"; s; tmpdir] in
  fs w !! k = None →
  fs w !! removelast k = Some Dir →
  doc_src config = VStr s →
  derived config !! "deploy_dir" = Some (VStr d) →
  in_model (path_of s) →
  in_model (path_of d) →
  in_model (path_of tmpdir) →
  fs_exists (resolve cwd (path_of s)) fs1 = true →
  run args fs1 = Completed 0 stdout after →
  utf8_valid stdout = true →
  after !! k = Some Dir →
  (∀ rel x,
     rel ≠ [] ∧ fnmatch "*.rst" (List.last rel EmptyString) = true →
     after !! (k ++ rel) = Some x →
     (∃ c, x = File c) ∧
     after !! removelast (D ++ rel) = Some Dir ∧
     after !! (D ++ rel) ≠ Some Dir ∧
     under k (D ++ rel) = None) →
  ∃ final,
    hook_body cwd get_template run mkdtemp config w =
      (Ok tt,
       {| fs := final;
          trace := trace w ++ [EvBuild (pyproject_path config) args fs1;
                               EvDeploy (pyproject_path config)] |}) ∧
    (∀ rel c, rel ≠ [] → fnmatch "*.rst" (List.last rel EmptyString) = true →
              after !! (k ++ rel) = Some (File c) →
              final !! (D ++ rel) = Some (File c)) ∧
    (∀ suffix, final !! (k ++ suffix) = None) ∧
    (∀ key, under k key = None → under D key = None → final !! key = after !! key).
Proof.
  intros tmpdir k D fs1 args Hfresh Hparent Hsrc Hd _ _ _ Hexists Hrun Hutf Hdir Hgood.
  destruct (deploy_loop cwd (path_of tmpdir) (path_of d) after Hgood
              ((trace w ++ [EvBuild (pyproject_path config) args fs1])
                 ++ [EvDeploy (pyproject_path config)]))
    as (f' & Hloop & Hcopied & Hdirs & Hrest).
  assert (Hkept : f' !! k = Some Dir) by (apply Hdirs; exact Hdir).
  exists (rmtree k f'). split; [|split; [|split]].
  - unfold hook_body, TemporaryDirectory. fold tmpdir. fold k.
    rewrite Hfresh, Hparent. fold fs1.
    unfold bind at 1. unfold lift at 1. cbn [doc_src set_derived]. rewrite Hsrc.
    cbn [py_Path]. unfold bind at 1. unfold get_fs at 1. cbn [fs].
    rewrite Hexists. unfold bind at 1. unfold ret at 1. unfold bind at 1.
    erewrite (build_classifies run _ _ s tmpdir stdout after);
      cbn [fs trace doc_src derived pyproject_path];
      [| exact Hsrc | apply lookup_insert_eq | exact Hrun | exact Hutf].
    erewrite (deploy_docs_unfold cwd _ _ tmpdir d);
      cbn [fs trace derived pyproject_path];
      [| apply lookup_insert_eq
       | unfold set_derived; cbn [derived];
         rewrite lookup_insert_ne by discriminate; exact Hd].
    fold args. change (pyproject_path (set_derived "build_dir" (VStr tmpdir) config))
      with (pyproject_path config).
    rewrite Hloop. cbn [fs trace]. rewrite Hkept, <- app_assoc. reflexivity.
  - intros rel c Hne Hm Hpage.
    destruct (Hgood rel _ (conj Hne Hm) Hpage) as (_ & _ & _ & Hout).
    rewrite (rmtree_outside k (D ++ rel) f' Hout).
    apply (Hcopied rel c Hne Hm Hpage).
  - intros suffix. apply rmtree_inside.
  - intros key Hk HD. rewrite (rmtree_outside k key f' Hk). apply Hrest. exact HD.
Qed.

Lemma hook_publishes_witness :
  ∃ final,
    hook_body ["repo"] demo_templates (demo_sphinx 0 "writing output") demo_mkdtemp
      demo_config {| fs := demo_fs; trace := [] |} =
      (Ok tt,
       {| fs := final;
          trace := [] ++ [EvBuild "pyproject.toml"
                            ["sphinx-build"; "-b"; "rst"; "docs/src"; "/tmp/tmpdoccer"]
                            (<[["tmp"; "tmpdoccer"] := Dir]> demo_fs);
                          EvDeploy "pyproject.toml"] |}) ∧
    (∀ rel c, rel ≠ [] → fnmatch "*.rst" (List.last rel EmptyString) = true →
              (<[["tmp"; "tmpdoccer"; "index.rst"] := File "built"]>
                 (<[["tmp"; "tmpdoccer"] := Dir]> demo_fs))
                !! (["tmp"; "tmpdoccer"] ++ rel) = Some (File c) →
              final !! (["repo"] ++ rel) = Some (File c)) ∧
    (∀ suffix, final !! (["tmp"; "tmpdoccer"] ++ suffix) = None) ∧
    (∀ key, under ["tmp"; "tmpdoccer"] key = None → under ["repo"] key = None →
            final !! key =
              (<[["tmp"; "tmpdoccer"; "index.rst"] := File "built"]>
                 (<[["tmp"; "tmpdoccer"] := Dir]> demo_fs)) !! key).
Proof.
  refine (hook_publishes ["repo"] demo_templates (demo_sphinx 0 "writing output")
            demo_mkdtemp demo_config {| fs := demo_fs; trace := [] |}
            "docs/src" "." "writing output"
            (<[["tmp"; "tmpdoccer"; "index.rst"] := File "built"]>
               (<[["tmp"; "tmpdoccer"] := Dir]> demo_fs))
            _ _ _ _ _ _ _ _ _ _ _ _).
  - reflexivity.
  - reflexivity.
  - reflexivity.
  - reflexivity.
  - repeat constructor; discriminate.
  - constructor.
  - repeat constructor; discriminate.
  - reflexivity.
  - reflexivity.
  - reflexivity.
  - reflexivity.
  - intros rel x [Hne Hm] Hx.
    change (resolve ["repo"] (path_of (demo_mkdtemp (fs {| fs := demo_fs; trace := [] |}))))
      with ["tmp"; "tmpdoccer"] in *.
    change (resolve ["repo"] (path_of ".")) with ["repo"] in *.
    entries Hx; injection Hx as Hrel Hnode; subst;
      first [contradiction | discriminate Hm
            | split; [eexists; reflexivity|]; repeat split; vm_compute; congruence].
Defined.

(** ** Walking down to an entry *)

(** In a closed filesystem everything above a directory is a directory. *)
Lemma closed_above (f : filesystem) (k : list string) (i : nat) :
  fs_closed f → f !! k = Some Dir → f !! take i k = Some Dir.
Proof.
  intros Hclosed. revert i. induction k as [|x k IH] using rev_ind; intros i Hk.
  - rewrite take_nil. exact Hk.
  - destruct (decide (length k < i)) as [Hlt | Hge].
    + rewrite take_ge by (rewrite length_app; cbn [length]; lia). exact Hk.
    + rewrite take_app_le by lia. apply IH.
      apply (Hclosed k x). eexists. exact Hk.
Qed.

(** The way to a name in a directory of a closed filesystem meets no
    regular file. *)
Lemma through_dirs (f : filesystem) (k : list string) (x : string) :
  fs_closed f → f !! k = Some Dir → through_file (k ++ [x]) f = false.
Proof.
  intros Hclosed Hk. unfold through_file.
  apply not_true_is_false. intros H. apply existsb_exists in H as (i & Hi & Hfile).
  apply in_seq in Hi. rewrite length_app in Hi. cbn [length] in Hi.
  rewrite take_app_le in Hfile by lia.
  rewrite (closed_above f k i Hclosed Hk) in Hfile. discriminate.
Qed.

(** The way to a name below a regular file meets that file. *)
Lemma through_file_above (f : filesystem) (k : list string) (x c : string) :
  f !! k = Some (File c) → through_file (k ++ [x]) f = true.
Proof.
  intros Hk. unfold through_file. apply existsb_exists. exists (length k). split.
  - apply in_seq. rewrite length_app. cbn [length]. lia.
  - rewrite take_app_length, Hk. reflexivity.
Qed.

(** With the source directory there, the body of an iteration is the
    build followed by the deployment. *)
Lemma source_found (cwd : list string)
    (get_template : string → result (DocConfig → result string))
    (run : list string → filesystem → proc_outcome)
    (config : DocConfig) (w : world) (s : string) :
  doc_src config = VStr s →
  fs_exists (resolve cwd (path_of s)) (fs w) = true →
  (source_path <- lift (py_Path (doc_src config)) ;;
   fs0 <- get_fs ;;
   (if fs_exists (resolve cwd source_path) fs0 then ret tt
    else _generate_sample_docs_source cwd get_template config) ;;
   _ <- _build_with_sphinx run config ;;
   _deploy_docs cwd config) w =
  (_ <- _build_with_sphinx run config ;; _deploy_docs cwd config) w.
Proof.
  intros Hsrc Hexists.
  unfold bind at 1. unfold lift at 1. rewrite Hsrc. cbn [py_Path].
  unfold bind at 1. unfold get_fs at 1. cbn [fs]. rewrite Hexists.
  unfold bind at 1. unfold ret at 1. reflexivity.
Qed.

(** X19. For a project whose source directory exists, the manifest's
    [doc_dest] and [py_modules] settings and the raw manifest kept in
    the configuration have no effect on the run: the iteration with any
    other values of the three is the same, in result and in world. *)
Theorem destination_setting_unused (cwd : list string)
    (get_template : string → result (DocConfig → result string))
    (run : list string → filesystem → proc_outcome)
    (mkdtemp : filesystem → string)
    (config : DocConfig) (w : world) (s : string)
    (dest modules : value) (data : gmap string value) :
  doc_src config = VStr s →
  in_model (path_of s) →
  fs_exists (resolve cwd (path_of s)) (fs w) = true →
  hook_body cwd get_template run mkdtemp (with_unread dest modules data config) w =
  hook_body cwd get_template run mkdtemp config w.
Proof.
  intros Hsrc _ Hexists. unfold hook_body, TemporaryDirectory.
  destruct (fs w !! resolve cwd (path_of (mkdtemp (fs w)))) as [x|] eqn:Hk; [reflexivity|].
  destruct (fs w !! removelast (resolve cwd (path_of (mkdtemp (fs w))))) as [[c|]|];
    [reflexivity| |reflexivity].
  assert (Hthere : fs_exists (resolve cwd (path_of s))
                     (<[resolve cwd (path_of (mkdtemp (fs w))) := Dir]> (fs w)) = true).
  { unfold fs_exists in *.
    destruct (decide (resolve cwd (path_of s) = resolve cwd (path_of (mkdtemp (fs w)))))
      as [->|Hne].
    - rewrite lookup_insert_eq. reflexivity.
    - rewrite lookup_insert_ne by congruence. exact Hexists. }
  rewrite !(source_found cwd get_template run _ _ s)
    by (try exact Hthere; cbn [doc_src set_derived with_unread]; exact Hsrc).
  unfold bind.
  rewrite (build_reads run (set_derived "build_dir" (VStr (mkdtemp (fs w))) config)
             (set_derived "build_dir" (VStr (mkdtemp (fs w)))
                (with_unread dest modules data config)))
    by reflexivity.
  destruct (_build_with_sphinx run _ _) as [[changed|e] w1]; [|reflexivity].
  rewrite (deploy_reads cwd (set_derived "build_dir" (VStr (mkdtemp (fs w))) config)
             (set_derived "build_dir" (VStr (mkdtemp (fs w)))
                (with_unread dest modules data config)))
    by reflexivity.
  reflexivity.
Qed.

Lemma destination_setting_unused_witness :
  hook_body ["repo"] demo_templates (demo_sphinx 0 "writing output") demo_mkdtemp
    (with_unread (VStr "site") (VList [VStr "pkg"]) full_toml demo_config)
    {| fs := demo_fs; trace := [] |} =
  hook_body ["repo"] demo_templates (demo_sphinx 0 "writing output") demo_mkdtemp
    demo_config {| fs := demo_fs; trace := [] |}.
Proof.
  refine (destination_setting_unused ["repo"] demo_templates
            (demo_sphinx 0 "writing output") demo_mkdtemp demo_config
            {| fs := demo_fs; trace := [] |} "docs/src"
            (VStr "site") (VList [VStr "pkg"]) full_toml _ _ _).
  - reflexivity.
  - repeat constructor; discriminate.
  - reflexivity.
Defined.

(** ** The project's flavour, and the manifest reader *)

(** X20. [_get_project_type] never answers [SETUP_PY] or [UNKNOWN], for
    any project root in any world, and it changes nothing: the first
    condition tests a path object, which is always true, so the two
    other branches are never taken. *)
Theorem project_type_never_unknown (cwd : list string)
    (tomli_load : string → result (gmap string value))
    (project_root : Path) (w : world) :
  (_get_project_type cwd tomli_load project_root w).1 ≠ Ok (Some SETUP_PY) ∧
  (_get_project_type cwd tomli_load project_root w).1 ≠ Ok (Some UNKNOWN) ∧
  (_get_project_type cwd tomli_load project_root w).2 = w.
Proof.
  unfold _get_project_type, path_truthy, bind, lift, get_fs, ret.
  destruct (fs_read _ _) as [data|]; cbn [fst snd]; [|repeat split; discriminate].
  destruct (tomli_load data) as [toml|]; cbn [fst snd]; [|repeat split; discriminate].
  destruct (py_get _ "poetry") as [poetry|]; cbn [fst snd]; [|repeat split; discriminate].
  destruct (from_option truthy false poetry); cbn [fst snd]; [repeat split; discriminate|].
  destruct (py_get _ "pdm") as [pdm|]; cbn [fst snd]; [|repeat split; discriminate].
  destruct (from_option truthy false pdm); cbn [fst snd]; repeat split; discriminate.
Qed.

(** X21. In a closed filesystem, a project root that is a directory
    without a [pyproject.toml] makes [_get_project_type] raise
    [FileNotFoundError], whatever else the directory holds (a [setup.py],
    say); a project root that is a regular file makes it raise
    [NotADirectoryError]. *)
Theorem project_type_needs_manifest (cwd : list string)
    (tomli_load : string → result (gmap string value))
    (project_root : Path) (w : world) :
  in_model project_root →
  fs_closed (fs w) →
  fs w !! (resolve cwd project_root ++ ["pyproject.toml"]) = None →
  (fs w !! resolve cwd project_root = Some Dir →
   _get_project_type cwd tomli_load project_root w = (Raise FileNotFoundError, w)) ∧
  (∀ c, fs w !! resolve cwd project_root = Some (File c) →
        _get_project_type cwd tomli_load project_root w = (Raise NotADirectoryError, w)).
Proof.
  intros _ Hclosed Hnone.
  assert (Hkey : resolve cwd (path_div project_root (path_of "pyproject.toml"))
                 = resolve cwd project_root ++ ["pyproject.toml"]).
  { unfold resolve, path_div. cbn [absolute parts path_of].
    change (List.filter is_component (split_on "/" "pyproject.toml"))
      with ["pyproject.toml"].
    change (String.prefix "/" "pyproject.toml") with false. cbn [absolute parts].
    apply app_assoc. }
  split.
  - intros Hroot.
    unfold _get_project_type, path_truthy, bind, lift, get_fs, fs_read.
    rewrite Hkey, Hnone.
    rewrite (through_dirs (fs w) (resolve cwd project_root) "pyproject.toml" Hclosed Hroot).
    reflexivity.
  - intros c Hroot.
    unfold _get_project_type, path_truthy, bind, lift, get_fs, fs_read.
    rewrite Hkey, Hnone.
    rewrite (through_file_above (fs w) (resolve cwd project_root) "pyproject.toml" c Hroot).
    reflexivity.
Qed.

Lemma project_type_needs_manifest_witness :
  setup_py_fs !! ["repo"; "setup.py"] = Some (File "from setuptools import setup") ∧
  _get_project_type ["repo"] demo_tomli (path_of ".") {| fs := setup_py_fs; trace := [] |} =
    (Raise FileNotFoundError, {| fs := setup_py_fs; trace := [] |}) ∧
  _get_project_type ["repo"] demo_tomli (path_of "setup.py")
    {| fs := setup_py_fs; trace := [] |} =
    (Raise NotADirectoryError, {| fs := setup_py_fs; trace := [] |}).
Proof.
  assert (Hclosed : fs_closed setup_py_fs).
  { apply fs_closed_by_entries. vm_compute map_to_list.
    repeat constructor; cbn [fst]; first [left; reflexivity | right; reflexivity]. }
  split; [reflexivity|]. split.
  - refine (proj1 (project_type_needs_manifest ["repo"] demo_tomli (path_of ".")
                     {| fs := setup_py_fs; trace := [] |} _ _ _) _).
    + constructor.
    + exact Hclosed.
    + reflexivity.
    + reflexivity.
  - refine (proj2 (project_type_needs_manifest ["repo"] demo_tomli (path_of "setup.py")
                     {| fs := setup_py_fs; trace := [] |} _ _ _)
              "from setuptools import setup" _).
    + repeat constructor; discriminate.
    + exact Hclosed.
    + reflexivity.
    + reflexivity.
Defined.

(** X22. What [_get_project_type] answers for a manifest that parses and
    whose [tool] entry, if any, is a table: [POETRY] when the table has
    a [poetry] entry that is not empty, also when it has a [pdm] entry
    as well; otherwise [PDM] when it has a [pdm] entry that is not
    empty; otherwise Python's [None], which is no [ProjectType] at all
    (not [UNKNOWN]). *)
Theorem project_type_classification (cwd : list string)
    (tomli_load : string → result (gmap string value))
    (project_root : Path) (w : world) (data : string)
    (toml tool : gmap string value) :
  in_model project_root →
  fs w !! resolve cwd (path_div project_root (path_of "pyproject.toml"))
    = Some (File data) →
  tomli_load data = Ok toml →
  default (VTable ∅) (toml !! "tool") = VTable tool →
  let set k := from_option truthy false (tool !! k) in
  (set "poetry" = true →
   _get_project_type cwd tomli_load project_root w = (Ok (Some POETRY), w)) ∧
  (set "poetry" = false → set "pdm" = true →
   _get_project_type cwd tomli_load project_root w = (Ok (Some PDM), w)) ∧
  (set "poetry" = false → set "pdm" = false →
   _get_project_type cwd tomli_load project_root w = (Ok None, w)).
Proof.
  intros _ Hfile Hparse Htool set.
  assert (Hrun : _get_project_type cwd tomli_load project_root w =
                 (Ok (if set "poetry" then Some POETRY
                      else if set "pdm" then Some PDM else None), w)).
  { unfold _get_project_type, path_truthy, bind, lift, get_fs, ret, fs_read.
    rewrite Hfile, Hparse, Htool. cbn [py_get]. fold (set "poetry"). fold (set "pdm").
    destruct (set "poetry"); [reflexivity|]. destruct (set "pdm"); reflexivity. }
  rewrite Hrun. repeat split.
  - intros ->. reflexivity.
  - intros -> ->. reflexivity.
  - intros -> ->. reflexivity.
Qed.

Lemma project_type_classification_witness :
  _get_project_type ["repo"] project_tomli (path_of ".")
    {| fs := <[["repo"; "pyproject.toml"] := File "poetry"]> demo_fs; trace := [] |} =
    (Ok (Some POETRY),
     {| fs := <[["repo"; "pyproject.toml"] := File "poetry"]> demo_fs; trace := [] |}) ∧
  _get_project_type ["repo"] project_tomli (path_of ".")
    {| fs := demo_fs; trace := [] |} = (Ok None, {| fs := demo_fs; trace := [] |}).
Proof.
  split.
  - refine (proj1 (project_type_classification ["repo"] project_tomli (path_of ".")
                     {| fs := <[["repo"; "pyproject.toml"] := File "poetry"]> demo_fs;
                        trace := [] |}
                     "poetry" poetry_toml
                     (<["poetry" := VTable (<["name" := VStr "demo"]> ∅)]>
                        (<["pdm" := VTable (<["version" := VStr "1"]> ∅)]> ∅))
                     _ _ _ _) _).
    + constructor.
    + reflexivity.
    + reflexivity.
    + reflexivity.
    + reflexivity.
  - refine (proj2 (proj2 (project_type_classification ["repo"] project_tomli (path_of ".")
                     {| fs := demo_fs; trace := [] |}
                     "demo" demo_toml (<["doccer" := VTable ∅]> ∅)
                     _ _ _ _)) _ _).
    + constructor.
    + reflexivity.
    + reflexivity.
    + reflexivity.
    + reflexivity.
    + reflexivity.
Defined.

(** X23. The loader and the reader agree: whenever [_load_config]
    returns a configuration for a manifest, [PyprojectReader] on the
    same path succeeds, what it keeps in [toml] is the configuration's
    [pyproject_data], the configuration's [pyproject_path] is that
    path as a string, and neither changes the world. *)
Theorem reader_agrees_with_loader (cwd : list string)
    (tomli_load : string → result (gmap string value))
    (pyproject : Path) (w w' : world) (config : DocConfig) :
  _load_config cwd tomli_load pyproject w = (Ok (Some config), w') →
  PyprojectReader cwd tomli_load pyproject w = (Ok (pyproject_data config), w) ∧
  pyproject_path config = path_str pyproject ∧
  w' = w.
Proof.
  unfold _load_config, PyprojectReader, bind, lift, get_fs.
  destruct (fs_read _ _) as [data|]; [|intros; discriminate].
  destruct (tomli_load data) as [toml|]; [|intros; discriminate].
  destruct (_load_config_toml pyproject toml) as [o|] eqn:Hload; [|intros; discriminate].
  intros [= -> <-]. apply load_config_toml_data in Hload as [-> Hpath].
  repeat split. exact Hpath.
Qed.

Lemma reader_agrees_with_loader_witness :
  ∃ config,
    _load_config ["repo"] demo_tomli (path_of "pyproject.toml")
      {| fs := demo_fs; trace := [] |} =
      (Ok (Some config), {| fs := demo_fs; trace := [] |}) ∧
    PyprojectReader ["repo"] demo_tomli (path_of "pyproject.toml")
      {| fs := demo_fs; trace := [] |} =
      (Ok (pyproject_data config), {| fs := demo_fs; trace := [] |}) ∧
    pyproject_path config = path_str (path_of "pyproject.toml") ∧
    {| fs := demo_fs; trace := [] |} = {| fs := demo_fs; trace := [] |}.
Proof.
  eexists. split; [vm_compute; reflexivity|].
  refine (reader_agrees_with_loader ["repo"] demo_tomli (path_of "pyproject.toml")
            {| fs := demo_fs; trace := [] |} {| fs := demo_fs; trace := [] |} _ _).
  vm_compute. reflexivity.
Defined.


